(** * ModeratorBot: sliding-window rate limiter, violation ledger and
      escalation coordinator

    A shallow embedding of the core of the bot:
    - [config/settings.py]   as [Module Settings],
    - [src/rate_limiter.py]  as [Module RateLimiter],
    - [src/database.py]      as [Module Database],
    - [src/moderation.py]    as [Module Moderation],
    - [src/bot.py]           as [Module Bot] (the handlers that call them),
    followed by the properties of the specification, each stated over these
    definitions.

    Conventions.  Python [int] is [Z].  A [str] is the byte string of its
    UTF-8 encoding.  A clock reading ([time.time()], a [datetime]) is an
    exact number of clock ticks in [Z], for a [datetime] the microseconds
    since 1970-01-01T00:00:00; the ISO-8601 text that the ledger stores
    for a naive UTC [datetime] orders and compares as the [datetime] itself
    does, so the ledger column is that number too.  A Python exception is
    the [Raise] branch of [result]. *)

From Stdlib Require Import ZArith List Bool Lia String Ascii Sorted.
From Stdlib Require Import DecimalString DecimalPos.
From stdpp Require Import gmap list strings sorting.

Local Open Scope Z_scope.

(** ** Python values shared by all modules *)

Inductive exn : Type :=
| ValueError (msg : string)
| IndexError
| IntegrityError
| OverflowError.

Inductive result (A : Type) : Type :=
| Ok (a : A)
| Raise (e : exn).

Arguments Ok {A} a.
Arguments Raise {A} e.

Definition rbind {A B : Type} (r : result A) (k : A -> result B) : result B :=
  match r with
  | Ok a => k a
  | Raise e => Raise e
  end.

Notation "x <-! r ; k" := (rbind r (fun x => k))
  (at level 100, r at next level, right associativity, only parsing).

(** [l[i]] on a Python list: a negative index counts from the end, an index
    outside [-len, len) raises [IndexError]. *)
Definition py_index {A : Type} (l : list A) (i : Z) : result A :=
  let n := Z.of_nat (length l) in
  let j := if i <? 0 then i + n else i in
  if (0 <=? j) && (j <? n)
  then match l !! Z.to_nat j with
       | Some x => Ok x
       | None => Raise IndexError
       end
  else Raise IndexError.

(** The decimal text of an [int]: its digits, with a sign when negative. *)
Definition py_str (z : Z) : string := NilZero.string_of_int (Z.to_int z).

(** [sys.int_info.default_max_str_digits]: the conversions between [int]
    and decimal text refuse more digits with [ValueError]. *)
Definition max_str_digits : Z := 4300.

(** [str(z)], and [z] in a formatted text. *)
Definition format_int (z : Z) : result string :=
  if max_str_digits <? Z.of_nat (String.length (py_str (Z.abs z)))
  then Raise (ValueError "Exceeds the limit (4300 digits) for integer string conversion; use sys.set_int_max_str_digits() to increase the limit")
  else Ok (py_str z).

(** A [datetime] is its number of microseconds since 1970-01-01T00:00:00;
    [datetime.min] is 0001-01-01T00:00:00 and [datetime.max] is
    9999-12-31T23:59:59.999999. *)
Definition datetime_min : Z := -62135596800000000.
Definition datetime_max : Z := 253402300799999999.

(** [d + timedelta(microseconds=delta)] for a [datetime] [d]: building the
    [timedelta] raises [OverflowError] when its days are beyond 999999999
    either way, and so does the sum when it leaves the range of
    [datetime]. *)
Definition datetime_add (d delta : Z) : result Z :=
  let days := delta / 86400000000 in
  if (-999999999 <=? days) && (days <=? 999999999) then
    let sum := d + delta in
    if (datetime_min <=? sum) && (sum <=? datetime_max) then Ok sum
    else Raise OverflowError
  else Raise OverflowError.

(** ** config/settings.py *)

Module Settings.

(** *** Text helpers used by [Config.__init__] *)

(** A Python [str] is held as the bytes of its UTF-8 encoding, the form
    in which the environment holds it.  [utf8_head] reads the character at
    the head of a text: its code point and the number of its bytes, or
    [None] when the head byte starts no well-formed sequence (overlong
    forms, surrogates and code points above U+10FFFF are not well
    formed). *)
Definition continuation (b : N) : bool := ((128 <=? b) && (b <=? 191))%N.

Definition utf8_head (l : list ascii) : option (N * nat) :=
  match map N_of_ascii l with
  | [] => None
  | b1 :: rest =>
      (if b1 <? 128 then Some (b1, 1%nat)
       else if (194 <=? b1) && (b1 <=? 223) then
         match rest with
         | b2 :: _ =>
             if continuation b2
             then Some ((b1 - 192) * 64 + (b2 - 128), 2%nat)
             else None
         | _ => None
         end
       else if (224 <=? b1) && (b1 <=? 239) then
         match rest with
         | b2 :: b3 :: _ =>
             if continuation b2 && continuation b3
                && (negb (b1 =? 224) || (160 <=? b2))
                && (negb (b1 =? 237) || (b2 <=? 159))
             then Some ((b1 - 224) * 4096 + (b2 - 128) * 64 + (b3 - 128),
                        3%nat)
             else None
         | _ => None
         end
       else if (240 <=? b1) && (b1 <=? 244) then
         match rest with
         | b2 :: b3 :: b4 :: _ =>
             if continuation b2 && continuation b3 && continuation b4
                && (negb (b1 =? 240) || (144 <=? b2))
                && (negb (b1 =? 244) || (b2 <=? 143))
             then Some ((b1 - 240) * 262144 + (b2 - 128) * 4096
                        + (b3 - 128) * 64 + (b4 - 128), 4%nat)
             else None
         | _ => None
         end
       else None)%N
  end.

(** The characters of a text, each with its code point and its bytes.  A
    byte that starts no well-formed sequence is a character of its own:
    the lone surrogate U+DC80 to U+DCFF that [os.environ] decodes it to.
    Every step takes at least one byte, so the length of the text is fuel
    enough. *)
Fixpoint utf8_chars_from (fuel : nat) (l : list ascii)
    : list (N * list ascii) :=
  match fuel, l with
  | S fuel', b :: _ =>
      match utf8_head l with
      | Some (cp, n) => (cp, take n l) :: utf8_chars_from fuel' (drop n l)
      | None =>
          ((56320 + N_of_ascii b)%N, [b]) :: utf8_chars_from fuel' (drop 1 l)
      end
  | _, _ => []
  end.

Definition utf8_chars (s : string) : list (N * list ascii) :=
  let l := list_ascii_of_string s in utf8_chars_from (length l) l.

(** [str.isspace]: the white space that [str.strip] removes. *)
Definition is_space (cp : N) : bool :=
  ((9 <=? cp) && (cp <=? 13) || (28 <=? cp) && (cp <=? 32)
   || (cp =? 133) || (cp =? 160) || (cp =? 5760)
   || (8192 <=? cp) && (cp <=? 8202) || (cp =? 8232) || (cp =? 8233)
   || (cp =? 8239) || (cp =? 8287) || (cp =? 12288))%N.

(** The code points of the digit zero of every script that has decimal
    digits (Unicode 14.0, the tables of Python 3.11); the nine code points
    after each are its digits one to nine. *)
Definition decimal_zeros : list N :=
  [48; 1632; 1776; 1984; 2406; 2534; 2662; 2790; 2918; 3046; 3174; 3302;
   3430; 3558; 3664; 3792; 3872; 4160; 4240; 6112; 6160; 6470; 6608; 6784;
   6800; 6992; 7088; 7232; 7248; 42528; 43216; 43264; 43472; 43504; 43600;
   44016; 65296; 66720; 68912; 69734; 69872; 69942; 70096; 70384; 70736;
   70864; 71248; 71360; 71472; 71904; 72016; 72784; 73040; 73120; 92768;
   92864; 93008; 120782; 120792; 120802; 120812; 120822; 123200; 123632;
   125264; 130032]%N.

(** [unicodedata.decimal] *)
Definition to_decimal (cp : N) : option N :=
  match List.find (fun zero => (zero <=? cp) && (cp <? zero + 10))%N
                  decimal_zeros with
  | Some zero => Some (cp - zero)%N
  | None => None
  end.

Fixpoint lstrip (l : list (N * list ascii)) : list (N * list ascii) :=
  match l with
  | (cp, bytes) :: l' => if is_space cp then lstrip l' else l
  | [] => []
  end.

(** [s.strip()] *)
Definition strip (s : string) : string :=
  string_of_list_ascii
    (concat (map snd (rev (lstrip (rev (lstrip (utf8_chars s))))))).

(** [s.split(',')]: always at least one piece. *)
Fixpoint split_comma (s : string) : list string :=
  match s with
  | EmptyString => [EmptyString]
  | String c s' =>
      if Ascii.eqb c ","%char then EmptyString :: split_comma s'
      else match split_comma s' with
           | x :: xs => String c x :: xs
           | [] => [String c EmptyString]
           end
  end.

(** [s.lower()], as far as [Config.__init__] looks at it: the text is
    compared with ["true"] only, and no character beyond ASCII has a
    lower case made of the letters of that word, so it is enough to lower
    the ASCII letters. *)
Definition lower_char (c : ascii) : ascii :=
  let n := nat_of_ascii c in
  if ((65 <=? n) && (n <=? 90))%nat then ascii_of_nat (n + 32) else c.

Fixpoint lower (s : string) : string :=
  match s with
  | EmptyString => EmptyString
  | String c s' => String (lower_char c) (lower s')
  end.

Definition digit_val (c : ascii) : option Z :=
  let n := nat_of_ascii c in
  if ((48 <=? n) && (n <=? 57))%nat then Some (Z.of_nat n - 48) else None.

(** Decimal digits, single underscores allowed between two digits. *)
Fixpoint digits (acc : Z) (after_digit : bool) (l : list ascii) : option Z :=
  match l with
  | [] => if after_digit then Some acc else None
  | c :: l' =>
      if Ascii.eqb c "_"%char
      then (if after_digit then
              match l' with
              | [] => None
              | _ => digits acc false l'
              end
            else None)
      else match digit_val c with
           | Some d => digits (10 * acc + d) true l'
           | None => None
           end
  end.

(** What [int] makes of a character before it reads the text: an ASCII
    character is kept, any other white space becomes a space, any other
    decimal digit the ASCII digit of its value, and a character that is
    neither spoils the text. *)
Definition to_ascii (cp : N) : option ascii :=
  if (cp <? 127)%N then Some (ascii_of_N cp)
  else if is_space cp then Some " "%char
  else match to_decimal cp with
       | Some d => Some (ascii_of_N (48 + d))
       | None => None
       end.

(** The white space of the C locale, which [int] skips around the
    number: the separators U+001C to U+001F are not part of it. *)
Definition Py_ISSPACE (c : ascii) : bool :=
  let n := nat_of_ascii c in
  ((9 <=? n) && (n <=? 13) || (n =? 32))%nat.

Fixpoint skip_space (l : list ascii) : list ascii :=
  match l with
  | c :: l' => if Py_ISSPACE c then skip_space l' else l
  | [] => []
  end.

Definition count_digits (l : list ascii) : nat :=
  length (List.filter (fun c => negb (Ascii.eqb c "_"%char)) l).

(** [int(s)] for a text [s]: [None] stands for [ValueError].  Base ten,
    optional sign, white space around the number ignored. *)
Definition py_int (s : string) : option Z :=
  match mapM to_ascii (map fst (utf8_chars s)) with
  | None => None
  | Some l =>
      match rev (skip_space (rev (skip_space l))) with
      | c :: body =>
          let number (l : list ascii) :=
            if max_str_digits <? Z.of_nat (count_digits l) then None
            else digits 0 false l in
          if Ascii.eqb c "-"%char then Z.opp <$> number body
          else if Ascii.eqb c "+"%char then number body
          else number (c :: body)
      | [] => None
      end
  end.

(** Truth value of a Python [str]. *)
Definition truthy (s : string) : bool :=
  match s with
  | EmptyString => false
  | _ => true
  end.

(** [[int(x) for x in xs]]: the first failure aborts the comprehension. *)
Fixpoint ints (xs : list string) : option (list Z) :=
  match xs with
  | [] => Some []
  | x :: xs' =>
      match py_int x with
      | Some z => cons z <$> ints xs'
      | None => None
      end
  end.

(** *** The configuration object *)

(** The fields of [Config] that the rate limiter, the ledger and the
    coordinator read.  The content-filter and storage fields ([rules],
    [allowed_domains], [banned_words], [db_path]) are plain texts whose
    loading cannot fail; they are not represented. *)
Record Config : Type := mkConfig {
  bot_token : string;
  admin_ids : list Z;
  antiflood_max_messages : Z;
  antiflood_window_seconds : Z;
  warns_to_punish : Z;
  auto_mute_hours : Z;
  escalation_durations : list Z;
  whitelisted_users : list Z;
  captcha_timeout_seconds : Z;
  notify_admins : bool;
  notification_chat : option Z
}.

(** The process environment after [load_dotenv()]. *)
Abbreviation Environ := (string -> option string).

(** [os.getenv(name, dflt)] *)
Definition getenv (env : Environ) (name dflt : string) : string :=
  default dflt (env name).

(** [int(os.getenv(name, dflt))]; the message of the [ValueError], which
    quotes the text, is cut short. *)
Definition int_env (env : Environ) (name dflt : string) : result Z :=
  match py_int (getenv env name dflt) with
  | Some z => Ok z
  | None => Raise (ValueError "invalid literal for int()")
  end.

(** [[int(x.strip()) for x in s.split(',') if x.strip()]] guarded by
    [if s:] and [except ValueError: raise ValueError(msg)]. *)
Definition id_list (s msg : string) : result (list Z) :=
  if truthy s then
    match ints (List.filter truthy (map strip (split_comma s))) with
    | Some l => Ok l
    | None => Raise (ValueError msg)
    end
  else Ok [].

Definition default_escalation : list Z := [60; 360; 1440; 10080].

(** [Config.__init__] *)
Definition Config_init (env : Environ) : result Config :=
  let token := getenv env "BOT_TOKEN" "" in
  if negb (truthy token)
     && negb (truthy (default EmptyString (env "PYTEST_CURRENT_TEST"%string)))
  then Raise (ValueError "BOT_TOKEN is required")
  else
    admins <-! id_list (getenv env "ADMIN_IDS" "")
                       "ADMIN_IDS must be comma-separated integers";
    max_messages <-! int_env env "ANTIFLOOD_MAX_MESSAGES" "5";
    window_seconds <-! int_env env "ANTIFLOOD_WINDOW_SECONDS" "10";
    warns <-! int_env env "WARNS_TO_PUNISH" "3";
    mute_hours <-! int_env env "AUTO_MUTE_HOURS" "24";
    let escalation_str :=
      getenv env "ESCALATION_DURATIONS" "60,360,1440,10080" in
    let ladder :=
      match ints (map strip (split_comma escalation_str)) with
      | Some l => l
      | None => default_escalation
      end in
    whitelist <-! id_list (getenv env "WHITELISTED_USERS" "")
                          "WHITELISTED_USERS must be comma-separated integers";
    captcha <-! int_env env "CAPTCHA_TIMEOUT_SECONDS" "120";
    let notify :=
      String.eqb (lower (getenv env "NOTIFY_ADMINS" "true")) "true" in
    let chat :=
      match env "NOTIFICATION_CHAT"%string with
      | Some s => if truthy s then py_int s else None
      | None => None
      end in
    Ok {| bot_token := token;
          admin_ids := admins;
          antiflood_max_messages := max_messages;
          antiflood_window_seconds := window_seconds;
          warns_to_punish := warns;
          auto_mute_hours := mute_hours;
          escalation_durations := ladder;
          whitelisted_users := whitelist;
          captcha_timeout_seconds := captcha;
          notify_admins := notify;
          notification_chat := chat |}.

(** [user_id in self.admin_ids] *)
Definition is_admin (cfg : Config) (user_id : Z) : bool :=
  bool_decide (user_id ∈ admin_ids cfg).

Definition is_whitelisted (cfg : Config) (user_id : Z) : bool :=
  bool_decide (user_id ∈ whitelisted_users cfg).

Definition is_exempt_from_rate_limit (cfg : Config) (user_id : Z) : bool :=
  is_admin cfg user_id || is_whitelisted cfg user_id.

(** [Config.get_mute_duration] *)
Definition get_mute_duration (cfg : Config) (violation_count : Z) : result Z :=
  let ladder := escalation_durations cfg in
  if violation_count <=? 0 then
    match ladder with
    | [] => Ok 60
    | _ => py_index ladder 0
    end
  else
    let index :=
      Z.min (violation_count - 1) (Z.of_nat (length ladder) - 1) in
    py_index ladder index.

End Settings.


(** ** src/rate_limiter.py *)

Module RateLimiter.
Import Settings.

(** [_message_history]: key [(chat_id, user_id)], value the list of
    message timestamps, oldest first. *)
Abbreviation History := (gmap (Z * Z) (list Z)).

(** [defaultdict(list).__getitem__]: reading a missing key stores [[]]
    under it. *)
Definition getitem (h : History) (key : Z * Z) : list Z * History :=
  match h !! key with
  | Some l => (l, h)
  | None => ([], <[key := []]> h)
  end.

(** [RateLimiter.check_rate_limit]; [now] is the value of [time.time()]. *)
Definition check_rate_limit (cfg : Config) (now : Z) (user_id chat_id : Z)
    (h : History) : bool * History :=
  if is_exempt_from_rate_limit cfg user_id then (false, h)
  else
    let current_time := now in
    let key := (chat_id, user_id) in
    let cutoff_time := current_time - antiflood_window_seconds cfg in
    let '(old, h) := getitem h key in
    let h := <[key := filter (λ timestamp, timestamp > cutoff_time) old]> h in
    let '(l, h) := getitem h key in
    let h := <[key := l ++ [current_time]]> h in
    let '(l, h) := getitem h key in
    let message_count := Z.of_nat (length l) in
    (bool_decide (message_count > antiflood_max_messages cfg), h).

(** [RateLimiter.add_message] *)
Definition add_message (cfg : Config) (now : Z) (user_id chat_id : Z)
    (h : History) : bool * History :=
  check_rate_limit cfg now user_id chat_id h.

(** [RateLimiter.get_message_count] *)
Definition get_message_count (cfg : Config) (now : Z) (user_id chat_id : Z)
    (h : History) : Z * History :=
  let current_time := now in
  let key := (chat_id, user_id) in
  let cutoff_time := current_time - antiflood_window_seconds cfg in
  let '(old, h) := getitem h key in
  let h := <[key := filter (λ timestamp, timestamp > cutoff_time) old]> h in
  let '(l, h) := getitem h key in
  (Z.of_nat (length l), h).

(** [RateLimiter.reset_user_history] *)
Definition reset_user_history (user_id chat_id : Z) (h : History) : History :=
  let key := (chat_id, user_id) in
  match h !! key with
  | Some _ => delete key h
  | None => h
  end.

(** [RateLimiter.cleanup_old_entries] *)
Definition cleanup_old_entries (cfg : Config) (now : Z) (h : History)
    : History :=
  let cutoff_time := now - antiflood_window_seconds cfg * 2 in
  omap (λ timestamps,
          match filter (λ timestamp, timestamp > cutoff_time) timestamps with
          | [] => None
          | updated_timestamps => Some updated_timestamps
          end) h.

Record Stats : Type := mkStats {
  tracked_users : nat;
  total_messages_in_window : nat
}.

(** [RateLimiter.get_stats] *)
Definition get_stats (h : History) : Stats :=
  {| tracked_users := size h;
     total_messages_in_window :=
       map_fold (λ _ timestamps acc, (length timestamps + acc)%nat) 0%nat h |}.

End RateLimiter.

(** ** src/database.py *)

Module Database.

Inductive ViolationType : Type := rate_limit | manual.

#[global] Instance ViolationType_eq_dec : EqDecision ViolationType.
Proof. solve_decision. Defined.

(** [UserViolation]; [id_] is [None] until the ledger assigns it. *)
Record UserViolation : Type := mkViolation {
  id_ : option Z;
  user_id : Z;
  chat_id : Z;
  violation_type : ViolationType;
  timestamp : Z;
  mute_duration_minutes : Z;
  is_active : bool
}.

Record UserStats : Type := mkUserStats {
  stats_user_id : Z;
  stats_chat_id : Z;
  total_violations : Z;
  last_violation : option Z;
  is_currently_muted : bool
}.

(** The table [user_violations] with its [AUTOINCREMENT] counter: the
    largest row id ever handed out. *)
Record Table : Type := mkTable {
  user_violations : list UserViolation;
  sqlite_sequence : Z
}.

(** [Database.initialize] on a fresh file. *)
Definition initialize : Table :=
  {| user_violations := []; sqlite_sequence := 0 |}.

(** Clock ticks are microseconds, the resolution of [datetime]. *)
Definition timedelta_minutes (m : Z) : Z := m * 60000000.
Definition timedelta_hours (h : Z) : Z := h * 3600000000.
Definition timedelta_days (d : Z) : Z := d * 86400000000.

(** [UNIQUE(user_id, chat_id, timestamp)] *)
Definition unique_conflict (t : Table) (v : UserViolation) : bool :=
  existsb (λ r, (user_id r =? user_id v) && (chat_id r =? chat_id v)
                && (timestamp r =? timestamp v))
          (user_violations t).

Definition max_rowid (rows : list UserViolation) : Z :=
  foldr (λ r m, Z.max (default 0 (id_ r)) m) 0 rows.

(** [Database.add_violation]: the [INSERT] either violates the [UNIQUE]
    constraint and raises, leaving the table as it was, or stores the row
    under an id one above every id used so far. *)
Definition add_violation (t : Table) (violation : UserViolation)
    : result (Z * Table) :=
  if unique_conflict t violation then Raise IntegrityError
  else
    let lastrowid :=
      Z.max (sqlite_sequence t) (max_rowid (user_violations t)) + 1 in
    let row :=
      {| id_ := Some lastrowid;
         user_id := user_id violation;
         chat_id := chat_id violation;
         violation_type := violation_type violation;
         timestamp := timestamp violation;
         mute_duration_minutes := mute_duration_minutes violation;
         is_active := is_active violation |} in
    Ok (lastrowid,
        {| user_violations := user_violations t ++ [row];
           sqlite_sequence := lastrowid |}).

(** [Database.get_user_violation_count]; [utcnow] is the value of
    [datetime.utcnow()]. *)
Definition get_user_violation_count (t : Table) (utcnow : Z)
    (user chat : Z) (days_back : Z) : Z :=
  let cutoff_date := utcnow - timedelta_days days_back in
  Z.of_nat (length (filter
    (λ r, user_id r = user ∧ chat_id r = chat ∧ timestamp r > cutoff_date)
    (user_violations t))).

Definition max_timestamp (rows : list UserViolation) : option Z :=
  foldr (λ r m, match m with
                | Some x => Some (Z.max (timestamp r) x)
                | None => Some (timestamp r)
                end) None rows.

(** [Database.get_user_stats] *)
Definition get_user_stats (t : Table) (utcnow : Z) (user chat : Z)
    : UserStats :=
  let mine :=
    filter (λ r, user_id r = user ∧ chat_id r = chat) (user_violations t) in
  let recent_cutoff := utcnow - timedelta_hours 24 in
  let active_violations :=
    Z.of_nat (length (filter
      (λ r, user_id r = user ∧ chat_id r = chat
            ∧ timestamp r > recent_cutoff ∧ is_active r = true)
      (user_violations t))) in
  {| stats_user_id := user;
     stats_chat_id := chat;
     total_violations := Z.of_nat (length mine);
     last_violation := max_timestamp mine;
     is_currently_muted := bool_decide (active_violations > 0) |}.

(** [Database.deactivate_old_violations] *)
Definition deactivate_old_violations (t : Table) (utcnow : Z) (hours_back : Z)
    : Table :=
  let cutoff_date := utcnow - timedelta_hours hours_back in
  {| user_violations :=
       map (λ r, if bool_decide (timestamp r < cutoff_date ∧ is_active r = true)
                 then {| id_ := id_ r;
                         user_id := user_id r;
                         chat_id := chat_id r;
                         violation_type := violation_type r;
                         timestamp := timestamp r;
                         mute_duration_minutes := mute_duration_minutes r;
                         is_active := false |}
                 else r)
           (user_violations t);
     sqlite_sequence := sqlite_sequence t |}.

(** [Database.cleanup_old_data] *)
Definition cleanup_old_data (t : Table) (utcnow : Z) (days_to_keep : Z)
    : Table :=
  let cutoff_date := utcnow - timedelta_days days_to_keep in
  {| user_violations :=
       filter (λ r, ¬ (timestamp r < cutoff_date ∧ is_active r = false))
              (user_violations t);
     sqlite_sequence := sqlite_sequence t |}.

Record DatabaseStats : Type := mkDatabaseStats {
  db_total_violations : Z;
  active_violations : Z;
  unique_users : Z;
  unique_chats : Z
}.

(** [Database.get_database_stats] *)
Definition get_database_stats (t : Table) : DatabaseStats :=
  {| db_total_violations := Z.of_nat (length (user_violations t));
     active_violations :=
       Z.of_nat (length (filter (λ r, is_active r = true)
                                (user_violations t)));
     unique_users :=
       Z.of_nat (length (remove_dups (map user_id (user_violations t))));
     unique_chats :=
       Z.of_nat (length (remove_dups (map chat_id (user_violations t)))) |}.

End Database.

(** ** src/moderation.py *)

Module Moderation.
Import Settings.
Import RateLimiter.

(** The chat transport.  [get_chat_member chat user] answers the display
    name ([user.username or user.first_name or f"User_{user_id}"]) or
    [None] for a [TelegramError]; [restrict_chat_member chat user until]
    answers [None] when the restriction was applied and the text of the
    [TelegramError] otherwise. *)
Record Bot : Type := mkBot {
  get_chat_member : Z -> Z -> option string;
  restrict_chat_member : Z -> Z -> Z -> option string
}.

(** What one call observes of the outside: the reading of [time.time()],
    the successive readings of [datetime.utcnow()], and the transport. *)
Record World : Type := mkWorld {
  time_time : Z;
  utcnow_lookback : Z;
  utcnow_violation : Z;
  utcnow_mute : Z;
  bot : Bot
}.

(** The outcome of [_apply_mute]: the dictionary it answers, by its
    ['success'] entry, or the exception that leaves it (it catches
    [TelegramError] only). *)
Inductive MuteResult : Type :=
| MuteApplied (username : string) (until_date : Z)
| MuteFailed (error : string) (username : string)
| MuteRaised (e : exn).

(** A message handed to the transport for the administrators. *)
Record Notification : Type := mkNotification {
  sent_to : Z;
  about_user : Z;
  about_chat : Z;
  violation_number : Z;
  duration_minutes : Z;
  about_username : string
}.

(** The objects the coordinator works on: the global [rate_limiter], the
    global [db], and the messages sent so far. *)
Record State : Type := mkState {
  history : History;
  table : Database.Table;
  outbox : list Notification
}.

(** The dictionary answered by [handle_message] when a mute was applied. *)
Record Action : Type := mkAction {
  action : string;
  action_user_id : Z;
  action_chat_id : Z;
  violation_id : Z;
  violation_count : Z;
  action_mute_duration_minutes : Z;
  action_username : string;
  reason : string
}.

(** The dictionaries answered by [manual_mute]: ['action'] is either
    ['manual_mute'] or ['manual_mute_failed']. *)
Inductive ManualResult : Type :=
| ManualMute (user_id chat_id violation_id mute_duration_minutes : Z)
             (username reason : string)
| ManualMuteFailed (error : string).


(** [ModerationManager._apply_mute] *)
Definition _apply_mute (b : Bot) (utcnow : Z) (user_id chat_id : Z)
    (duration_minutes : Z) : MuteResult :=
  match datetime_add utcnow (Database.timedelta_minutes duration_minutes) with
  | Raise e => MuteRaised e
  | Ok until_date =>
      let username :=
        match get_chat_member b chat_id user_id with
        | Some name => name
        | None => "Unknown"%string
        end in
      match restrict_chat_member b chat_id user_id until_date with
      | None => MuteApplied username until_date
      | Some e => MuteFailed e username
      end
  end.

(** Truth value of [config.notification_chat]. *)
Definition chat_set (c : option Z) : option Z :=
  match c with
  | Some z => if z =? 0 then None else Some z
  | None => None
  end.

(** [ModerationManager._notify_admins_of_mute]: the messages it hands to
    the transport (a send that fails is logged and skipped over). *)
Definition _notify_admins_of_mute (cfg : Config) (user_id chat_id : Z)
    (violation_count duration_minutes : Z) (username : string)
    : list Notification :=
  let message recipient :=
    {| sent_to := recipient;
       about_user := user_id;
       about_chat := chat_id;
       violation_number := violation_count;
       duration_minutes := duration_minutes;
       about_username := username |} in
  if negb (notify_admins cfg) || bool_decide (admin_ids cfg = [])
  then []
  else match chat_set (notification_chat cfg) with
       | Some c => [message c]
       | None => map message (admin_ids cfg)
       end.

(** [ModerationManager.handle_message] *)
Definition handle_message (cfg : Config) (w : World) (user_id chat_id : Z)
    (st : State) : result (option Action) * State :=
  let '(rate_limit_exceeded, h) :=
    add_message cfg (time_time w) user_id chat_id (history st) in
  let st := {| history := h; table := table st; outbox := outbox st |} in
  if rate_limit_exceeded then
    let violation_count :=
      Database.get_user_violation_count
        (table st) (utcnow_lookback w) user_id chat_id 30 in
    match get_mute_duration cfg (violation_count + 1) with
    | Raise e => (Raise e, st)
    | Ok mute_duration_minutes =>
        let violation :=
          {| Database.id_ := None;
             Database.user_id := user_id;
             Database.chat_id := chat_id;
             Database.violation_type := Database.rate_limit;
             Database.timestamp := utcnow_violation w;
             Database.mute_duration_minutes := mute_duration_minutes;
             Database.is_active := true |} in
        match Database.add_violation (table st) violation with
        | Raise e => (Raise e, st)
        | Ok (violation_id, t) =>
            let st :=
              {| history := history st; table := t; outbox := outbox st |} in
            match _apply_mute (bot w) (utcnow_mute w) user_id chat_id
                              mute_duration_minutes with
            | MuteApplied username _ =>
                let h := reset_user_history user_id chat_id (history st) in
                let sent :=
                  _notify_admins_of_mute cfg user_id chat_id
                    (violation_count + 1) mute_duration_minutes username in
                (Ok (Some {| action := "mute";
                             action_user_id := user_id;
                             action_chat_id := chat_id;
                             violation_id := violation_id;
                             violation_count := violation_count + 1;
                             action_mute_duration_minutes :=
                               mute_duration_minutes;
                             action_username := username;
                             reason := "Rate limit exceeded" |}),
                 {| history := h; table := table st;
                    outbox := outbox st ++ sent |})
            | MuteFailed error _ => (Ok None, st)
            | MuteRaised e => (Raise e, st)
            end
        end
    end
  else (Ok None, st).

(** [ModerationManager.manual_mute] *)
Definition manual_mute (w : World) (user_id chat_id : Z)
    (duration_minutes : Z) (reason : string) (st : State)
    : result ManualResult * State :=
  let violation :=
    {| Database.id_ := None;
       Database.user_id := user_id;
       Database.chat_id := chat_id;
       Database.violation_type := Database.manual;
       Database.timestamp := utcnow_violation w;
       Database.mute_duration_minutes := duration_minutes;
       Database.is_active := true |} in
  match Database.add_violation (table st) violation with
  | Raise e => (Raise e, st)
  | Ok (violation_id, t) =>
      let st := {| history := history st; table := t; outbox := outbox st |} in
      match _apply_mute (bot w) (utcnow_mute w) user_id chat_id
                        duration_minutes with
      | MuteApplied username _ =>
          (Ok (ManualMute user_id chat_id violation_id duration_minutes
                          username reason), st)
      | MuteFailed error _ => (Ok (ManualMuteFailed error), st)
      | MuteRaised e => (Raise e, st)
      end
  end.


(** The duration text that [_notify_admins_of_mute] puts in its message. *)
Definition duration_str (duration_minutes : Z) : result string :=
  if duration_minutes <? 60 then
    (text <-! format_int duration_minutes;
     Ok (String.append text " minutes"))
  else if duration_minutes <? 1440 then
    let hours := duration_minutes / 60 in
    (text <-! format_int hours;
     Ok (String.append text
           (String.append " hour" (if negb (hours =? 1) then "s" else ""))))
  else
    let days := duration_minutes / 1440 in
    (text <-! format_int days;
     Ok (String.append text
           (String.append " day" (if negb (days =? 1) then "s" else "")))).

End Moderation.

(** ** src/bot.py *)

Module Bot.
Import Settings.

(** What a handler reads of a Telegram [Update]: [update.message] with its
    [from_user.id], [chat.id], [message_id] and, when the message is a
    reply, the [from_user.id] of the message replied to; each of the four
    objects may be missing. *)
Record Message : Type := mkMessage {
  from_user : option Z;
  chat_id : Z;
  message_id : Z;
  reply_to_message : option (option Z)
}.

Record Update : Type := mkUpdate {
  message : option Message
}.

(** [ModeratorBot._format_duration] *)
Definition _format_duration (minutes : Z) : result string :=
  if minutes <? 60 then
    (text <-! format_int minutes;
     Ok (String.append text
           (String.append " minute" (if negb (minutes =? 1) then "s" else ""))))
  else if minutes <? 1440 then
    let hours := minutes / 60 in
    (text <-! format_int hours;
     Ok (String.append text
           (String.append " hour" (if negb (hours =? 1) then "s" else ""))))
  else
    let days := minutes / 1440 in
    (text <-! format_int days;
     Ok (String.append text
           (String.append " day" (if negb (days =? 1) then "s" else "")))).

(** [ModeratorBot.cmd_mute]; [args] is [context.args].  The answer is the
    text handed to [reply_text], if any. *)
Definition cmd_mute (cfg : Config) (w : Moderation.World) (update : Update)
    (args : list string) (st : Moderation.State)
    : result (option string) * Moderation.State :=
  match message update with
  | None => (Ok None, st)
  | Some m =>
    match from_user m with
    | None => (Ok None, st)
    | Some user_id =>
      if negb (is_admin cfg user_id) then
        (Ok (Some "❌ You don't have permission to use this command."%string),
         st)
      else
        match reply_to_message m with
        | None =>
            (Ok (Some "❌ Please reply to a message to mute the user."%string),
             st)
        | Some None =>
            (Ok (Some "❌ Could not identify the user to mute."%string), st)
        | Some (Some target_user) =>
          if is_admin cfg target_user then
            (Ok (Some "❌ Cannot mute an admin."%string), st)
          else
            let invalid :=
              (Ok (Some "❌ Invalid duration. Please specify minutes as a number."%string),
               st) in
            let mute duration_minutes :=
              match Moderation.manual_mute w target_user (chat_id m)
                      duration_minutes "Manual mute by admin" st with
              | (Raise e, st') => (Raise e, st')
              | (Ok (Moderation.ManualMute _ _ _ _ username _), st') =>
                  match _format_duration duration_minutes with
                  | Raise e => (Raise e, st')
                  | Ok duration_str =>
                      (Ok (Some (String.append "🔇 "
                                   (String.append username
                                      (String.append " has been muted for "
                                         (String.append duration_str "."))))),
                       st')
                  end
              | (Ok (Moderation.ManualMuteFailed error), st') =>
                  (Ok (Some (String.append "❌ Failed to mute user: " error)),
                   st')
              end in
            match args with
            | [] => mute 60
            | arg :: _ =>
                match py_int arg with
                | Some duration_minutes =>
                    if duration_minutes <=? 0 then invalid
                    else mute duration_minutes
                | None => invalid
                end
            end
        end
    end
  end.

(** The readings of the clocks in one round of [_periodic_cleanup]:
    [time.time()] in [cleanup_old_entries], [datetime.utcnow()] in
    [deactivate_old_violations], [time.time()] where the round looks at
    [_last_db_cleanup], [datetime.utcnow()] in [cleanup_old_data], and
    [time.time()] where the round sets [_last_db_cleanup] anew. *)
Record Readings : Type := mkReadings {
  time_sweep : Z;
  utcnow_deactivate : Z;
  time_check : Z;
  utcnow_purge : Z;
  time_mark : Z
}.

(** One round of the loop of [ModeratorBot._periodic_cleanup], after its
    hour of sleep; [last] is the attribute [_last_db_cleanup], [None]
    while it is not set. *)
Definition _periodic_cleanup (cfg : Config) (c : Readings)
    (st : Moderation.State) (last : option Z)
    : Moderation.State * option Z :=
  let h := RateLimiter.cleanup_old_entries cfg (time_sweep c)
             (Moderation.history st) in
  let t := Database.deactivate_old_violations (Moderation.table st)
             (utcnow_deactivate c) 24 in
  match last with
  | Some _last_db_cleanup =>
      if time_check c - _last_db_cleanup >? 86400 then
        ({| Moderation.history := h;
            Moderation.table :=
              Database.cleanup_old_data t (utcnow_purge c) 90;
            Moderation.outbox := Moderation.outbox st |},
         Some (time_mark c))
      else
        ({| Moderation.history := h;
            Moderation.table := t;
            Moderation.outbox := Moderation.outbox st |},
         last)
  | None =>
      ({| Moderation.history := h;
          Moderation.table := t;
          Moderation.outbox := Moderation.outbox st |},
       Some (time_check c))
  end.

End Bot.

(** * Properties *)

Import Settings.

(** ** Definitions used to state the properties *)

(** The environment with one variable set. *)
Definition setenv (env : Environ) (name value : string) : Environ :=
  fun n => if String.eqb n name then Some value else env n.

Definition with_window (cfg : Config) (w : Z) : Config :=
  {| bot_token := bot_token cfg;
     admin_ids := admin_ids cfg;
     antiflood_max_messages := antiflood_max_messages cfg;
     antiflood_window_seconds := w;
     warns_to_punish := warns_to_punish cfg;
     auto_mute_hours := auto_mute_hours cfg;
     escalation_durations := escalation_durations cfg;
     whitelisted_users := whitelisted_users cfg;
     captcha_timeout_seconds := captcha_timeout_seconds cfg;
     notify_admins := notify_admins cfg;
     notification_chat := notification_chat cfg |}.

Definition with_max_messages (cfg : Config) (m : Z) : Config :=
  {| bot_token := bot_token cfg;
     admin_ids := admin_ids cfg;
     antiflood_max_messages := m;
     antiflood_window_seconds := antiflood_window_seconds cfg;
     warns_to_punish := warns_to_punish cfg;
     auto_mute_hours := auto_mute_hours cfg;
     escalation_durations := escalation_durations cfg;
     whitelisted_users := whitelisted_users cfg;
     captcha_timeout_seconds := captcha_timeout_seconds cfg;
     notify_admins := notify_admins cfg;
     notification_chat := notification_chat cfg |}.

Definition with_ladder (cfg : Config) (ladder : list Z) : Config :=
  {| bot_token := bot_token cfg;
     admin_ids := admin_ids cfg;
     antiflood_max_messages := antiflood_max_messages cfg;
     antiflood_window_seconds := antiflood_window_seconds cfg;
     warns_to_punish := warns_to_punish cfg;
     auto_mute_hours := auto_mute_hours cfg;
     escalation_durations := ladder;
     whitelisted_users := whitelisted_users cfg;
     captcha_timeout_seconds := captcha_timeout_seconds cfg;
     notify_admins := notify_admins cfg;
     notification_chat := notification_chat cfg |}.

(** The configuration of the defaults: window 10, threshold 5, ladder
    60, 360, 1440, 10080, nobody exempt. *)
Definition default_config : Config :=
  {| bot_token := "token";
     admin_ids := [];
     antiflood_max_messages := 5;
     antiflood_window_seconds := 10;
     warns_to_punish := 3;
     auto_mute_hours := 24;
     escalation_durations := default_escalation;
     whitelisted_users := [];
     captcha_timeout_seconds := 120;
     notify_admins := true;
     notification_chat := None |}.

(** An environment that sets the token and asks for a zero window, a
    negative threshold and an empty ladder text. *)
Definition degenerate_env : Environ :=
  setenv (setenv (setenv (setenv (fun _ => None)
    "BOT_TOKEN" "token")
    "ANTIFLOOD_WINDOW_SECONDS" "0")
    "ANTIFLOOD_MAX_MESSAGES" "-3")
    "ESCALATION_DURATIONS" "".

(** Successive [check_rate_limit] calls of one actor, one per clock
    reading of [times], with the answers in call order. *)
Fixpoint record_calls (cfg : Config) (user_id chat_id : Z) (times : list Z)
    (h : RateLimiter.History) : list bool * RateLimiter.History :=
  match times with
  | [] => ([], h)
  | now :: rest =>
      let '(exceeded, h1) :=
        RateLimiter.check_rate_limit cfg now user_id chat_id h in
      let '(answers, h2) := record_calls cfg user_id chat_id rest h1 in
      (exceeded :: answers, h2)
  end.


(** The timestamps of the actor that a call at [now] keeps: those newer
    than [now] minus the window. *)
Definition kept (cfg : Config) (user_id chat_id : Z) (now : Z)
    (h : RateLimiter.History) : list Z :=
  filter (λ timestamp, timestamp > now - antiflood_window_seconds cfg)
         (default [] (h !! (chat_id, user_id))).


(** A configuration under which user 7 is an administrator. *)
Definition admin_config : Config :=
  {| bot_token := "token";
     admin_ids := [7];
     antiflood_max_messages := 5;
     antiflood_window_seconds := 10;
     warns_to_punish := 3;
     auto_mute_hours := 24;
     escalation_durations := default_escalation;
     whitelisted_users := [];
     captcha_timeout_seconds := 120;
     notify_admins := true;
     notification_chat := None |}.

(** Two ledger rows clash on the [UNIQUE] columns. *)
Definition same_key (r v : Database.UserViolation) : Prop :=
  Database.user_id r = Database.user_id v
  /\ Database.chat_id r = Database.chat_id v
  /\ Database.timestamp r = Database.timestamp v.

(** The row the ledger keeps for [v] under the id [new_id]. *)
Definition stored (v : Database.UserViolation) (new_id : Z)
    : Database.UserViolation :=
  {| Database.id_ := Some new_id;
     Database.user_id := Database.user_id v;
     Database.chat_id := Database.chat_id v;
     Database.violation_type := Database.violation_type v;
     Database.timestamp := Database.timestamp v;
     Database.mute_duration_minutes := Database.mute_duration_minutes v;
     Database.is_active := Database.is_active v |}.

(** The record [handle_message] writes for a detected violation. *)
Definition rate_limit_violation (user_id chat_id utcnow duration : Z)
    : Database.UserViolation :=
  {| Database.id_ := None;
     Database.user_id := user_id;
     Database.chat_id := chat_id;
     Database.violation_type := Database.rate_limit;
     Database.timestamp := utcnow;
     Database.mute_duration_minutes := duration;
     Database.is_active := true |}.

(** The number of records of the actor, of the type [ty] only, in the 30
    days before [utcnow]. *)
Definition prior_records (ty : Database.ViolationType) (t : Database.Table)
    (utcnow user chat : Z) : Z :=
  Z.of_nat (length (filter
    (λ r, Database.user_id r = user /\ Database.chat_id r = chat
          /\ Database.violation_type r = ty
          /\ Database.timestamp r > utcnow - Database.timedelta_days 30)
    (Database.user_violations t))).

(** Two well-formed records of the actor (7, 9) with one timestamp. *)
Definition violation_a : Database.UserViolation :=
  rate_limit_violation 7 9 1700000000000000 60.

Definition violation_b : Database.UserViolation :=
  {| Database.id_ := None;
     Database.user_id := 7;
     Database.chat_id := 9;
     Database.violation_type := Database.manual;
     Database.timestamp := 1700000000000000;
     Database.mute_duration_minutes := 30;
     Database.is_active := true |}.

(** A transport that applies every restriction, and one that refuses
    every restriction. *)
Definition willing_bot : Moderation.Bot :=
  {| Moderation.get_chat_member := fun _ _ => Some "alice"%string;
     Moderation.restrict_chat_member := fun _ _ _ => None |}.

Definition refusing_bot : Moderation.Bot :=
  {| Moderation.get_chat_member := fun _ _ => Some "alice"%string;
     Moderation.restrict_chat_member :=
       fun _ _ _ => Some "Not enough rights to restrict"%string |}.

(** The outside at second [now] of a day: [time.time()] reads [now], every
    [datetime.utcnow()] reads the same instant in microseconds. *)
Definition world_at (b : Moderation.Bot) (now : Z) : Moderation.World :=
  {| Moderation.time_time := now;
     Moderation.utcnow_lookback := 1700000000000000 + now * 1000000;
     Moderation.utcnow_violation := 1700000000000000 + now * 1000000;
     Moderation.utcnow_mute := 1700000000000000 + now * 1000000;
     Moderation.bot := b |}.

Definition empty_state : Moderation.State :=
  {| Moderation.history := ∅;
     Moderation.table := Database.initialize;
     Moderation.outbox := [] |}.

(** The state after messages of the actor (7, 9) at the seconds [times],
    each handled by [handle_message] under the default configuration. *)
Definition after_messages (b : Moderation.Bot) (times : list Z)
    (st : Moderation.State) : Moderation.State :=
  foldl (fun st now =>
           (Moderation.handle_message default_config (world_at b now) 7 9 st).2)
        st times.

(** Five messages within five seconds: the actor is at the threshold. *)
Definition at_threshold : Moderation.State :=
  after_messages willing_bot [1; 2; 3; 4; 5] empty_state.

(** The same, after an administrator muted the actor by hand at second 0. *)
Definition at_threshold_after_manual : Moderation.State :=
  after_messages willing_bot [1; 2; 3; 4; 5]
    (Moderation.manual_mute (world_at willing_bot 0) 7 9 30 "spam"
       empty_state).2.


(** An environment that sets the token and lists the ladder in
    descending order. *)
Definition descending_env : Environ :=
  setenv (setenv (fun _ => None) "BOT_TOKEN" "token")
    "ESCALATION_DURATIONS" "360,60".


(** The invariant of the ledger: every row carries an id between 1 and
    the counter, no two rows share an id, and no two rows share user, chat
    and timestamp. *)
Definition ledger_wf (t : Database.Table) : Prop :=
  (forall r, r ∈ Database.user_violations t ->
     exists i, Database.id_ r = Some i
               /\ 0 < i <= Database.sqlite_sequence t)
  /\ NoDup (map Database.id_ (Database.user_violations t))
  /\ NoDup (map (fun r => (Database.user_id r, Database.chat_id r,
                           Database.timestamp r))
                (Database.user_violations t)).

(** The columns of a row that no operation of the ledger rewrites. *)
Definition row_facts (r : Database.UserViolation)
    : option Z * Z * Z * Database.ViolationType * Z * Z :=
  (Database.id_ r, Database.user_id r, Database.chat_id r,
   Database.violation_type r, Database.timestamp r,
   Database.mute_duration_minutes r).

(** A ledger whose only row, with id 1, is inactive and very old. *)
Definition stale_row : Database.UserViolation :=
  {| Database.id_ := Some 1;
     Database.user_id := 7;
     Database.chat_id := 9;
     Database.violation_type := Database.rate_limit;
     Database.timestamp := 1000;
     Database.mute_duration_minutes := 60;
     Database.is_active := false |}.

Definition stale_ledger : Database.Table :=
  {| Database.user_violations := [stale_row];
     Database.sqlite_sequence := 1 |}.

(** A ledger with one fresh active record and one old inactive record
    of the actor (7, 9), and a fresh active record of the actor (8, 9). *)
Definition mixed_ledger : Database.Table :=
  {| Database.user_violations :=
       [stale_row;
        stored violation_a 2;
        stored (rate_limit_violation 8 9 1700000000000500 60) 3];
     Database.sqlite_sequence := 3 |}.

(** The record [manual_mute] writes. *)
Definition manual_violation (user_id chat_id utcnow duration : Z)
    : Database.UserViolation :=
  {| Database.id_ := None;
     Database.user_id := user_id;
     Database.chat_id := chat_id;
     Database.violation_type := Database.manual;
     Database.timestamp := utcnow;
     Database.mute_duration_minutes := duration;
     Database.is_active := true |}.

(** Whom [_notify_admins_of_mute] writes to under a configuration. *)
Definition recipients (cfg : Config) : list Z :=
  if negb (notify_admins cfg) then []
  else match admin_ids cfg with
       | [] => []
       | _ =>
           match notification_chat cfg with
           | Some c => if c =? 0 then admin_ids cfg else [c]
           | None => admin_ids cfg
           end
       end.

(** The environment in which only the token is set. *)
Definition token_env (token : string) : Environ :=
  setenv (fun _ => None) "BOT_TOKEN" token.

(** [handle_message], at the readings of [w], answers the same on the
    state [st2] as on [st1]. *)
Definition handle_message_view (cfg : Config) (w : Moderation.World)
    (user chat : Z) (st1 st2 : Moderation.State) : Prop :=
  (Moderation.handle_message cfg w user chat st2).1
  = (Moderation.handle_message cfg w user chat st1).1.

(** The state of the actor (7, 9) at the threshold, on a ledger that
    already holds old and fresh records. *)
Definition busy_state : Moderation.State :=
  {| Moderation.history := <[(9, 7) := [1; 2; 3; 4; 5]]> ∅;
     Moderation.table := mixed_ledger;
     Moderation.outbox := [] |}.

(** A round of maintenance at second 6 that finds the last purge more
    than a day back. *)
Definition round_at_6 : Bot.Readings :=
  {| Bot.time_sweep := 6;
     Bot.utcnow_deactivate := 1700000006000000;
     Bot.time_check := 90000;
     Bot.utcnow_purge := 1700000006000000;
     Bot.time_mark := 90000 |}.

(** Closes [NoDup] of a list of distinct closed values. *)
Ltac nodup_closed :=
  repeat (apply NoDup_cons; split;
          [ let H := fresh in
            intros H;
            repeat (apply elem_of_cons in H as [H | H]; [discriminate H |]);
            inversion H
          | ]);
  apply NoDup_nil_2.

(** The integers an [INTEGER] column of SQLite holds (64 bits, signed);
    [sqlite3] refuses to bind any other. *)
Definition sqlite_integer (z : Z) : Prop :=
  -9223372036854775808 <= z <= 9223372036854775807.


(** The settings that [Config.__init__] reads with a bare [int], each
    with the text it falls back to, and the two it reads as lists of
    ids. *)
Definition int_settings : list (string * string) :=
  [("ANTIFLOOD_MAX_MESSAGES", "5"); ("ANTIFLOOD_WINDOW_SECONDS", "10");
   ("WARNS_TO_PUNISH", "3"); ("AUTO_MUTE_HOURS", "24");
   ("CAPTCHA_TIMEOUT_SECONDS", "120")]%string.

Definition id_list_settings : list string :=
  ["ADMIN_IDS"; "WHITELISTED_USERS"]%string.

(** Membership in a list that is written out. *)
Ltac in_list :=
  repeat first [apply list_elem_of_here | apply list_elem_of_further].

(** An environment that sets the token and an empty ladder text. *)
Definition empty_ladder_env : Environ :=
  setenv (setenv (fun _ => None) "BOT_TOKEN" "token")
    "ESCALATION_DURATIONS" "".

(** Peels the successive failure points of [Config_init] off an equation
    [Config_init env = Ok cfg]. *)
Ltac init_steps H :=
  unfold Config_init in H;
  match type of H with
  | (if ?c then _ else _) = _ => destruct c eqn:?; [discriminate |]
  end;
  repeat match type of H with
    | rbind ?r _ = Ok _ =>
        let E := fresh "E" in destruct r eqn:E; [cbn [rbind] in H | discriminate]
    end.

(** ** Escalation policy *)

Lemma py_index_lookup {A : Type} (l : list A) (i : nat) (x : A) :
  l !! i = Some x -> py_index l (Z.of_nat i) = Ok x.
Proof.
  intros Hx. pose proof (lookup_lt_Some _ _ _ Hx) as Hlt.
  unfold py_index.
  destruct (Z.ltb_spec (Z.of_nat i) 0) as [Hneg | _]; [lia |].
  destruct (Z.leb_spec 0 (Z.of_nat i)) as [_ | Hneg]; [| lia].
  destruct (Z.ltb_spec (Z.of_nat i) (Z.of_nat (length l))) as [_ | Hge];
    [| lia].
  cbn. now rewrite Nat2Z.id, Hx.
Qed.

Lemma py_index_nil {A : Type} (i : Z) : py_index (@nil A) i = Raise IndexError.
Proof.
  unfold py_index. destruct (_ && _); [| reflexivity].
  now rewrite lookup_nil.
Qed.

Lemma get_mute_duration_positive (cfg : Config) (n : Z) (i : nat) (d : Z) :
  0 < n ->
  i = Z.to_nat (Z.min (n - 1)
                 (Z.of_nat (length (escalation_durations cfg)) - 1)) ->
  escalation_durations cfg !! i = Some d ->
  get_mute_duration cfg n = Ok d.
Proof.
  intros Hn Hi Hd. pose proof (lookup_lt_Some _ _ _ Hd) as Hlt.
  unfold get_mute_duration.
  destruct (Z.leb_spec n 0) as [Hle | _]; [lia |].
  replace (Z.min _ _) with (Z.of_nat i) by lia.
  now apply py_index_lookup.
Qed.

Lemma get_mute_duration_nonpositive (cfg : Config) (n d : Z) (rest : list Z) :
  n <= 0 ->
  escalation_durations cfg = d :: rest ->
  get_mute_duration cfg n = Ok d.
Proof.
  intros Hn Hl. unfold get_mute_duration. rewrite Hl.
  destruct (Z.leb_spec n 0) as [_ | Hgt]; [| lia].
  apply (py_index_lookup (d :: rest) 0%nat). reflexivity.
Qed.

Lemma last_cons_default (l : list Z) (x d : Z) :
  List.last (x :: l) d = List.last l x.
Proof.
  revert x d. induction l as [| y l IH]; intros x d; [reflexivity |].
  change (List.last (x :: y :: l) d) with (List.last (y :: l) d).
  now rewrite !IH.
Qed.

Lemma last_lookup_default (l : list Z) (d : Z) :
  (d :: l) !! length l = Some (List.last l d).
Proof.
  revert d. induction l as [| x l IH]; intros d; [reflexivity |].
  cbn [length].
  change ((d :: x :: l) !! S (length l)) with ((x :: l) !! length l).
  now rewrite IH, last_cons_default.
Qed.

Lemma Sorted_le_lookup (l : list Z) (i j : nat) (a b : Z) :
  Sorted Z.le l -> (i <= j)%nat ->
  l !! i = Some a -> l !! j = Some b -> a <= b.
Proof.
  intros Hs. apply Sorted_StronglySorted in Hs; [| intros x y z; lia].
  revert i j. induction Hs as [| x l Hs IH Hall]; intros i j Hij Hi Hj.
  - discriminate.
  - destruct i as [| i], j as [| j]; cbn in Hi, Hj.
    + injection Hi as <-. injection Hj as <-. lia.
    + injection Hi as <-. rewrite List.Forall_forall in Hall.
      apply Hall. apply list_elem_of_In, list_elem_of_lookup. eauto.
    + lia.
    + apply (IH i j); [lia | assumption | assumption].
Qed.

(** C5.  With a non-empty ladder, [get_mute_duration] answers the first
    rung for every ordinal at most 0, the ordinal-th rung for an ordinal
    from 1 to the length of the ladder, and the last rung for every larger
    ordinal; with the ladder 60, 360, 1440, 10080 the ordinals 1 to 5 give
    60, 360, 1440, 10080, 10080. *)
Theorem get_mute_duration_clamps :
  (forall (cfg : Config) (first : Z) (rest : list Z),
     escalation_durations cfg = first :: rest ->
     (forall n, n <= 0 -> get_mute_duration cfg n = Ok first)
     /\ (forall n, 1 <= n <= Z.of_nat (length (first :: rest)) ->
          exists d, (first :: rest) !! Z.to_nat (n - 1) = Some d
                    /\ get_mute_duration cfg n = Ok d)
     /\ (forall n, Z.of_nat (length (first :: rest)) < n ->
          get_mute_duration cfg n = Ok (List.last rest first)))
  /\ (forall cfg : Config,
       escalation_durations cfg = [60; 360; 1440; 10080] ->
       map (get_mute_duration cfg) [1; 2; 3; 4; 5]
       = [Ok 60; Ok 360; Ok 1440; Ok 10080; Ok 10080]).
Proof.
  split.
  - intros cfg first rest Hl. split; [| split].
    + intros n Hn. now apply get_mute_duration_nonpositive with rest.
    + intros n Hn.
      destruct (lookup_lt_is_Some_2 (first :: rest) (Z.to_nat (n - 1)))
        as [d Hd]; [lia |].
      exists d. split; [assumption |].
      apply get_mute_duration_positive with (Z.to_nat (n - 1));
        rewrite ?Hl; cbn [length] in *; [lia | f_equal; lia | assumption].
    + intros n Hn.
      apply get_mute_duration_positive with (length rest);
        rewrite ?Hl; cbn [length] in *; [lia | lia | apply last_lookup_default].
  - intros cfg Hl. unfold get_mute_duration. rewrite Hl. reflexivity.
Qed.

Lemma get_mute_duration_clamps_witness :
  escalation_durations default_config = 60 :: [360; 1440; 10080]
  /\ get_mute_duration default_config 7 = Ok 10080.
Proof.
  split; [reflexivity |].
  apply (proj1 get_mute_duration_clamps default_config 60 [360; 1440; 10080]);
    [reflexivity | cbn; lia].
Defined.

Lemma get_mute_duration_empty_ladder (cfg : Config) (n : Z) :
  escalation_durations cfg = [] ->
  get_mute_duration cfg n = if n <=? 0 then Ok 60 else Raise IndexError.
Proof.
  intros Hl. unfold get_mute_duration. rewrite Hl.
  destruct (n <=? 0); [reflexivity | apply py_index_nil].
Qed.

(** C7, as the code has it.  Escalation is monotonic under every ladder
    that is non-empty and listed in non-decreasing order:
    [get_mute_duration] answers for every ordinal [n], and its answer for
    [n + 1] is at least its answer for [n]. *)
Theorem get_mute_duration_monotone (cfg : Config) (n : Z) :
  escalation_durations cfg <> [] ->
  Sorted Z.le (escalation_durations cfg) ->
  exists a b,
    get_mute_duration cfg n = Ok a
    /\ get_mute_duration cfg (n + 1) = Ok b
    /\ b >= a.
Proof.
  intros Hne Hs.
  destruct (escalation_durations cfg) as [| first rest] eqn:Hl; [done |].
  set (len := Z.of_nat (length (first :: rest))).
  assert (Hpos : forall m, 0 < m -> exists d,
             (first :: rest) !! Z.to_nat (Z.min (m - 1) (len - 1)) = Some d
             /\ get_mute_duration cfg m = Ok d).
  { intros m Hm.
    destruct (lookup_lt_is_Some_2 (first :: rest)
                (Z.to_nat (Z.min (m - 1) (len - 1)))) as [d Hd];
      [subst len; cbn [length] in *; lia |].
    exists d. split; [assumption |].
    eapply get_mute_duration_positive; [lia | reflexivity |].
    rewrite Hl. exact Hd. }
  destruct (Z_le_gt_dec n 0) as [Hle | Hgt].
  - exists first.
    rewrite (get_mute_duration_nonpositive cfg n first rest Hle Hl).
    destruct (Z.eq_dec n 0) as [-> | Hn0].
    + change (0 + 1) with 1.
      destruct (Hpos 1) as (d & Hd & ->); [lia |].
      exists d. split; [reflexivity | split; [reflexivity |]].
      replace (Z.to_nat (Z.min (1 - 1) (len - 1))) with 0%nat in Hd
        by (subst len; cbn [length]; lia).
      cbn in Hd. injection Hd as <-. lia.
    + exists first. split; [reflexivity | split; [| lia]].
      apply get_mute_duration_nonpositive with rest; [lia | assumption].
  - destruct (Hpos n) as (a & Ha & ->); [lia |].
    destruct (Hpos (n + 1)) as (b & Hb & ->); [lia |].
    exists a, b. split; [reflexivity | split; [reflexivity |]].
    apply Z.le_ge.
    eapply Sorted_le_lookup; [exact Hs | | exact Ha | exact Hb]. lia.
Qed.

Lemma get_mute_duration_monotone_witness :
  exists a b,
    get_mute_duration default_config 2 = Ok a
    /\ get_mute_duration default_config (2 + 1) = Ok b
    /\ b >= a.
Proof.
  apply (get_mute_duration_monotone default_config 2).
  - discriminate.
  - cbn. repeat constructor; lia.
Defined.

(** ** Texts *)

Lemma utf8_chars_ascii (l : list ascii) (fuel : nat) :
  (length l <= fuel)%nat ->
  Forall (fun c => (N_of_ascii c < 127)%N) l ->
  utf8_chars_from fuel l = map (fun c => (N_of_ascii c, [c])) l.
Proof.
  revert fuel. induction l as [| c l IH]; intros fuel Hlen Hall.
  - now destruct fuel.
  - destruct fuel as [| fuel]; [cbn in Hlen; lia |].
    apply Forall_cons in Hall as [Hc Hl].
    cbn [utf8_chars_from]. unfold utf8_head. cbn [map].
    destruct (N.ltb_spec (N_of_ascii c) 128) as [_ | Hge]; [| lia].
    cbn [take drop map]. f_equal. apply IH; [cbn in Hlen; lia | assumption].
Qed.

Lemma to_ascii_ascii (l : list ascii) :
  Forall (fun c => (N_of_ascii c < 127)%N) l ->
  mapM to_ascii (map fst (map (fun c => (N_of_ascii c, [c])) l)) = Some l.
Proof.
  induction 1 as [| c l Hc _ IH]; [reflexivity |].
  cbn [map fst mapM]. rewrite IH. unfold to_ascii.
  destruct (N.ltb_spec (N_of_ascii c) 127) as [_ | Hge]; [| lia].
  now rewrite ascii_N_embedding.
Qed.

Lemma skip_space_none (l : list ascii) :
  Forall (fun c => Py_ISSPACE c = false) l -> skip_space l = l.
Proof. destruct 1 as [| c l Hc _]; cbn; [reflexivity | now rewrite Hc]. Qed.

(** A text of ASCII characters none of which is white space is read by
    [int] as it stands. *)
Lemma py_int_plain (l : list ascii) :
  Forall (fun c => (N_of_ascii c < 127)%N) l ->
  Forall (fun c => Py_ISSPACE c = false) l ->
  py_int (string_of_list_ascii l)
  = match l with
    | c :: body =>
        let number (l : list ascii) :=
          if max_str_digits <? Z.of_nat (count_digits l) then None
          else digits 0 false l in
        if Ascii.eqb c "-"%char then Z.opp <$> number body
        else if Ascii.eqb c "+"%char then number body
        else number (c :: body)
    | [] => None
    end.
Proof.
  intros Hascii Hplain. unfold py_int, utf8_chars.
  rewrite list_ascii_of_string_of_list_ascii.
  rewrite utf8_chars_ascii, to_ascii_ascii by (assumption || lia).
  rewrite (skip_space_none l Hplain).
  rewrite (skip_space_none (rev l)) by now apply Forall_rev.
  now rewrite rev_involutive.
Qed.

Lemma digits_step (c : ascii) (d acc : Z) (b : bool) (l : list ascii) :
  Ascii.eqb c "_" = false -> digit_val c = Some d ->
  digits acc b (c :: l) = digits (10 * acc + d) true l.
Proof. intros H1 H2. cbn [digits]. now rewrite H1, H2. Qed.

Lemma digits_of_uint_acc (d : Decimal.uint) (acc : positive) :
  digits (Z.pos acc) true (list_ascii_of_string (NilEmpty.string_of_uint d))
  = Some (Z.pos (Pos.of_uint_acc d acc)).
Proof.
  revert acc.
  induction d as [| d IH | d IH | d IH | d IH | d IH | d IH | d IH | d IH
                  | d IH | d IH]; intros acc;
    cbn [NilEmpty.string_of_uint list_ascii_of_string Pos.of_uint_acc];
    [reflexivity | ..];
    match goal with
    | |- digits _ _ (?c :: _) = _ =>
        let v := eval vm_compute in (digit_val c) in
        match v with
        | Some ?d => rewrite (digits_step c d) by reflexivity
        end
    end;
    rewrite <- IH; f_equal; lia.
Qed.

Lemma digits_of_uint (d : Decimal.uint) (b : bool) :
  d <> Decimal.Nil \/ b = true ->
  digits 0 b (list_ascii_of_string (NilEmpty.string_of_uint d))
  = Some (Z.of_N (Pos.of_uint d)).
Proof.
  revert b.
  induction d as [| d IH | d IH | d IH | d IH | d IH | d IH | d IH | d IH
                  | d IH | d IH]; intros b Hb;
    cbn [NilEmpty.string_of_uint list_ascii_of_string Pos.of_uint];
    [destruct Hb as [Hb | ->]; [contradiction | reflexivity] | ..];
    match goal with
    | |- digits _ _ (?c :: _) = _ =>
        let v := eval vm_compute in (digit_val c) in
        match v with
        | Some ?d => rewrite (digits_step c d) by reflexivity
        end
    end;
    [apply IH; now right | ..];
    match goal with
    | |- digits _ _ _ = Some (Z.of_N (N.pos (Pos.of_uint_acc _ ?acc))) =>
        exact (digits_of_uint_acc d acc)
    end.
Qed.

Lemma uint_text_plain (d : Decimal.uint) :
  Forall (fun c => (N_of_ascii c < 127)%N /\ Py_ISSPACE c = false
                   /\ Ascii.eqb c "-" = false /\ Ascii.eqb c "+" = false
                   /\ Ascii.eqb c "_" = false)
    (list_ascii_of_string (NilEmpty.string_of_uint d)).
Proof.
  induction d; cbn [NilEmpty.string_of_uint list_ascii_of_string];
    constructor; try assumption; repeat split.
Qed.

Lemma length_list_ascii_of_string (s : string) :
  length (list_ascii_of_string s) = String.length s.
Proof. induction s as [| c s IH]; cbn; [reflexivity | now rewrite IH]. Qed.

(** [int(str(z))] is [z], for an integer of at most 4300 digits. *)
Lemma py_int_py_str (z : Z) :
  Z.of_nat (String.length (py_str (Z.abs z))) <= max_str_digits ->
  py_int (py_str z) = Some z.
Proof.
  assert (Hpos : forall p,
            Z.of_nat (String.length (py_str (Z.pos p))) <= max_str_digits ->
            exists c body,
              list_ascii_of_string (py_str (Z.pos p)) = c :: body
              /\ Forall (fun c => (N_of_ascii c < 127)%N) (c :: body)
              /\ Forall (fun c => Py_ISSPACE c = false) (c :: body)
              /\ Ascii.eqb c "-" = false /\ Ascii.eqb c "+" = false
              /\ (max_str_digits <? Z.of_nat (count_digits (c :: body)))
                 = false
              /\ digits 0 false (c :: body) = Some (Z.pos p)).
  { intros p Hlen. unfold py_str in *. cbn [Z.to_int NilZero.string_of_int] in *.
    pose proof (DecimalPos.Unsigned.of_to p) as Hof.
    assert (Hnil : Pos.to_uint p <> Decimal.Nil).
    { intros Heq. rewrite Heq in Hof. discriminate. }
    assert (Hsame : NilZero.string_of_uint (Pos.to_uint p)
                    = NilEmpty.string_of_uint (Pos.to_uint p))
      by (destruct (Pos.to_uint p); [contradiction | reflexivity..]).
    rewrite Hsame in *.
    pose proof (uint_text_plain (Pos.to_uint p)) as Hplain.
    pose proof (digits_of_uint (Pos.to_uint p) false (or_introl Hnil)) as Hd.
    rewrite Hof in Hd. cbn [Z.of_N] in Hd.
    rewrite <- length_list_ascii_of_string in Hlen.
    destruct (list_ascii_of_string (NilEmpty.string_of_uint (Pos.to_uint p)))
      as [| c body] eqn:Hl; [discriminate |].
    exists c, body. split; [reflexivity |].
    split; [eapply Forall_impl; [exact Hplain | now intros ? (? & _)] |].
    split; [eapply Forall_impl; [exact Hplain | now intros ? (_ & ? & _)] |].
    apply Forall_cons in Hplain as [(_ & _ & Hm & Hp & _) _].
    split; [exact Hm |]. split; [exact Hp |]. split; [| exact Hd].
    apply Z.ltb_ge. unfold count_digits.
    pose proof (filter_length_le
                  (fun c => negb (Ascii.eqb c "_")) (c :: body)) as Hle.
    lia. }
  destruct z as [| p | p]; intros Hlen.
  - reflexivity.
  - destruct (Hpos p Hlen) as (c & body & Hl & Ha & Hs & Hm & Hp & Hn & Hd).
    rewrite <- (string_of_list_ascii_of_string (py_str (Z.pos p))), Hl.
    rewrite py_int_plain by assumption.
    cbv zeta. now rewrite Hm, Hp, Hn, Hd.
  - destruct (Hpos p Hlen) as (c & body & Hl & Ha & Hs & Hm & Hp & Hn & Hd).
    assert (Htext : py_str (Z.neg p)
                    = string_of_list_ascii ("-"%char :: c :: body)).
    { rewrite <- Hl. cbn [string_of_list_ascii].
      rewrite string_of_list_ascii_of_string. reflexivity. }
    rewrite Htext, py_int_plain;
      [| constructor; [reflexivity | assumption]
       | constructor; [reflexivity | assumption]].
    change (Ascii.eqb "-" "-") with true. cbv beta iota zeta.
    now rewrite Hn, Hd.
Qed.

(** ** Construction of the configuration *)

Lemma setenv_eq (env : Environ) (name value : string) :
  setenv env name value name = Some value.
Proof. unfold setenv. now rewrite String.eqb_refl. Qed.

Lemma setenv_ne (env : Environ) (name value n : string) :
  n <> name -> setenv env name value n = env n.
Proof.
  intros Hne. unfold setenv.
  destruct (String.eqb_spec n name); [contradiction | reflexivity].
Qed.

Lemma getenv_setenv_eq (env : Environ) (name value dflt : string) :
  getenv (setenv env name value) name dflt = value.
Proof. unfold getenv. now rewrite setenv_eq. Qed.

Lemma getenv_setenv_ne (env : Environ) (name value n dflt : string) :
  n <> name -> getenv (setenv env name value) n dflt = getenv env n dflt.
Proof. intros Hne. unfold getenv. now rewrite setenv_ne. Qed.

Lemma split_comma_nonempty (s : string) : split_comma s <> [].
Proof.
  destruct s as [| c s]; cbn; [discriminate |].
  destruct (Ascii.eqb c ","); [discriminate |].
  destruct (split_comma s); discriminate.
Qed.

Lemma ints_length (xs : list string) (l : list Z) :
  ints xs = Some l -> length l = length xs.
Proof.
  revert l. induction xs as [| x xs IH]; intros l H; cbn in H.
  - now injection H as <-.
  - destruct (py_int x); [| discriminate].
    destruct (ints xs) as [l' |]; [| discriminate].
    cbn in H. injection H as <-. cbn. f_equal. now apply IH.
Qed.

Lemma ladder_of_text_nonempty (s : string) :
  match ints (map strip (split_comma s)) with
  | Some l => l
  | None => default_escalation
  end <> [].
Proof.
  destruct (ints (map strip (split_comma s))) as [l |] eqn:E; [| discriminate].
  apply ints_length in E. rewrite length_map in E.
  pose proof (split_comma_nonempty s) as Hne.
  destruct l; [| discriminate].
  destruct (split_comma s); [contradiction | discriminate].
Qed.

Lemma Config_init_ladder_nonempty (env : Environ) (cfg : Config) :
  Config_init env = Ok cfg -> escalation_durations cfg <> [].
Proof.
  intros H. init_steps H. injection H as <-. apply ladder_of_text_nonempty.
Qed.

Lemma truthy_false (s : string) : truthy s = false <-> s = ""%string.
Proof. destruct s; cbn; split; congruence. Qed.

Lemma ints_None (xs : list string) :
  ints xs = None <-> exists x, x ∈ xs /\ py_int x = None.
Proof.
  induction xs as [| x xs IH]; cbn [ints].
  - split; [discriminate |]. intros (x & Hin & _). now apply elem_of_nil in Hin.
  - destruct (py_int x) as [z |] eqn:Hx.
    + destruct (ints xs) as [l |] eqn:Hl; cbn.
      * split; [discriminate |]. intros (y & Hin & Hy).
        apply elem_of_cons in Hin as [-> | Hin]; [congruence |].
        destruct IH as [_ IH]. discriminate IH. now exists y.
      * split; [| reflexivity]. intros _.
        destruct IH as [IH _]. destruct (IH eq_refl) as (y & Hin & Hy).
        exists y. split; [now apply list_elem_of_further | exact Hy].
    + split; [| reflexivity]. intros _. exists x.
      split; [apply list_elem_of_here | exact Hx].
Qed.

Lemma ladder_of_text_default (s : string) :
  (exists x, x ∈ split_comma s /\ py_int (strip x) = None) ->
  match ints (map strip (split_comma s)) with
  | Some l => l
  | None => default_escalation
  end = default_escalation.
Proof.
  intros (x & Hin & Hbad).
  assert (Hnone : ints (map strip (split_comma s)) = None).
  { apply ints_None. exists (strip x).
    split; [now apply list_elem_of_fmap_2 | exact Hbad]. }
  now rewrite Hnone.
Qed.

Lemma id_list_raise (s msg : string) :
  (exists e, id_list s msg = Raise e)
  <-> exists x, x ∈ split_comma s /\ strip x <> ""%string
                /\ py_int (strip x) = None.
Proof.
  unfold id_list. destruct (truthy s) eqn:Ht.
  - destruct (ints _) as [l |] eqn:Hi.
    + split; [intros (e & He); discriminate |].
      intros (x & Hin & Hne & Hbad). exfalso.
      assert (Hnone : ints (List.filter truthy (map strip (split_comma s)))
                      = None); [| congruence].
      apply ints_None. exists (strip x). split; [| exact Hbad].
      apply list_elem_of_In, filter_In. split.
      * apply list_elem_of_In. now apply list_elem_of_fmap_2.
      * destruct (truthy (strip x)) eqn:Hs; [reflexivity |].
        now apply truthy_false in Hs.
    + split; [| intros _; eexists; reflexivity]. intros _.
      apply ints_None in Hi as (y & Hin & Hbad).
      apply list_elem_of_In, filter_In in Hin as [Hin Hy].
      apply list_elem_of_In, list_elem_of_fmap_1 in Hin as (x & -> & Hin).
      exists x. split; [exact Hin |]. split; [| exact Hbad].
      intros Heq. rewrite Heq in Hy. discriminate.
  - apply truthy_false in Ht as ->.
    split; [intros (e & He); discriminate |].
    intros (x & Hin & Hne & _). cbn in Hin.
    apply list_elem_of_singleton in Hin as ->. now destruct Hne.
Qed.

Lemma id_list_ValueError (s msg : string) (e : exn) :
  id_list s msg = Raise e -> e = ValueError msg.
Proof.
  unfold id_list. destruct (truthy s); [| discriminate].
  destruct (ints _); [discriminate |]. now intros [= <-].
Qed.

Lemma int_env_raise (env : Environ) (name dflt : string) (e : exn) :
  int_env env name dflt = Raise e ->
  py_int (getenv env name dflt) = None
  /\ e = ValueError "invalid literal for int()".
Proof.
  unfold int_env. destruct (py_int _); [discriminate |]. now intros [= <-].
Qed.

Lemma int_env_ok (env : Environ) (name dflt : string) (z : Z) :
  int_env env name dflt = Ok z -> py_int (getenv env name dflt) = Some z.
Proof. unfold int_env. destruct (py_int _); [now intros [= <-] | discriminate]. Qed.

(** Why a construction fails: the first step of [Config_init] that
    raises is a missing token, an integer setting that [int] refuses, or a
    list of ids with an item that [int] refuses. *)
Lemma Config_init_raise (env : Environ) (e : exn) :
  Config_init env = Raise e ->
  (exists msg, e = ValueError msg)
  /\ ((getenv env "BOT_TOKEN" "" = ""%string
       /\ default ""%string (env "PYTEST_CURRENT_TEST"%string) = ""%string)
      \/ (exists name dflt,
            (name, dflt) ∈ int_settings
            /\ py_int (getenv env name dflt) = None)
      \/ (exists name x,
            name ∈ id_list_settings
            /\ x ∈ split_comma (getenv env name "")
            /\ strip x <> ""%string /\ py_int (strip x) = None)).
Proof.
  intros H. unfold Config_init in H.
  destruct (negb _ && negb _) eqn:Htok.
  { injection H as <-. split; [eexists; reflexivity |]. left.
    apply andb_true_iff in Htok as [H1 H2].
    rewrite negb_true_iff in H1, H2. split; now apply truthy_false. }
  repeat match type of H with
    | rbind ?r _ = Raise _ =>
        let E := fresh "E" in
        destruct r eqn:E; cbn [rbind] in H;
        [| injection H as <-;
           first
             [ apply int_env_raise in E as [E ->];
               split; [eexists; reflexivity |]; right; left;
               eexists; eexists; split; [| exact E]; in_list
             | pose proof (id_list_ValueError _ _ _ E) as ->;
               split; [eexists; reflexivity |]; right; right;
               destruct (proj1 (id_list_raise _ _) (ex_intro _ _ E))
                 as (x & Hx);
               eexists; exists x; split; [| exact Hx]; in_list ] ]
    end.
  discriminate.
Qed.

(** C9, as the code has it.  [Config.__init__] checks no range.  A
    configuration that was constructed never has an empty ladder: a ladder
    text with an item that is no integer, the empty text included, is
    replaced by 60, 360, 1440, 10080.  Construction succeeds all the same,
    storing the value as given, when the window or the threshold is set to
    any text that [int] reads, and [int] reads the text that [str] gives
    for an integer, positive or not (every integer of up to 4300 digits
    has one).  Construction fails,
    with a [ValueError], exactly when the token is missing, or one of the
    integer settings is a text that [int] refuses, or a list of ids has an
    item that [int] refuses. *)
Theorem Config_init_checks_no_range (env : Environ) :
  (forall cfg,
     Config_init env = Ok cfg ->
     escalation_durations cfg <> []
     /\ ((exists x,
            x ∈ split_comma
                  (getenv env "ESCALATION_DURATIONS" "60,360,1440,10080")
            /\ py_int (strip x) = None) ->
         escalation_durations cfg = default_escalation)
     /\ (forall s z, py_int s = Some z ->
          Config_init (setenv env "ANTIFLOOD_WINDOW_SECONDS" s)
          = Ok (with_window cfg z))
     /\ (forall s z, py_int s = Some z ->
          Config_init (setenv env "ANTIFLOOD_MAX_MESSAGES" s)
          = Ok (with_max_messages cfg z)))
  /\ (forall z text, format_int z = Ok text -> py_int text = Some z)
  /\ ((exists e, Config_init env = Raise e)
      <-> (getenv env "BOT_TOKEN" "" = ""%string
           /\ default ""%string (env "PYTEST_CURRENT_TEST"%string)
              = ""%string)
          \/ (exists name dflt,
                (name, dflt) ∈ int_settings
                /\ py_int (getenv env name dflt) = None)
          \/ (exists name x,
                name ∈ id_list_settings
                /\ x ∈ split_comma (getenv env name "")
                /\ strip x <> ""%string /\ py_int (strip x) = None))
  /\ (forall e, Config_init env = Raise e -> exists msg, e = ValueError msg).
Proof.
  split; [| split; [| split]].
  2: { intros z text. unfold format_int.
       destruct (Z.ltb_spec max_str_digits
                   (Z.of_nat (String.length (py_str (Z.abs z)))));
         [discriminate |].
       intros [= <-]. now apply py_int_py_str. }
  - intros cfg H. init_steps H. injection H as <-.
    split; [apply ladder_of_text_nonempty |].
    split; [apply ladder_of_text_default |].
    split; intros s z Hs; unfold Config_init, int_env in *;
      rewrite ?getenv_setenv_eq, ?getenv_setenv_ne, ?setenv_ne by discriminate;
      match goal with
      | Hc : (_ && _) = false |- _ => rewrite Hc
      end;
      repeat match goal with
        | E : ?r = Ok _ |- context [?r] => rewrite E
        end;
      rewrite ?Hs; reflexivity.
  - split; [intros (e & H); now apply Config_init_raise in H |].
    intros Hcause.
    destruct (Config_init env) as [cfg |] eqn:H; [exfalso | eexists; reflexivity].
    destruct Hcause as [(Htok & Hpy) | [(name & dflt & Hin & Hbad)
                                        | (name & x & Hin & Hx)]].
    + unfold Config_init in H. rewrite Htok, Hpy in H. discriminate.
    + init_steps H.
      unfold int_settings in Hin.
      repeat (apply elem_of_cons in Hin as [[= -> ->] | Hin];
              [match goal with
               | E : int_env env _ _ = Ok _ |- _ =>
                   apply int_env_ok in E; congruence
               end |]).
      now apply elem_of_nil in Hin.
    + init_steps H.
      unfold id_list_settings in Hin.
      repeat (apply elem_of_cons in Hin as [-> | Hin];
              [match goal with
               | E : id_list (getenv env ?n _) ?msg = Ok _ |- _ =>
                   destruct (proj2 (id_list_raise (getenv env n "") msg)
                               (ex_intro _ x Hx)) as (e' & He');
                   congruence
               end |]).
      now apply elem_of_nil in Hin.
  - intros e H. now apply Config_init_raise in H.
Qed.

Lemma Config_init_checks_no_range_witness :
  exists cfg,
    Config_init degenerate_env = Ok cfg
    /\ escalation_durations cfg = default_escalation
    /\ Config_init (setenv degenerate_env "ANTIFLOOD_WINDOW_SECONDS" "-10")
       = Ok (with_window cfg (-10)).
Proof.
  eexists. split; [vm_compute; reflexivity |].
  match goal with
  | |- _ /\ _ = Ok (with_window ?c _) =>
      destruct (proj1 (Config_init_checks_no_range degenerate_env) c)
        as (_ & Hdefault & Hw & _); [vm_compute; reflexivity |]
  end.
  split.
  - apply Hdefault. exists ""%string.
    split; [apply list_elem_of_here | vm_compute; reflexivity].
  - apply Hw. vm_compute; reflexivity.
Defined.

(** C7, as the specification words it, fails: the ladder text 360,60 is
    configured as it stands, and under it the second violation is muted
    for 60 minutes after the first was muted for 360. *)
Lemma get_mute_duration_descending_ladder :
  (exists cfg,
     Config_init descending_env = Ok cfg
     /\ escalation_durations cfg = [360; 60]
     /\ get_mute_duration cfg 1 = Ok 360
     /\ get_mute_duration cfg (1 + 1) = Ok 60)
  /\ ~ (forall env cfg n a b,
          Config_init env = Ok cfg ->
          get_mute_duration cfg n = Ok a ->
          get_mute_duration cfg (n + 1) = Ok b ->
          b >= a).
Proof.
  assert (H : exists cfg,
     Config_init descending_env = Ok cfg
     /\ escalation_durations cfg = [360; 60]
     /\ get_mute_duration cfg 1 = Ok 360
     /\ get_mute_duration cfg (1 + 1) = Ok 60).
  { eexists. split; [vm_compute; reflexivity |]. repeat split. }
  split; [exact H |].
  destruct H as (cfg & Hinit & _ & H1 & H2). intros Hall.
  specialize (Hall _ _ _ _ _ Hinit H1 H2). lia.
Qed.

(** C9, as the specification words it, fails: the environment that asks
    for a zero window, the threshold -3 and an empty ladder text is turned
    into a configuration, with the window 0 and the threshold -3. *)
Lemma Config_init_accepts_degenerate :
  ~ (forall env cfg,
       Config_init env = Ok cfg ->
       escalation_durations cfg <> []
       /\ 0 < antiflood_window_seconds cfg
       /\ 0 < antiflood_max_messages cfg).
Proof.
  intros H.
  destruct (H degenerate_env
              (with_max_messages (with_window default_config 0) (-3)))
    as (_ & Hw & _); [vm_compute; reflexivity |].
  cbn in Hw. lia.
Qed.

Lemma get_mute_duration_total (cfg : Config) (n : Z) :
  escalation_durations cfg <> [] ->
  exists d, get_mute_duration cfg n = Ok d /\ d ∈ escalation_durations cfg.
Proof.
  intros Hne.
  destruct (escalation_durations cfg) as [| first rest] eqn:Hl; [done |].
  destruct (Z_le_gt_dec n 0) as [Hle | Hgt].
  - exists first. split; [| apply list_elem_of_here].
    now apply get_mute_duration_nonpositive with rest.
  - destruct (lookup_lt_is_Some_2 (first :: rest)
                (Z.to_nat (Z.min (n - 1)
                             (Z.of_nat (length (first :: rest)) - 1))))
      as [d Hd]; [cbn [length]; lia |].
    exists d. split; [| now apply list_elem_of_lookup_2 in Hd].
    eapply get_mute_duration_positive; [lia | reflexivity |].
    rewrite Hl. exact Hd.
Qed.

Lemma get_mute_duration_default_ladder (cfg : Config) (n : Z) :
  escalation_durations cfg = default_escalation ->
  get_mute_duration cfg n
  = Ok (if n <=? 1 then 60
        else if n =? 2 then 360 else if n =? 3 then 1440 else 10080).
Proof.
  intros Hl. unfold get_mute_duration. rewrite Hl.
  destruct (Z.leb_spec n 0) as [Hle | Hgt].
  - destruct (Z.leb_spec n 1); [reflexivity | lia].
  - assert (Hn : n = 1 \/ n = 2 \/ n = 3 \/ 4 <= n) by lia.
    destruct Hn as [-> | [-> | [-> | Hn]]]; [reflexivity.. |].
    cbn [default_escalation length].
    rewrite Z.min_r by lia.
    destruct (Z.leb_spec n 1); [lia |].
    destruct (Z.eqb_spec n 2); [lia |].
    destruct (Z.eqb_spec n 3); [lia | reflexivity].
Qed.

(** C6, as the code has it.  Under a configuration that was constructed,
    [get_mute_duration] answers for every ordinal, positive or not, with a
    rung of the ladder, and never raises.  When the ladder that is
    configured is empty, or any of its items is no integer, the ladder
    falls back to the built-in 60, 360, 1440, 10080, not to a single
    rung: the ordinals up to 1 get 60 minutes, the ordinals 2 and 3 get
    360 and 1440, and every ordinal from 4 on gets 10080. *)
Theorem get_mute_duration_fallback_ladder (env : Environ) (cfg : Config) :
  Config_init env = Ok cfg ->
  (forall n, exists d,
     get_mute_duration cfg n = Ok d /\ d ∈ escalation_durations cfg)
  /\ ((exists x,
         x ∈ split_comma
               (getenv env "ESCALATION_DURATIONS" "60,360,1440,10080")
         /\ py_int (strip x) = None) ->
      escalation_durations cfg = [60; 360; 1440; 10080]
      /\ forall n,
           get_mute_duration cfg n
           = Ok (if n <=? 1 then 60
                 else if n =? 2 then 360
                 else if n =? 3 then 1440 else 10080)).
Proof.
  intros H. split.
  - intros n. apply get_mute_duration_total.
    now apply Config_init_ladder_nonempty with env.
  - intros Hbad.
    assert (Hl : escalation_durations cfg = default_escalation).
    { init_steps H. injection H as <-. now apply ladder_of_text_default. }
    split; [exact Hl |]. intros n. now apply get_mute_duration_default_ladder.
Qed.

Lemma get_mute_duration_fallback_ladder_witness :
  exists cfg,
    Config_init empty_ladder_env = Ok cfg
    /\ get_mute_duration cfg 0 = Ok 60
    /\ get_mute_duration cfg 7 = Ok 10080.
Proof.
  eexists. split; [vm_compute; reflexivity |].
  match goal with
  | |- get_mute_duration ?c _ = _ /\ _ =>
      destruct (get_mute_duration_fallback_ladder empty_ladder_env c)
        as (_ & Hfall); [vm_compute; reflexivity |]
  end.
  destruct Hfall as (_ & Hn).
  - exists ""%string.
    split; [apply list_elem_of_here | vm_compute; reflexivity].
  - split; apply Hn.
Defined.

(** C6, as the specification words it, fails: with the ladder text empty
    the configuration that is constructed has the built-in ladder of four
    rungs, and the second ordinal gets 360 minutes, not 60. *)
Lemma get_mute_duration_fallback_not_one_rung :
  (exists cfg,
     Config_init empty_ladder_env = Ok cfg
     /\ escalation_durations cfg = [60; 360; 1440; 10080]
     /\ get_mute_duration cfg 2 = Ok 360)
  /\ ~ (forall env cfg n,
          Config_init env = Ok cfg ->
          env "ESCALATION_DURATIONS"%string = Some ""%string ->
          get_mute_duration cfg n = Ok 60).
Proof.
  assert (H : exists cfg,
     Config_init empty_ladder_env = Ok cfg
     /\ escalation_durations cfg = [60; 360; 1440; 10080]
     /\ get_mute_duration cfg 2 = Ok 360).
  { eexists. split; [vm_compute; reflexivity |]. split; reflexivity. }
  split; [exact H |].
  destruct H as (cfg & Hinit & _ & H2). intros Hall.
  specialize (Hall empty_ladder_env cfg 2 Hinit eq_refl).
  rewrite H2 in Hall. discriminate.
Qed.

(** ** Sliding-window tracker *)

Section Tracker.
Import RateLimiter.

Variable cfg : Config.
Variables user_id chat_id : Z.

Lemma check_rate_limit_exempt (now : Z) (h : History) :
  is_exempt_from_rate_limit cfg user_id = true ->
  check_rate_limit cfg now user_id chat_id h = (false, h).
Proof. intros He. unfold check_rate_limit. now rewrite He. Qed.

Lemma check_rate_limit_counted (now : Z) (h : History) :
  is_exempt_from_rate_limit cfg user_id = false ->
  check_rate_limit cfg now user_id chat_id h
  = (bool_decide
       (Z.of_nat (length (kept cfg user_id chat_id now h ++ [now]))
        > antiflood_max_messages cfg),
     <[(chat_id, user_id) := kept cfg user_id chat_id now h ++ [now]]> h).
Proof.
  intros He. unfold check_rate_limit, kept, getitem. rewrite He.
  destruct (h !! (chat_id, user_id)) as [old |] eqn:Hk; cbn [default];
    rewrite ?lookup_insert_eq, ?insert_insert_eq; reflexivity.
Qed.

Lemma get_message_count_pruned (now : Z) (h : History) :
  get_message_count cfg now user_id chat_id h
  = (Z.of_nat (length (kept cfg user_id chat_id now h)),
     <[(chat_id, user_id) := kept cfg user_id chat_id now h]> h).
Proof.
  unfold get_message_count, kept, getitem.
  destruct (h !! (chat_id, user_id)) as [old |] eqn:Hk; cbn [default];
    rewrite ?lookup_insert_eq, ?insert_insert_eq; reflexivity.
Qed.

Lemma record_calls_exempt (times : list Z) (h : History) :
  is_exempt_from_rate_limit cfg user_id = true ->
  record_calls cfg user_id chat_id times h = (map (λ _, false) times, h).
Proof.
  intros He. induction times as [| now rest IH]; [reflexivity |].
  cbn [record_calls]. rewrite check_rate_limit_exempt by assumption.
  now rewrite IH.
Qed.






End Tracker.

Lemma exempt_of_lists (cfg : Config) (user_id : Z) :
  user_id ∈ admin_ids cfg \/ user_id ∈ whitelisted_users cfg ->
  is_exempt_from_rate_limit cfg user_id = true.
Proof.
  intros [Ha | Hw]; unfold is_exempt_from_rate_limit, is_admin, is_whitelisted.
  - now rewrite bool_decide_eq_true_2.
  - rewrite (bool_decide_eq_true_2 _ Hw). apply orb_true_r.
Qed.



(** C10.  For an actor who is an administrator or whitelisted, every
    [check_rate_limit] call answers false and leaves the tracker exactly as
    it was; any number of calls at one clock reading, made on an empty
    tracker, all answer false and leave the actor without an entry. *)
Theorem exempt_actor_never_recorded (cfg : Config) (user_id chat_id : Z) :
  user_id ∈ admin_ids cfg \/ user_id ∈ whitelisted_users cfg ->
  (forall now h,
     RateLimiter.check_rate_limit cfg now user_id chat_id h = (false, h))
  /\ (forall times h,
       record_calls cfg user_id chat_id times h = (map (λ _, false) times, h))
  /\ (forall n now,
       exists h,
         record_calls cfg user_id chat_id (replicate n now) ∅
         = (replicate n false, h)
         /\ h !! (chat_id, user_id) = None
         /\ RateLimiter.tracked_users (RateLimiter.get_stats h) = 0%nat).
Proof.
  intros Hex. apply exempt_of_lists in Hex.
  split; [| split].
  - intros now h. now apply check_rate_limit_exempt.
  - intros times h. now apply record_calls_exempt.
  - intros n now. exists ∅.
    rewrite record_calls_exempt by assumption.
    split; [| split; reflexivity].
    f_equal. induction n as [| n IH]; [reflexivity | cbn; now rewrite IH].
Qed.

Lemma exempt_actor_never_recorded_witness :
  (7 ∈ admin_ids admin_config \/ 7 ∈ whitelisted_users admin_config)
  /\ record_calls admin_config 7 9 (replicate 20 0) ∅
     = (replicate 20 false, ∅).
Proof.
  assert (Hex : 7 ∈ admin_ids admin_config \/ 7 ∈ whitelisted_users admin_config)
    by (left; cbn; set_solver).
  split; [exact Hex |].
  destruct (exempt_actor_never_recorded admin_config 7 9 Hex) as (_ & Hall & _).
  rewrite Hall. reflexivity.
Defined.

(** ** Violation ledger *)

Section Ledger.
Import Database.

Lemma unique_conflict_true (t : Table) (v : UserViolation) :
  unique_conflict t v = true <->
  exists r, r ∈ user_violations t /\ same_key r v.
Proof.
  unfold unique_conflict, same_key. rewrite existsb_exists. split.
  - intros (r & Hin & Hr). exists r. split; [now apply list_elem_of_In |].
    apply andb_prop in Hr as [Hr Ht]. apply andb_prop in Hr as [Hu Hc].
    lia.
  - intros (r & Hin & Hu & Hc & Ht). exists r.
    split; [now apply list_elem_of_In |].
    rewrite Hu, Hc, Ht, !Z.eqb_refl. reflexivity.
Qed.

Lemma max_rowid_bound (rows : list UserViolation) (r : UserViolation) (i : Z) :
  r ∈ rows -> id_ r = Some i -> i <= max_rowid rows.
Proof.
  intros Hin Hi.
  induction rows as [| x rows IH]; [now apply elem_of_nil in Hin |].
  change (i <= Z.max (default 0 (id_ x)) (max_rowid rows)).
  apply elem_of_cons in Hin as [<- | Hin].
  - rewrite Hi. cbn. lia.
  - specialize (IH Hin). lia.
Qed.

Lemma add_violation_fresh (t : Table) (v : UserViolation) :
  unique_conflict t v = false ->
  exists new_id,
    add_violation t v
    = Ok (new_id, {| user_violations := user_violations t ++ [stored v new_id];
                     sqlite_sequence := new_id |})
    /\ (forall r, r ∈ user_violations t -> id_ r <> Some new_id)
    /\ sqlite_sequence t < new_id.
Proof.
  intros Hu. unfold add_violation. rewrite Hu.
  eexists. split; [reflexivity |]. split; [| lia].
  intros r Hin Hid. pose proof (max_rowid_bound _ _ _ Hin Hid). lia.
Qed.

Lemma violation_count_by_type (t : Table) (utcnow user chat : Z) :
  get_user_violation_count t utcnow user chat 30
  = prior_records rate_limit t utcnow user chat
    + prior_records manual t utcnow user chat.
Proof.
  unfold get_user_violation_count, prior_records.
  induction (user_violations t) as [| r rows IH]; [reflexivity |].
  rewrite !filter_cons.
  destruct (violation_type r) eqn:Hty;
    repeat case_decide; cbn [length]; try lia;
    exfalso; intuition congruence.
Qed.

End Ledger.

(** C3, as the code has it.  [add_violation] stores a record, under an id
    that no row has and that is above every id handed out before, when no
    row of the ledger has the same user, chat and timestamp; when one has,
    it stores nothing and raises [IntegrityError]. *)
Theorem add_violation_unless_duplicate
    (t : Database.Table) (v : Database.UserViolation) :
  ((forall r, r ∈ Database.user_violations t -> ~ same_key r v) ->
   exists new_id,
     Database.add_violation t v
     = Ok (new_id,
           {| Database.user_violations :=
                Database.user_violations t ++ [stored v new_id];
              Database.sqlite_sequence := new_id |})
     /\ (forall r, r ∈ Database.user_violations t ->
          Database.id_ r <> Some new_id)
     /\ Database.sqlite_sequence t < new_id)
  /\ ((exists r, r ∈ Database.user_violations t /\ same_key r v) ->
      Database.add_violation t v = Raise IntegrityError).
Proof.
  split.
  - intros Hfree. apply add_violation_fresh.
    destruct (Database.unique_conflict t v) eqn:Hu; [| reflexivity].
    apply unique_conflict_true in Hu as (r & Hin & Hk).
    now destruct (Hfree r Hin).
  - intros Hdup. apply unique_conflict_true in Hdup.
    unfold Database.add_violation. now rewrite Hdup.
Qed.

Lemma add_violation_unless_duplicate_witness :
  (exists new_id t1,
     Database.add_violation Database.initialize violation_a = Ok (new_id, t1)
     /\ 0 < new_id)
  /\ Database.add_violation
       {| Database.user_violations := [stored violation_a 1];
          Database.sqlite_sequence := 1 |} violation_b
     = Raise IntegrityError.
Proof.
  split.
  - destruct (proj1 (add_violation_unless_duplicate
                       Database.initialize violation_a))
      as (new_id & Hadd & _ & Hlt).
    + intros r Hin. now apply elem_of_nil in Hin.
    + exists new_id. eexists. split; [exact Hadd | exact Hlt].
  - apply (proj2 (add_violation_unless_duplicate _ violation_b)).
    exists (stored violation_a 1). split; [set_solver |].
    repeat split.
Defined.

(** C3, as the specification words it, fails: after [violation_a] is
    stored, [violation_b], a well-formed record of the same user and chat
    with the same timestamp, is rejected with [IntegrityError]. *)
Lemma add_violation_rejects_same_timestamp :
  (exists t1,
     Database.add_violation Database.initialize violation_a = Ok (1, t1)
     /\ Database.add_violation t1 violation_b = Raise IntegrityError)
  /\ ~ (forall t v, exists new_id t',
          Database.add_violation t v = Ok (new_id, t')).
Proof.
  assert (H : exists t1,
     Database.add_violation Database.initialize violation_a = Ok (1, t1)
     /\ Database.add_violation t1 violation_b = Raise IntegrityError).
  { eexists. split; reflexivity. }
  split; [exact H |].
  destruct H as (t1 & _ & Hb). intros Hall.
  destruct (Hall t1 violation_b) as (new_id & t' & Hok).
  rewrite Hb in Hok. discriminate.
Qed.

(** ** Dates *)

Lemma datetime_add_raises (d delta : Z) (e : exn) :
  datetime_add d delta = Raise e -> e = OverflowError.
Proof.
  unfold datetime_add.
  repeat match goal with
         | |- context [if ?c then _ else _] => destruct c
         end; congruence.
Qed.

Lemma datetime_add_ok (d delta sum : Z) :
  datetime_add d delta = Ok sum ->
  sum = d + delta /\ datetime_min <= sum <= datetime_max.
Proof.
  unfold datetime_add.
  destruct (_ && _); [| discriminate].
  destruct (_ && _) eqn:Hr; [| discriminate].
  intros H. injection H as <-. split; [reflexivity | lia].
Qed.

(** ** Moderation coordinator *)

Section Coordinator.
Import RateLimiter Database Moderation.

Lemma add_violation_rows (t t' : Table) (v : UserViolation) (new_id : Z) :
  add_violation t v = Ok (new_id, t') ->
  user_violations t' = user_violations t ++ [stored v new_id].
Proof.
  unfold add_violation. destruct (unique_conflict t v); [discriminate |].
  intros H. injection H as <- <-. reflexivity.
Qed.

Lemma add_message_exceeded (cfg : Config) (now user chat : Z) (h h' : History) :
  add_message cfg now user chat h = (true, h') ->
  Z.of_nat (length (default [] (h' !! (chat, user))))
  > antiflood_max_messages cfg.
Proof.
  unfold add_message. intros H.
  destruct (is_exempt_from_rate_limit cfg user) eqn:He.
  - rewrite check_rate_limit_exempt in H by assumption. discriminate.
  - rewrite check_rate_limit_counted in H by assumption.
    injection H as Hb <-. rewrite lookup_insert_eq. cbn.
    now apply bool_decide_eq_true in Hb.
Qed.

End Coordinator.

(** C1, as the code has it.  The ordinal [handle_message] uses after a
    detected violation is 1 plus the number of the actor's records of the
    last 30 days of either type, [rate_limit] and [manual] alike: it is the
    ordinal reported to the caller, and the duration of the record written
    and of the mute is the ladder's answer for it. *)
Theorem escalation_ordinal_counts_every_type
    (cfg : Config) (w : Moderation.World) (user_id chat_id : Z)
    (st st' : Moderation.State) (r : result (option Moderation.Action)) :
  Moderation.handle_message cfg w user_id chat_id st = (r, st') ->
  let ordinal :=
    1 + prior_records Database.rate_limit (Moderation.table st)
          (Moderation.utcnow_lookback w) user_id chat_id
      + prior_records Database.manual (Moderation.table st)
          (Moderation.utcnow_lookback w) user_id chat_id in
  (forall act, r = Ok (Some act) ->
     Moderation.violation_count act = ordinal
     /\ get_mute_duration cfg ordinal
        = Ok (Moderation.action_mute_duration_minutes act))
  /\ (Moderation.table st' <> Moderation.table st ->
      exists row,
        Database.user_violations (Moderation.table st')
        = Database.user_violations (Moderation.table st) ++ [row]
        /\ Database.violation_type row = Database.rate_limit
        /\ get_mute_duration cfg ordinal
           = Ok (Database.mute_duration_minutes row)).
Proof.
  intros H ordinal. unfold Moderation.handle_message in H.
  destruct (RateLimiter.add_message _ _ _ _ _) as [[|] h];
    cbn [Moderation.table Moderation.history Moderation.outbox] in H.
  2: { injection H as <- <-. split; [discriminate | intros Hne; now destruct Hne]. }
  rewrite violation_count_by_type in H.
  replace (_ + _ + 1) with ordinal in H by (subst ordinal; lia).
  destruct (get_mute_duration cfg ordinal) as [d | e] eqn:Hd.
  2: { injection H as <- <-. split; [discriminate | intros Hne; now destruct Hne]. }
  destruct (Database.add_violation _ _) as [[vid t] | e] eqn:Ha.
  2: { injection H as <- <-. split; [discriminate | intros Hne; now destruct Hne]. }
  apply add_violation_rows in Ha.
  destruct (Moderation._apply_mute _ _ _ _ _) as [name until | err name | e];
    injection H as <- <-; cbn [Moderation.table].
  - split.
    + intros act Hact. injection Hact as <-. cbn. split; [lia | reflexivity].
    + intros _. eexists. split; [exact Ha | split; reflexivity].
  - split; [discriminate |].
    intros _. eexists. split; [exact Ha | split; reflexivity].
  - split; [discriminate |].
    intros _. eexists. split; [exact Ha | split; reflexivity].
Qed.

Lemma escalation_ordinal_counts_every_type_witness :
  exists act st',
    Moderation.handle_message default_config (world_at willing_bot 6) 7 9
      at_threshold_after_manual = (Ok (Some act), st')
    /\ Moderation.violation_count act = 2
    /\ Moderation.action_mute_duration_minutes act = 360.
Proof.
  eexists. eexists. split; [vm_compute; reflexivity |].
  match goal with
  | |- Moderation.violation_count ?a = 2 /\ _ =>
      destruct (escalation_ordinal_counts_every_type default_config
                  (world_at willing_bot 6) 7 9 at_threshold_after_manual
                  _ (Ok (Some a)) ltac:(vm_compute; reflexivity))
        as [Hact _];
      destruct (Hact a eq_refl) as [Hn _]
  end.
  split; [rewrite Hn; vm_compute; reflexivity | reflexivity].
Defined.

(** C1, as the specification words it, fails: the actor (7, 9) was muted
    by hand once and has no [rate_limit] record; on the first detected
    violation the ordinal is 2, not 1. *)
Lemma escalation_ordinal_counts_manual :
  (exists act st',
     Moderation.handle_message default_config (world_at willing_bot 6) 7 9
       at_threshold_after_manual = (Ok (Some act), st')
     /\ Moderation.violation_count act = 2
     /\ prior_records Database.rate_limit
          (Moderation.table at_threshold_after_manual)
          (Moderation.utcnow_lookback (world_at willing_bot 6)) 7 9 = 0)
  /\ ~ (forall cfg w user_id chat_id st act st',
          Moderation.handle_message cfg w user_id chat_id st
          = (Ok (Some act), st') ->
          Moderation.violation_count act
          = 1 + prior_records Database.rate_limit (Moderation.table st)
                  (Moderation.utcnow_lookback w) user_id chat_id).
Proof.
  assert (H : exists act st',
     Moderation.handle_message default_config (world_at willing_bot 6) 7 9
       at_threshold_after_manual = (Ok (Some act), st')
     /\ Moderation.violation_count act = 2
     /\ prior_records Database.rate_limit
          (Moderation.table at_threshold_after_manual)
          (Moderation.utcnow_lookback (world_at willing_bot 6)) 7 9 = 0).
  { eexists. eexists. split; [vm_compute; reflexivity |].
    split; vm_compute; reflexivity. }
  split; [exact H |].
  destruct H as (act & st' & Hrun & Hn & Hp). intros Hall.
  specialize (Hall _ _ _ _ _ _ _ Hrun). rewrite Hn, Hp in Hall. discriminate.
Qed.

(** C4, as the code has it.  When a violation is detected, its record is
    written and the mute then fails, [handle_message] leaves the tracker as
    the detecting call left it (the actor's burst is still stored), sends
    no notification, keeps the record, active, in the ledger, and answers
    [None]; and [None] is also its answer when no violation is detected. *)
Theorem handle_message_failed_mute_returns_none :
  (forall (cfg : Config) (w : Moderation.World) (user_id chat_id : Z)
          (st : Moderation.State) (h : RateLimiter.History) (d vid : Z)
          (t : Database.Table) (err name : string),
     RateLimiter.add_message cfg (Moderation.time_time w) user_id chat_id
       (Moderation.history st) = (true, h) ->
     get_mute_duration cfg
       (Database.get_user_violation_count (Moderation.table st)
          (Moderation.utcnow_lookback w) user_id chat_id 30 + 1) = Ok d ->
     Database.add_violation (Moderation.table st)
       (rate_limit_violation user_id chat_id (Moderation.utcnow_violation w) d)
     = Ok (vid, t) ->
     Moderation._apply_mute (Moderation.bot w) (Moderation.utcnow_mute w)
       user_id chat_id d = Moderation.MuteFailed err name ->
     exists st',
       Moderation.handle_message cfg w user_id chat_id st = (Ok None, st')
       /\ Moderation.history st' = h
       /\ Z.of_nat (length (default []
                      (Moderation.history st' !! (chat_id, user_id))))
          > antiflood_max_messages cfg
       /\ Moderation.outbox st' = Moderation.outbox st
       /\ Moderation.table st' = t
       /\ stored (rate_limit_violation user_id chat_id
                    (Moderation.utcnow_violation w) d) vid
          ∈ Database.user_violations (Moderation.table st'))
  /\ (forall (cfg : Config) (w : Moderation.World) (user_id chat_id : Z)
            (st : Moderation.State) (h : RateLimiter.History),
       RateLimiter.add_message cfg (Moderation.time_time w) user_id chat_id
         (Moderation.history st) = (false, h) ->
       (Moderation.handle_message cfg w user_id chat_id st).1 = Ok None).
Proof.
  split.
  - intros cfg w user_id chat_id st h d vid t err name Hx Hd Ha Hm.
    eexists. unfold Moderation.handle_message.
    rewrite Hx. cbn [Moderation.table Moderation.history Moderation.outbox].
    rewrite Hd. fold (rate_limit_violation user_id chat_id
                        (Moderation.utcnow_violation w) d).
    rewrite Ha, Hm.
    split; [reflexivity |].
    cbn [Moderation.table Moderation.history Moderation.outbox].
    split; [reflexivity |].
    split; [now apply add_message_exceeded with (Moderation.time_time w)
                                                 (Moderation.history st) |].
    split; [reflexivity |]. split; [reflexivity |].
    rewrite (add_violation_rows _ _ _ _ Ha). set_solver.
  - intros cfg w user_id chat_id st h Hx.
    unfold Moderation.handle_message. now rewrite Hx.
Qed.

Lemma handle_message_failed_mute_returns_none_witness :
  exists st',
    Moderation.handle_message default_config (world_at refusing_bot 6) 7 9
      at_threshold = (Ok None, st')
    /\ Moderation.history st' !! (9, 7) = Some [1; 2; 3; 4; 5; 6]
    /\ Moderation.outbox st' = []
    /\ stored (rate_limit_violation 7 9 1700000006000000 60) 1
       ∈ Database.user_violations (Moderation.table st').
Proof.
  destruct (proj1 handle_message_failed_mute_returns_none
              default_config (world_at refusing_bot 6) 7 9 at_threshold
              (<[(9, 7) := [1; 2; 3; 4; 5; 6]]> ∅) 60 1
              {| Database.user_violations :=
                   [stored (rate_limit_violation 7 9 1700000006000000 60) 1];
                 Database.sqlite_sequence := 1 |}
              "Not enough rights to restrict" "alice")
    as (st' & Hrun & Hh & _ & Ho & Ht & Hin);
    [vm_compute; reflexivity | vm_compute; reflexivity
     | vm_compute; reflexivity | vm_compute; reflexivity |].
  exists st'. split; [exact Hrun |]. split; [| split].
  - rewrite Hh. reflexivity.
  - rewrite Ho. reflexivity.
  - exact Hin.
Defined.

(** C4, as the specification words it, fails: for the actor (7, 9) at the
    threshold, the sixth message is a violation and the transport refuses
    the mute, yet the caller gets [None], the very answer it gets for a
    first message that is no violation at all. *)
Lemma failed_mute_not_surfaced :
  ((RateLimiter.add_message default_config 6 7 9
      (Moderation.history at_threshold)).1 = true
   /\ Moderation._apply_mute refusing_bot 1700000006000000 7 9 60
      = Moderation.MuteFailed "Not enough rights to restrict" "alice"
   /\ (Moderation.handle_message default_config (world_at refusing_bot 6) 7 9
         at_threshold).1 = Ok None
   /\ (Moderation.handle_message default_config (world_at refusing_bot 1) 7 9
         empty_state).1 = Ok None)
  /\ ~ (forall cfg w user_id chat_id st h,
          RateLimiter.add_message cfg (Moderation.time_time w) user_id chat_id
            (Moderation.history st) = (true, h) ->
          (forall deadline,
             Moderation.restrict_chat_member (Moderation.bot w)
               chat_id user_id deadline <> None) ->
          (Moderation.handle_message cfg w user_id chat_id st).1 <> Ok None).
Proof.
  split.
  - repeat split; vm_compute; reflexivity.
  - intros Hall.
    apply (Hall default_config (world_at refusing_bot 6) 7 9 at_threshold
             (<[(9, 7) := [1; 2; 3; 4; 5; 6]]> ∅)).
    + vm_compute; reflexivity.
    + intros deadline. discriminate.
    + vm_compute; reflexivity.
Qed.



(** * Further properties of the code *)

(** ** Tracker: reset, sweep, frame and order *)

Section TrackerMore.
Import RateLimiter.

Variable cfg : Config.

Lemma kept_cleanup (now now' user_id chat_id : Z) (h : History) :
  0 <= antiflood_window_seconds cfg ->
  now <= now' ->
  kept cfg user_id chat_id now' (cleanup_old_entries cfg now h)
  = kept cfg user_id chat_id now' h.
Proof.
  intros HW Hnow. unfold kept, cleanup_old_entries.
  rewrite lookup_omap.
  destruct (h !! (chat_id, user_id)) as [l |]; cbn; [| reflexivity].
  set (c2 := now - antiflood_window_seconds cfg * 2).
  set (c1 := now' - antiflood_window_seconds cfg).
  assert (Hff : filter (λ t, t > c1) (filter (λ t, t > c2) l)
                = filter (λ t, t > c1) l).
  { apply list_filter_filter_l. intros t Ht. subst c1 c2. lia. }
  destruct (filter (λ t, t > c2) l) as [| x l'] eqn:Hl; cbn.
  - now rewrite <- Hff.
  - now rewrite <- Hff.
Qed.

Lemma kept_other (now now' user_id chat_id user' chat' : Z) (h : History) :
  (chat', user') <> (chat_id, user_id) ->
  is_exempt_from_rate_limit cfg user_id = false ->
  kept cfg user' chat' now' (check_rate_limit cfg now user_id chat_id h).2
  = kept cfg user' chat' now' h.
Proof.
  intros Hne He. rewrite check_rate_limit_counted by assumption.
  unfold kept at 1. cbn [snd]. now rewrite lookup_insert_ne.
Qed.

End TrackerMore.


(** X2.  Under a window that is not negative, [cleanup_old_entries] run
    at [now] changes neither the count [get_message_count] reports nor the
    verdict of [check_rate_limit], for any actor, at any reading from
    [now] on. *)
Theorem cleanup_keeps_counts
    (cfg : Config) (now now' user_id chat_id : Z) (h : RateLimiter.History) :
  0 <= antiflood_window_seconds cfg ->
  now <= now' ->
  (RateLimiter.get_message_count cfg now' user_id chat_id
     (RateLimiter.cleanup_old_entries cfg now h)).1
  = (RateLimiter.get_message_count cfg now' user_id chat_id h).1
  /\ (RateLimiter.check_rate_limit cfg now' user_id chat_id
        (RateLimiter.cleanup_old_entries cfg now h)).1
     = (RateLimiter.check_rate_limit cfg now' user_id chat_id h).1.
Proof.
  intros HW Hnow. split.
  - rewrite !get_message_count_pruned. cbn [fst].
    now rewrite kept_cleanup.
  - destruct (is_exempt_from_rate_limit cfg user_id) eqn:He.
    + now rewrite !check_rate_limit_exempt.
    + rewrite !check_rate_limit_counted by assumption. cbn [fst].
      now rewrite kept_cleanup.
Qed.

Lemma cleanup_keeps_counts_witness :
  (RateLimiter.get_message_count default_config 25 7 9
     (RateLimiter.cleanup_old_entries default_config 22
        (<[(9, 7) := [1; 16; 21]]> ∅))).1 = 2.
Proof.
  rewrite (proj1 (cleanup_keeps_counts default_config 22 25 7 9
                    (<[(9, 7) := [1; 16; 21]]> ∅)
                    ltac:(cbn; lia) ltac:(lia))).
  vm_compute. reflexivity.
Defined.



(** X4.  Actors do not interfere: a [check_rate_limit] call for one actor
    leaves every other actor's entry as it was, and so changes neither the
    verdict nor the count of any other actor's next call. *)
Theorem check_rate_limit_other_actor
    (cfg : Config) (now now' user_id chat_id user' chat' : Z)
    (h : RateLimiter.History) :
  (chat', user') <> (chat_id, user_id) ->
  (RateLimiter.check_rate_limit cfg now user_id chat_id h).2 !! (chat', user')
  = h !! (chat', user')
  /\ (RateLimiter.check_rate_limit cfg now' user' chat'
        (RateLimiter.check_rate_limit cfg now user_id chat_id h).2).1
     = (RateLimiter.check_rate_limit cfg now' user' chat' h).1
  /\ (RateLimiter.get_message_count cfg now' user' chat'
        (RateLimiter.check_rate_limit cfg now user_id chat_id h).2).1
     = (RateLimiter.get_message_count cfg now' user' chat' h).1.
Proof.
  intros Hne.
  destruct (is_exempt_from_rate_limit cfg user_id) eqn:He.
  { rewrite check_rate_limit_exempt by assumption. repeat split. }
  split; [| split].
  - rewrite check_rate_limit_counted by assumption. cbn [snd].
    now rewrite lookup_insert_ne.
  - destruct (is_exempt_from_rate_limit cfg user') eqn:He'.
    + now rewrite !(check_rate_limit_exempt cfg user').
    + rewrite !(check_rate_limit_counted cfg user') by assumption.
      cbn [fst]. now rewrite kept_other.
  - rewrite !get_message_count_pruned. cbn [fst]. now rewrite kept_other.
Qed.

Lemma check_rate_limit_other_actor_witness :
  (RateLimiter.check_rate_limit default_config 5 8 9
     (record_calls default_config 7 9 [0; 1; 2; 3; 4] ∅).2).2 !! (9, 7)
  = Some [0; 1; 2; 3; 4].
Proof.
  rewrite (proj1 (check_rate_limit_other_actor default_config 5 0 8 9 7 9
                    (record_calls default_config 7 9 [0; 1; 2; 3; 4] ∅).2
                    ltac:(discriminate))).
  vm_compute. reflexivity.
Defined.












(** ** Ledger: round trip, invariant and maintenance *)

Section LedgerMore.
Import Database.

Lemma violation_count_app (rows1 rows2 : list UserViolation) (s1 s2 : Z)
    (utcnow user chat days : Z) :
  get_user_violation_count
    {| user_violations := rows1 ++ rows2; sqlite_sequence := s1 |}
    utcnow user chat days
  = get_user_violation_count
      {| user_violations := rows1; sqlite_sequence := s2 |}
      utcnow user chat days
    + get_user_violation_count
        {| user_violations := rows2; sqlite_sequence := s2 |}
        utcnow user chat days.
Proof.
  unfold get_user_violation_count. cbn [user_violations].
  rewrite filter_app, length_app. lia.
Qed.

Lemma add_violation_inv (t t' : Table) (v : UserViolation) (new_id : Z) :
  add_violation t v = Ok (new_id, t') ->
  unique_conflict t v = false
  /\ new_id = Z.max (sqlite_sequence t) (max_rowid (user_violations t)) + 1
  /\ t' = {| user_violations := user_violations t ++ [stored v new_id];
             sqlite_sequence := new_id |}.
Proof.
  unfold add_violation. destruct (unique_conflict t v); [discriminate |].
  intros H. injection H as <- <-. repeat split.
Qed.

End LedgerMore.

Lemma violation_count_rows (t t' : Database.Table) (r : Database.UserViolation)
    (utcnow user chat days : Z) :
  Database.user_violations t' = Database.user_violations t ++ [r] ->
  Database.get_user_violation_count t' utcnow user chat days
  = Database.get_user_violation_count t utcnow user chat days
    + (if bool_decide (Database.user_id r = user /\ Database.chat_id r = chat
                       /\ Database.timestamp r
                          > utcnow - Database.timedelta_days days)
       then 1 else 0).
Proof.
  intros Ha. unfold Database.get_user_violation_count. rewrite Ha.
  rewrite filter_app, length_app, filter_cons, filter_nil.
  case_bool_decide as Hd.
  - rewrite decide_True by exact Hd. cbn [length]. lia.
  - rewrite decide_False by exact Hd. cbn [length]. lia.
Qed.

(** X9.  Round trip of the ledger: once [add_violation] has stored a
    record, the count of its actor over any lookback is the old count plus
    one if the record's timestamp is inside the lookback, and plus nothing
    otherwise; the count of every other actor is the old one. *)
Theorem add_violation_then_count
    (t t' : Database.Table) (v : Database.UserViolation) (new_id : Z)
    (utcnow user chat days : Z) :
  Database.add_violation t v = Ok (new_id, t') ->
  Database.get_user_violation_count t' utcnow user chat days
  = Database.get_user_violation_count t utcnow user chat days
    + (if bool_decide (Database.user_id v = user /\ Database.chat_id v = chat
                       /\ Database.timestamp v
                          > utcnow - Database.timedelta_days days)
       then 1 else 0).
Proof.
  intros Ha. apply add_violation_rows in Ha.
  now rewrite (violation_count_rows t t' _ utcnow user chat days Ha).
Qed.

Lemma add_violation_then_count_witness :
  Database.get_user_violation_count
    {| Database.user_violations := [stored violation_a 1];
       Database.sqlite_sequence := 1 |}
    1700000000000001 7 9 30 = 1.
Proof.
  exact (add_violation_then_count Database.initialize
           {| Database.user_violations := [stored violation_a 1];
              Database.sqlite_sequence := 1 |}
           violation_a 1 1700000000000001 7 9 30 eq_refl).
Defined.

Section LedgerInvariant.
Import Database.

Lemma max_rowid_nonneg (rows : list UserViolation) : 0 <= max_rowid rows.
Proof.
  induction rows as [| x rows IH]; [reflexivity |].
  change (0 <= Z.max (default 0 (id_ x)) (max_rowid rows)). lia.
Qed.

Lemma NoDup_map_filter {A B : Type} (g : A -> B) (P : A -> Prop)
    `{!forall x, Decision (P x)} (l : list A) :
  NoDup (map g l) -> NoDup (map g (filter P l)).
Proof.
  induction l as [| x l IH]; intros Hnd; [constructor |].
  cbn [map] in Hnd. apply NoDup_cons in Hnd as [Hx Hnd].
  rewrite filter_cons. destruct (decide (P x)); [| now apply IH].
  cbn [map]. apply NoDup_cons. split; [| now apply IH].
  intros Hin. apply Hx.
  apply list_elem_of_In, in_map_iff in Hin as (y & Hy & Hin).
  apply list_elem_of_In, in_map_iff. exists y. split; [exact Hy |].
  apply list_elem_of_In. apply list_elem_of_In in Hin.
  now apply list_elem_of_filter in Hin as [_ Hin].
Qed.

Lemma ledger_wf_add (t t' : Table) (v : UserViolation) (new_id : Z) :
  ledger_wf t -> add_violation t v = Ok (new_id, t') -> ledger_wf t'.
Proof.
  intros (Hid & Hnd & Hkey) Ha.
  apply add_violation_inv in Ha as (Hu & Hnew & ->).
  pose proof (max_rowid_nonneg (user_violations t)) as Hm.
  unfold ledger_wf. cbn [user_violations sqlite_sequence].
  split; [| split].
  - intros r Hr. apply elem_of_app in Hr as [Hr | Hr].
    + destruct (Hid r Hr) as (i & Hi & Hrange). exists i. split; [exact Hi | lia].
    + apply list_elem_of_singleton in Hr as ->. exists new_id.
      split; [reflexivity | lia].
  - rewrite map_app. apply NoDup_app. split; [exact Hnd |]. split.
    + intros x Hx Hin. cbn in Hin. apply list_elem_of_singleton in Hin as ->.
      apply list_elem_of_In, in_map_iff in Hx as (r & Hr & Hin).
      apply list_elem_of_In in Hin.
      destruct (Hid r Hin) as (i & Hi & Hrange).
      rewrite Hi in Hr. injection Hr as ->. lia.
    + cbn. apply NoDup_singleton.
  - rewrite map_app. apply NoDup_app. split; [exact Hkey |]. split.
    + intros x Hx Hin. cbn in Hin. apply list_elem_of_singleton in Hin as ->.
      apply list_elem_of_In, in_map_iff in Hx as (r & Hr & Hin).
      apply list_elem_of_In in Hin.
      assert (Hc : unique_conflict t v = true).
      { apply unique_conflict_true. exists r. split; [exact Hin |].
        injection Hr as H1 H2 H3. now repeat split. }
      congruence.
    + cbn. apply NoDup_singleton.
Qed.

Lemma deactivate_row_facts (t : Table) (utcnow hours_back : Z) :
  map row_facts (user_violations (deactivate_old_violations t utcnow hours_back))
  = map row_facts (user_violations t).
Proof.
  unfold deactivate_old_violations. cbn [user_violations].
  rewrite map_map. apply map_ext. intros r.
  case_bool_decide; reflexivity.
Qed.

Lemma ledger_wf_deactivate (t : Table) (utcnow hours_back : Z) :
  ledger_wf t -> ledger_wf (deactivate_old_violations t utcnow hours_back).
Proof.
  intros (Hid & Hnd & Hkey).
  pose proof (deactivate_row_facts t utcnow hours_back) as Hf.
  set (t' := deactivate_old_violations t utcnow hours_back) in *.
  assert (Hids : map id_ (user_violations t') = map id_ (user_violations t)).
  { apply (f_equal (map (fun x => x.1.1.1.1.1))) in Hf.
    rewrite !map_map in Hf. exact Hf. }
  assert (Hkeys : map (fun r => (user_id r, chat_id r, timestamp r))
                    (user_violations t')
                  = map (fun r => (user_id r, chat_id r, timestamp r))
                      (user_violations t)).
  { apply (f_equal (map (fun x => (x.1.1.1.1.2, x.1.1.1.2, x.1.2)))) in Hf.
    rewrite !map_map in Hf. exact Hf. }
  split; [| split].
  - intros r' Hr'.
    assert (Hin : id_ r' ∈ map id_ (user_violations t)).
    { rewrite <- Hids. apply list_elem_of_In, in_map.
      now apply list_elem_of_In. }
    apply list_elem_of_In, in_map_iff in Hin as (r & Hr & Hin).
    apply list_elem_of_In in Hin.
    destruct (Hid r Hin) as (i & Hi & Hrange).
    exists i. split; [congruence | exact Hrange].
  - now rewrite Hids.
  - now rewrite Hkeys.
Qed.

Lemma ledger_wf_cleanup (t : Table) (utcnow days_to_keep : Z) :
  ledger_wf t -> ledger_wf (cleanup_old_data t utcnow days_to_keep).
Proof.
  intros (Hid & Hnd & Hkey). unfold ledger_wf, cleanup_old_data.
  cbn [user_violations sqlite_sequence]. split; [| split].
  - intros r Hr. apply list_elem_of_filter in Hr as [_ Hr]. now apply Hid.
  - now apply NoDup_map_filter.
  - now apply NoDup_map_filter.
Qed.

End LedgerInvariant.

(** X10.  The ledger keeps its invariant: the fresh table has it, and
    [add_violation], [deactivate_old_violations] and [cleanup_old_data]
    each carry it over.  Under it every row has an id from 1 up to the
    counter, ids are pairwise different, and so are the triples of user,
    chat and timestamp. *)
Theorem ledger_invariant :
  ledger_wf Database.initialize
  /\ (forall t t' v new_id,
       ledger_wf t -> Database.add_violation t v = Ok (new_id, t') ->
       ledger_wf t')
  /\ (forall t utcnow hours_back,
       ledger_wf t ->
       ledger_wf (Database.deactivate_old_violations t utcnow hours_back))
  /\ (forall t utcnow days_to_keep,
       ledger_wf t ->
       ledger_wf (Database.cleanup_old_data t utcnow days_to_keep)).
Proof.
  split; [| split; [| split]].
  - split; [| split]; cbn; [| constructor | constructor].
    intros r Hr. now apply elem_of_nil in Hr.
  - apply ledger_wf_add.
  - intros t utcnow hours_back. apply ledger_wf_deactivate.
  - intros t utcnow days_to_keep. apply ledger_wf_cleanup.
Qed.

Lemma ledger_invariant_witness :
  ledger_wf
    (Database.cleanup_old_data
       (Database.deactivate_old_violations
          {| Database.user_violations := [stored violation_a 1];
             Database.sqlite_sequence := 1 |}
          1800000000000000 24)
       1800000000000000 90).
Proof.
  destruct ledger_invariant as (Hinit & Hadd & Hdeact & Hclean).
  apply Hclean, Hdeact.
  apply (Hadd Database.initialize _ violation_a 1 Hinit). reflexivity.
Defined.

(** X11.  Ids are never handed out twice, not even after a purge: in a
    ledger that keeps its invariant, the id [add_violation] assigns after
    [cleanup_old_data] differs from the id of every row the ledger held
    before the purge, the purged rows included. *)
Theorem ids_not_reused_after_cleanup
    (t t' : Database.Table) (utcnow days_to_keep : Z)
    (v : Database.UserViolation) (new_id : Z) :
  ledger_wf t ->
  Database.add_violation (Database.cleanup_old_data t utcnow days_to_keep) v
  = Ok (new_id, t') ->
  forall r, r ∈ Database.user_violations t -> Database.id_ r <> Some new_id.
Proof.
  intros (Hid & _ & _) Ha r Hr Heq.
  apply add_violation_inv in Ha as (_ & Hnew & _).
  cbn [Database.cleanup_old_data Database.sqlite_sequence] in Hnew.
  destruct (Hid r Hr) as (i & Hi & Hrange).
  rewrite Hi in Heq. injection Heq as ->. lia.
Qed.

Lemma ids_not_reused_after_cleanup_witness :
  Database.user_violations
    (Database.cleanup_old_data stale_ledger 1800000000000000 90) = []
  /\ exists new_id t',
       Database.add_violation
         (Database.cleanup_old_data stale_ledger 1800000000000000 90)
         violation_b = Ok (new_id, t')
       /\ Some 1 <> Some new_id.
Proof.
  split; [vm_compute; reflexivity |].
  eexists. eexists. split; [vm_compute; reflexivity |].
  refine (ids_not_reused_after_cleanup stale_ledger _ 1800000000000000 90
            violation_b 2 _ _ stale_row _).
  - split; [| split].
    + intros r Hr. apply list_elem_of_singleton in Hr as ->.
      exists 1. split; [reflexivity | cbn; lia].
    + cbn. apply NoDup_singleton.
    + cbn. apply NoDup_singleton.
  - vm_compute. reflexivity.
  - apply list_elem_of_singleton. reflexivity.
Defined.

Section LedgerMaintenance.
Import Database.

Lemma filter_map_commute {A : Type} (f : A -> A) (P : A -> Prop)
    `{!forall x, Decision (P x)} (l : list A) :
  (forall x, x ∈ l -> P (f x) <-> P x) ->
  filter P (map f l) = map f (filter P l).
Proof.
  induction l as [| x l IH]; intros Hiff; [reflexivity |].
  cbn [map]. rewrite !filter_cons.
  assert (Hx : P (f x) <-> P x) by (apply Hiff, elem_of_cons; now left).
  assert (Hl : filter P (map f l) = map f (filter P l))
    by (apply IH; intros y Hy; apply Hiff, elem_of_cons; now right).
  destruct (decide (P (f x))), (decide (P x)); try tauto.
  cbn [map]. now rewrite Hl.
Qed.

Lemma max_timestamp_map (f : UserViolation -> UserViolation)
    (l : list UserViolation) :
  (forall r, timestamp (f r) = timestamp r) ->
  max_timestamp (map f l) = max_timestamp l.
Proof.
  intros Hts. induction l as [| r l IH]; [reflexivity |].
  cbn [map max_timestamp foldr]. fold (max_timestamp (map f l)).
  fold (max_timestamp l). now rewrite IH, Hts.
Qed.

Lemma max_timestamp_spec (l : list UserViolation) :
  match max_timestamp l with
  | None => l = []
  | Some m =>
      (exists r, r ∈ l /\ timestamp r = m)
      /\ forall r, r ∈ l -> timestamp r <= m
  end.
Proof.
  induction l as [| x l IH]; [reflexivity |].
  cbn [max_timestamp foldr]. fold (max_timestamp l).
  destruct (max_timestamp l) as [m |].
  - destruct IH as [(r & Hr & Hm) Hall]. split.
    + destruct (Z.max_spec (timestamp x) m) as [[_ ->] | [_ ->]].
      * exists r. split; [set_solver | exact Hm].
      * exists x. split; [set_solver | reflexivity].
    + intros y Hy. apply elem_of_cons in Hy as [-> | Hy]; [lia |].
      specialize (Hall y Hy). lia.
  - subst l. split.
    + exists x. split; [set_solver | reflexivity].
    + intros y Hy. apply list_elem_of_singleton in Hy as ->. lia.
Qed.

(** The rewriting [deactivate_old_violations] applies to each row. *)
Lemma deactivate_rows (t : Table) (utcnow hours_back : Z) :
  exists f,
    (forall t0,
       deactivate_old_violations t0 utcnow hours_back
       = {| user_violations := map f (user_violations t0);
            sqlite_sequence := sqlite_sequence t0 |})
    /\ (forall r, row_facts (f r) = row_facts r)
    /\ (forall r, is_active (f r) = true ->
                  f r = r
                  /\ ~ timestamp r < utcnow - timedelta_hours hours_back)
    /\ (forall r, f (f r) = f r)
    /\ (forall r, f r = r
                  \/ timestamp r < utcnow - timedelta_hours hours_back).
Proof.
  set (f := fun r =>
    if bool_decide (timestamp r < utcnow - timedelta_hours hours_back
                    /\ is_active r = true)
    then {| id_ := id_ r;
            user_id := user_id r;
            chat_id := chat_id r;
            violation_type := violation_type r;
            timestamp := timestamp r;
            mute_duration_minutes := mute_duration_minutes r;
            is_active := false |}
    else r).
  assert (Hcases : forall r, f r = r \/ is_active (f r) = false).
  { intros r. unfold f. case_bool_decide; [right | left]; reflexivity. }
  exists f. split; [reflexivity |]. split; [| split; [| split]].
  4: { intros r. unfold f. case_bool_decide; [right; tauto | now left]. }
  - intros r. unfold f. case_bool_decide; reflexivity.
  - intros r. unfold f. case_bool_decide as Hd; cbn; [discriminate |].
    intros Ha. split; [reflexivity |]. tauto.
  - intros r. destruct (Hcases r) as [Heq | Hoff].
    + now rewrite !Heq.
    + unfold f at 1. rewrite bool_decide_eq_false_2; [reflexivity |].
      intros [_ Ha]. congruence.
Qed.

Lemma violation_count_deactivate (t : Table)
    (utcnow hours_back utcnow' user chat days_back : Z) :
  get_user_violation_count (deactivate_old_violations t utcnow hours_back)
    utcnow' user chat days_back
  = get_user_violation_count t utcnow' user chat days_back.
Proof.
  destruct (deactivate_rows t utcnow hours_back) as (f & Hrows & Hfacts & _).
  unfold get_user_violation_count. rewrite Hrows. cbn [user_violations].
  rewrite filter_map_commute; [now rewrite length_map |].
  intros r _. specialize (Hfacts r). unfold row_facts in Hfacts.
  injection Hfacts as _ -> -> _ -> _. reflexivity.
Qed.

Lemma violation_count_cleanup (t : Table)
    (utcnow days_to_keep utcnow' user chat days_back : Z) :
  days_back <= days_to_keep ->
  utcnow <= utcnow' ->
  get_user_violation_count (cleanup_old_data t utcnow days_to_keep)
    utcnow' user chat days_back
  = get_user_violation_count t utcnow' user chat days_back.
Proof.
  intros Hd Hnow. unfold get_user_violation_count, cleanup_old_data.
  cbn [user_violations].
  rewrite list_filter_filter_l; [reflexivity |].
  intros r (_ & _ & Hts) [Hold _]. unfold timedelta_days in *. lia.
Qed.

End LedgerMaintenance.

(** X12.  Retention safety: [cleanup_old_data] removes no active row,
    whatever the cutoff, and no row whose timestamp is not before the
    cutoff; the rows it keeps are in their old order, and neither the
    currently-muted flag of any actor nor the number of active violations
    changes. *)
Theorem cleanup_keeps_active_rows
    (t : Database.Table) (utcnow days_to_keep : Z) :
  let t' := Database.cleanup_old_data t utcnow days_to_keep in
  filter (λ r, Database.is_active r = true) (Database.user_violations t')
  = filter (λ r, Database.is_active r = true) (Database.user_violations t)
  /\ (forall r, r ∈ Database.user_violations t ->
       ~ Database.timestamp r < utcnow - Database.timedelta_days days_to_keep ->
       r ∈ Database.user_violations t')
  /\ Database.user_violations t' `sublist_of` Database.user_violations t
  /\ (forall utcnow' user chat,
       Database.is_currently_muted
         (Database.get_user_stats t' utcnow' user chat)
       = Database.is_currently_muted
           (Database.get_user_stats t utcnow' user chat))
  /\ Database.active_violations (Database.get_database_stats t')
     = Database.active_violations (Database.get_database_stats t).
Proof.
  intros t'. subst t'. unfold Database.cleanup_old_data.
  cbn [Database.user_violations].
  assert (Hact : filter (λ r, Database.is_active r = true)
                   (filter (λ r, ¬ (Database.timestamp r
                                    < utcnow - Database.timedelta_days days_to_keep
                                    ∧ Database.is_active r = false))
                           (Database.user_violations t))
                 = filter (λ r, Database.is_active r = true)
                     (Database.user_violations t)).
  { apply list_filter_filter_l. intros r Ha [_ Hf]. congruence. }
  split; [exact Hact |]. split; [| split; [| split]].
  - intros r Hr Hts. apply list_elem_of_filter. split; [tauto | exact Hr].
  - apply sublist_filter.
  - intros utcnow' user chat.
    unfold Database.get_user_stats. cbn [Database.is_currently_muted
                                          Database.user_violations].
    rewrite list_filter_filter_l; [reflexivity |].
    intros r (_ & _ & _ & Ha) [_ Hf]. congruence.
  - unfold Database.get_database_stats.
    cbn [Database.active_violations Database.user_violations].
    now rewrite Hact.
Qed.

(** X13.  [deactivate_old_violations] only switches flags off: it keeps
    the number and order of the rows and every column but the flag; a row
    that is active afterwards is an old row left as it was, not older than
    the cutoff; every row older than the cutoff is inactive afterwards; and
    running it twice with the same cutoff is running it once. *)
Theorem deactivate_only_switches_off
    (t : Database.Table) (utcnow hours_back : Z) :
  let t' := Database.deactivate_old_violations t utcnow hours_back in
  map row_facts (Database.user_violations t')
  = map row_facts (Database.user_violations t)
  /\ (forall r', r' ∈ Database.user_violations t' ->
       Database.is_active r' = true ->
       r' ∈ Database.user_violations t
       /\ ~ Database.timestamp r'
            < utcnow - Database.timedelta_hours hours_back)
  /\ (forall r', r' ∈ Database.user_violations t' ->
       Database.timestamp r' < utcnow - Database.timedelta_hours hours_back ->
       Database.is_active r' = false)
  /\ Database.deactivate_old_violations t' utcnow hours_back = t'.
Proof.
  intros t'. subst t'.
  destruct (deactivate_rows t utcnow hours_back)
    as (f & Hrows & Hfacts & Hact & Hidem & _).
  split; [apply deactivate_row_facts |]. split; [| split].
  - intros r' Hr' Ha. rewrite Hrows in Hr'. cbn in Hr'.
    apply list_elem_of_In, in_map_iff in Hr' as (r & <- & Hr).
    apply list_elem_of_In in Hr.
    destruct (Hact r Ha) as [-> Hts]. split; [exact Hr | exact Hts].
  - intros r' Hr' Hts. rewrite Hrows in Hr'. cbn in Hr'.
    apply list_elem_of_In, in_map_iff in Hr' as (r & <- & Hr).
    destruct (Database.is_active (f r)) eqn:Ha; [| reflexivity].
    destruct (Hact r Ha) as [Heq Hn]. rewrite Heq in Hts. contradiction.
  - rewrite !Hrows. cbn [Database.user_violations Database.sqlite_sequence].
    f_equal. rewrite map_map. apply map_ext. exact Hidem.
Qed.

(** X14.  Maintenance never changes an escalation count.  The count of
    [get_user_violation_count] does not look at the active flag, so
    [deactivate_old_violations] leaves it as it is for every actor, time
    and lookback; and [cleanup_old_data] leaves it as it is for every
    lookback of at most the days kept, at every time from the purge on. *)
Theorem maintenance_keeps_violation_count :
  (forall t utcnow hours_back utcnow' user chat days_back,
     Database.get_user_violation_count
       (Database.deactivate_old_violations t utcnow hours_back)
       utcnow' user chat days_back
     = Database.get_user_violation_count t utcnow' user chat days_back)
  /\ (forall t utcnow days_to_keep utcnow' user chat days_back,
       days_back <= days_to_keep ->
       utcnow <= utcnow' ->
       Database.get_user_violation_count
         (Database.cleanup_old_data t utcnow days_to_keep)
         utcnow' user chat days_back
       = Database.get_user_violation_count t utcnow' user chat days_back).
Proof.
  split.
  - intros. apply violation_count_deactivate.
  - intros. now apply violation_count_cleanup.
Qed.

Lemma maintenance_keeps_violation_count_witness :
  Database.get_user_violation_count
    (Database.cleanup_old_data
       {| Database.user_violations := [stored violation_a 1];
          Database.sqlite_sequence := 1 |}
       1700000000000001 90)
    1700000000000002 7 9 30 = 1.
Proof.
  rewrite (proj2 maintenance_keeps_violation_count _ _ 90 _ 7 9 30);
    [reflexivity | lia | lia].
Defined.


Lemma cleanup_keeps_active_rows_witness :
  stored violation_a 2
  ∈ Database.user_violations
      (Database.cleanup_old_data mixed_ledger 1700000000000600 90).
Proof.
  apply (proj1 (proj2 (cleanup_keeps_active_rows mixed_ledger
                         1700000000000600 90))).
  - unfold mixed_ledger. cbn [Database.user_violations].
    apply elem_of_cons. right. apply elem_of_cons. now left.
  - vm_compute. discriminate.
Defined.

Lemma deactivate_only_switches_off_witness :
  stored violation_a 2 ∈ Database.user_violations mixed_ledger
  /\ ~ Database.timestamp (stored violation_a 2)
       < 1700000000000600 - Database.timedelta_hours 24.
Proof.
  apply (proj1 (proj2 (deactivate_only_switches_off mixed_ledger
                         1700000000000600 24))).
  - assert (Hrows : Database.user_violations
                      (Database.deactivate_old_violations mixed_ledger
                         1700000000000600 24)
                    = [stale_row; stored violation_a 2;
                       stored (rate_limit_violation 8 9 1700000000000500 60) 3])
      by (vm_compute; reflexivity).
    rewrite Hrows. apply list_elem_of_further, list_elem_of_here.
  - reflexivity.
Defined.

(** X15.  [get_user_stats] is coherent: the last violation is missing
    exactly when the total is 0; when present it is the timestamp of one
    of the actor's records and no record of the actor is later; an actor
    reported as currently muted has a last violation in the last 24
    hours; and the 30-day count never exceeds the total. *)
Theorem get_user_stats_coherent
    (t : Database.Table) (utcnow user chat : Z) :
  let stats := Database.get_user_stats t utcnow user chat in
  (Database.total_violations stats = 0
   <-> Database.last_violation stats = None)
  /\ (forall m, Database.last_violation stats = Some m ->
       (exists r, r ∈ Database.user_violations t
                  /\ Database.user_id r = user /\ Database.chat_id r = chat
                  /\ Database.timestamp r = m)
       /\ forall r, r ∈ Database.user_violations t ->
                    Database.user_id r = user -> Database.chat_id r = chat ->
                    Database.timestamp r <= m)
  /\ (Database.is_currently_muted stats = true ->
      exists m, Database.last_violation stats = Some m
                /\ m > utcnow - Database.timedelta_hours 24)
  /\ Database.get_user_violation_count t utcnow user chat 30
     <= Database.total_violations stats.
Proof.
  intros stats. subst stats. unfold Database.get_user_stats.
  cbn [Database.total_violations Database.last_violation
       Database.is_currently_muted].
  set (mine := filter (λ r, Database.user_id r = user
                            ∧ Database.chat_id r = chat)
                      (Database.user_violations t)).
  pose proof (max_timestamp_spec mine) as Hmax.
  assert (Hlast : forall m, Database.max_timestamp mine = Some m ->
            (exists r, r ∈ Database.user_violations t
                       /\ Database.user_id r = user
                       /\ Database.chat_id r = chat
                       /\ Database.timestamp r = m)
            /\ forall r, r ∈ Database.user_violations t ->
                  Database.user_id r = user -> Database.chat_id r = chat ->
                  Database.timestamp r <= m).
  { intros m Hm. rewrite Hm in Hmax. destruct Hmax as [(r & Hr & Hts) Hall].
    split.
    - apply list_elem_of_filter in Hr as [[Hu Hc] Hr].
      exists r. now repeat split.
    - intros r' Hr' Hu Hc. apply Hall.
      apply list_elem_of_filter. now repeat split. }
  split; [| split; [exact Hlast | split]].
  - destruct (Database.max_timestamp mine) as [m |] eqn:Hm.
    + destruct Hmax as [(r & Hr & _) _].
      split; [| discriminate]. intros Hz.
      destruct mine; [now apply elem_of_nil in Hr | cbn in Hz; lia].
    + rewrite Hmax. split; reflexivity.
  - intros Hmuted. apply bool_decide_eq_true in Hmuted.
    destruct (filter _ (Database.user_violations t)) as [| r rest] eqn:Hf
      in Hmuted; [cbn in Hmuted; lia |].
    assert (Hr : r ∈ r :: rest) by apply list_elem_of_here.
    rewrite <- Hf in Hr.
    apply list_elem_of_filter in Hr as [(Hu & Hc & Hts & _) Hr].
    destruct (Database.max_timestamp mine) as [m |] eqn:Hm.
    + exists m. split; [reflexivity |].
      specialize (proj2 (Hlast m eq_refl) r Hr Hu Hc). lia.
    + exfalso.
      assert (Hin : r ∈ mine) by (apply list_elem_of_filter; now repeat split).
      rewrite Hmax in Hin. now apply elem_of_nil in Hin.
  - unfold Database.get_user_violation_count.
    rewrite <- (list_filter_filter_l
                 (λ r, Database.user_id r = user ∧ Database.chat_id r = chat
                       ∧ Database.timestamp r
                         > utcnow - Database.timedelta_days 30)
                 (λ r, Database.user_id r = user ∧ Database.chat_id r = chat))
      by tauto.
    fold mine. pose proof (length_filter
      (λ r, Database.user_id r = user ∧ Database.chat_id r = chat
            ∧ Database.timestamp r > utcnow - Database.timedelta_days 30)
      mine). lia.
Qed.

Lemma get_user_stats_coherent_witness :
  exists m,
    Database.last_violation
      (Database.get_user_stats mixed_ledger 1700000000000600 7 9) = Some m
    /\ m > 1700000000000600 - Database.timedelta_hours 24.
Proof.
  apply (proj1 (proj2 (proj2 (get_user_stats_coherent mixed_ledger
                                1700000000000600 7 9)))).
  vm_compute. reflexivity.
Defined.

(** X16.  The deactivation the bot runs, with a horizon of 24 hours or
    more, is invisible to the status query: [get_user_stats] answers the
    same for every actor at every time from the deactivation on. *)
Theorem deactivate_keeps_user_stats
    (t : Database.Table) (utcnow hours_back utcnow' user chat : Z) :
  24 <= hours_back ->
  utcnow <= utcnow' ->
  Database.get_user_stats
    (Database.deactivate_old_violations t utcnow hours_back) utcnow' user chat
  = Database.get_user_stats t utcnow' user chat.
Proof.
  intros Hh Hnow.
  destruct (deactivate_rows t utcnow hours_back)
    as (f & Hrows & Hfacts & Hact & _ & Hcases).
  assert (Hcol : forall r,
            Database.user_id (f r) = Database.user_id r
            /\ Database.chat_id (f r) = Database.chat_id r
            /\ Database.timestamp (f r) = Database.timestamp r).
  { intros r. specialize (Hfacts r). unfold row_facts in Hfacts.
    injection Hfacts as _ Hu Hc _ Hts _. now repeat split. }
  unfold Database.get_user_stats. rewrite Hrows.
  cbn [Database.user_violations].
  rewrite (filter_map_commute f
             (λ r, Database.user_id r = user ∧ Database.chat_id r = chat)).
  2: { intros r _. destruct (Hcol r) as (-> & -> & _). reflexivity. }
  rewrite (filter_map_commute f
             (λ r, Database.user_id r = user ∧ Database.chat_id r = chat
                   ∧ Database.timestamp r
                     > utcnow' - Database.timedelta_hours 24
                   ∧ Database.is_active r = true)).
  2: { intros r _. destruct (Hcol r) as (-> & -> & ->).
       split; intros (Hu & Hc & Hts & Ha); repeat split; try assumption.
       - destruct (Hact r Ha) as [Heq _]. now rewrite Heq in Ha.
       - destruct (Database.is_active (f r)) eqn:Hfa; [reflexivity |].
         exfalso.
         destruct (Hcases r) as [Heq | Hold]; [congruence |].
         unfold Database.timedelta_hours in *. lia. }
  rewrite !length_map.
  rewrite max_timestamp_map by (intros r; apply Hcol).
  reflexivity.
Qed.

Lemma deactivate_keeps_user_stats_witness :
  Database.is_currently_muted
    (Database.get_user_stats
       (Database.deactivate_old_violations mixed_ledger 1700000000000600 24)
       1700000000000700 7 9) = true.
Proof.
  rewrite (deactivate_keeps_user_stats mixed_ledger 1700000000000600 24
             1700000000000700 7 9 ltac:(lia) ltac:(lia)).
  vm_compute. reflexivity.
Defined.

Lemma length_remove_dups_le {A : Type} `{!EqDecision A} (l : list A) :
  (length (remove_dups l) <= length l)%nat.
Proof.
  induction l as [| x l IH]; [reflexivity |].
  cbn [remove_dups]. destruct (decide_rel elem_of x l); cbn [length]; lia.
Qed.

Lemma remove_dups_nil_iff {A : Type} `{!EqDecision A} (l : list A) :
  remove_dups l = [] <-> l = [].
Proof.
  split; [| now intros ->].
  intros Hr. destruct l as [| x l]; [reflexivity |].
  assert (Hx : x ∈ remove_dups (x :: l))
    by (apply elem_of_remove_dups, list_elem_of_here).
  rewrite Hr in Hx. now apply elem_of_nil in Hx.
Qed.

Lemma length_remove_dups_snoc {A : Type} `{!EqDecision A} (l : list A) (x : A) :
  length (remove_dups (l ++ [x]))
  = (length (remove_dups l) + if decide (x ∈ l) then 0 else 1)%nat.
Proof.
  induction l as [| a l IH].
  - cbn [app remove_dups]. unfold decide_rel.
    destruct (list_elem_of_dec x []) as [Hin | Hn]; [inversion Hin |].
    destruct (decide (x ∈ [])) as [Hin | Hn']; [inversion Hin | reflexivity].
  - cbn [app remove_dups]. unfold decide_rel.
    destruct (list_elem_of_dec a (l ++ [x])) as [Hal | Hal],
             (list_elem_of_dec a l) as [Ha | Ha];
      cbn [length]; rewrite IH;
      destruct (decide (x ∈ l)) as [Hx | Hx],
               (decide (x ∈ a :: l)) as [Hxa | Hxa];
      try lia; exfalso;
      rewrite ?elem_of_app, ?list_elem_of_singleton in Hal;
      rewrite ?elem_of_cons in Hxa;
      intuition congruence.
Qed.

(** X17.  The database statistics are consistent and follow the appends:
    active violations, distinct users and distinct chats are never
    negative and never exceed the total; the distinct users, and likewise
    the distinct chats, are 0 exactly when the total is 0 (the active
    violations may be 0 in a ledger that is not empty).  Once
    [add_violation] has stored a record the total is one more, the active
    count is one more exactly when the record is active, the number of
    distinct users is one more exactly when its user had no record in any
    chat before, and the number of distinct chats is one more exactly when
    its chat had no record of any user before. *)
Theorem database_stats_follow_appends :
  (forall t,
     let s := Database.get_database_stats t in
     0 <= Database.active_violations s <= Database.db_total_violations s
     /\ 0 <= Database.unique_users s <= Database.db_total_violations s
     /\ 0 <= Database.unique_chats s <= Database.db_total_violations s
     /\ (Database.db_total_violations s = 0 <-> Database.unique_users s = 0)
     /\ (Database.db_total_violations s = 0 <-> Database.unique_chats s = 0))
  /\ (forall t t' v new_id,
       Database.add_violation t v = Ok (new_id, t') ->
       let s := Database.get_database_stats t in
       let s' := Database.get_database_stats t' in
       Database.db_total_violations s' = Database.db_total_violations s + 1
       /\ Database.active_violations s'
          = Database.active_violations s
            + (if Database.is_active v then 1 else 0)
       /\ Database.unique_users s'
          = Database.unique_users s
            + (if decide (Database.user_id v
                          ∈ map Database.user_id (Database.user_violations t))
               then 0 else 1)
       /\ Database.unique_chats s'
          = Database.unique_chats s
            + (if decide (Database.chat_id v
                          ∈ map Database.chat_id (Database.user_violations t))
               then 0 else 1)).
Proof.
  split.
  - intros t s. subst s. unfold Database.get_database_stats.
    cbn [Database.db_total_violations Database.active_violations
         Database.unique_users Database.unique_chats].
    pose proof (length_filter (λ r, Database.is_active r = true)
                  (Database.user_violations t)) as Hf.
    pose proof (length_remove_dups_le
                  (map Database.user_id (Database.user_violations t))) as Hu.
    pose proof (length_remove_dups_le
                  (map Database.chat_id (Database.user_violations t))) as Hc.
    rewrite length_map in Hu, Hc.
    assert (Hzero : forall (g : Database.UserViolation -> Z),
              length (remove_dups (map g (Database.user_violations t))) = 0%nat
              <-> length (Database.user_violations t) = 0%nat).
    { intros g.
      rewrite !length_zero_iff_nil, remove_dups_nil_iff.
      destruct (Database.user_violations t); [tauto |].
      split; discriminate. }
    pose proof (Hzero Database.user_id) as Hun.
    pose proof (Hzero Database.chat_id) as Hcn.
    repeat split; lia.
  - intros t t' v new_id Ha s s'. subst s s'.
    apply add_violation_rows in Ha.
    unfold Database.get_database_stats.
    cbn [Database.db_total_violations Database.active_violations
         Database.unique_users Database.unique_chats]. rewrite Ha.
    split; [| split; [| split]].
    + rewrite length_app. cbn [length]. lia.
    + rewrite filter_app, length_app, filter_cons, filter_nil.
      unfold stored at 1 2. cbn [Database.is_active].
      destruct (decide (Database.is_active v = true)) as [Hv | Hv].
      * rewrite Hv. cbn [length]. lia.
      * apply not_true_is_false in Hv. rewrite Hv. cbn [length]. lia.
    + rewrite map_app. cbn [map]. rewrite length_remove_dups_snoc.
      unfold stored at 1. cbn [Database.user_id].
      destruct (decide _); lia.
    + rewrite map_app. cbn [map]. rewrite length_remove_dups_snoc.
      unfold stored at 1. cbn [Database.chat_id].
      destruct (decide _); lia.
Qed.

Lemma database_stats_follow_appends_witness :
  Database.unique_users
    (Database.get_database_stats
       {| Database.user_violations := [stored violation_a 1];
          Database.sqlite_sequence := 1 |}) = 1.
Proof.
  destruct (proj2 database_stats_follow_appends Database.initialize
              {| Database.user_violations := [stored violation_a 1];
                 Database.sqlite_sequence := 1 |}
              violation_a 1 eq_refl) as (_ & _ & Hu & _).
  exact Hu.
Defined.

(** ** Coordinator: effects of a handled message *)

Section CoordinatorMore.
Import RateLimiter Database Moderation.

Lemma handle_message_success_inv (cfg : Config) (w : World)
    (user chat : Z) (st st' : State) (act : Action) :
  handle_message cfg w user chat st = (Ok (Some act), st') ->
  exists h d vid t name deadline,
    add_message cfg (time_time w) user chat (history st) = (true, h)
    /\ get_mute_duration cfg
         (get_user_violation_count (table st) (utcnow_lookback w)
            user chat 30 + 1) = Ok d
    /\ add_violation (table st)
         (rate_limit_violation user chat (utcnow_violation w) d)
       = Ok (vid, t)
    /\ _apply_mute (bot w) (utcnow_mute w) user chat d
       = MuteApplied name deadline
    /\ act = {| action := "mute";
                action_user_id := user;
                action_chat_id := chat;
                violation_id := vid;
                violation_count :=
                  get_user_violation_count (table st) (utcnow_lookback w)
                    user chat 30 + 1;
                action_mute_duration_minutes := d;
                action_username := name;
                reason := "Rate limit exceeded" |}
    /\ st' = {| history := reset_user_history user chat h;
                table := t;
                outbox :=
                  outbox st
                  ++ _notify_admins_of_mute cfg user chat
                       (get_user_violation_count (table st)
                          (utcnow_lookback w) user chat 30 + 1) d name |}.
Proof.
  unfold handle_message. intros H.
  destruct (add_message _ _ _ _ _) as [[|] h] eqn:Hx; [| discriminate].
  cbn [table history outbox] in H.
  destruct (get_mute_duration _ _) as [d | e] eqn:Hd; [| discriminate].
  fold (rate_limit_violation user chat (utcnow_violation w) d) in H.
  destruct (add_violation _ _) as [[vid t] | e] eqn:Ha; [| discriminate].
  destruct (_apply_mute _ _ _ _ _) as [name deadline | err name | e] eqn:Hm;
    [| discriminate | discriminate].
  injection H as <- <-. exists h, d, vid, t, name, deadline.
  repeat (split; [first [reflexivity | assumption] |]). reflexivity.
Qed.

Lemma handle_message_frame (cfg : Config) (w : World) (user chat : Z)
    (st : State) :
  let out := handle_message cfg w user chat st in
  (exists added,
     user_violations (table out.2) = user_violations (table st) ++ added
     /\ (length added <= 1)%nat)
  /\ (exists sent, outbox out.2 = outbox st ++ sent)
  /\ (forall k, k <> (chat, user) -> history out.2 !! k = history st !! k).
Proof.
  intros out. subst out. unfold handle_message.
  assert (Hother : forall k, k <> (chat, user) ->
            (add_message cfg (time_time w) user chat (history st)).2 !! k
            = history st !! k).
  { intros k Hk. unfold add_message.
    destruct (is_exempt_from_rate_limit cfg user) eqn:He.
    - now rewrite check_rate_limit_exempt.
    - rewrite check_rate_limit_counted by assumption. cbn [snd].
      now rewrite lookup_insert_ne. }
  destruct (add_message _ _ _ _ _) as [b h]. cbn [snd] in Hother.
  assert (Hnil : forall (l : list UserViolation), exists added,
            l = l ++ added /\ (length added <= 1)%nat).
  { intros l. exists []. rewrite app_nil_r. split; [reflexivity | cbn; lia]. }
  assert (Hsent : forall (l : list Notification), exists sent, l = l ++ sent).
  { intros l. exists []. now rewrite app_nil_r. }
  destruct b; cbn [table history outbox];
    [| cbn; split; [apply Hnil | split; [apply Hsent | exact Hother]]].
  destruct (get_mute_duration _ _) as [d | e];
    [| cbn; split; [apply Hnil | split; [apply Hsent | exact Hother]]].
  destruct (add_violation _ _) as [[vid t] | e] eqn:Ha;
    [| cbn; split; [apply Hnil | split; [apply Hsent | exact Hother]]].
  apply add_violation_rows in Ha.
  destruct (_apply_mute _ _ _ _ _) as [name deadline | err name | e];
    cbn [snd table history outbox].
  - split; [eexists; split; [exact Ha | cbn; lia] |].
    split; [eexists; reflexivity |].
    intros k Hk. rewrite <- (Hother k Hk).
    unfold reset_user_history.
    destruct (h !! (chat, user)); [now apply lookup_delete_ne | reflexivity].
  - split; [eexists; split; [exact Ha | cbn; lia] |].
    split; [apply Hsent | exact Hother].
  - split; [eexists; split; [exact Ha | cbn; lia] |].
    split; [apply Hsent | exact Hother].
Qed.

End CoordinatorMore.

(** X18.  [manual_mute] writes through the ledger and nothing else.  For
    ids and a duration that fit an [INTEGER] column, the tracker and the
    sent notifications stay as they are; when the ledger takes the record
    it stays there, of type [manual] and active, whatever comes of the
    mute: when the end of the mute is no [datetime], [OverflowError] leaves
    [manual_mute] after the record is written; when the transport refuses,
    the caller gets the failure with the transport's own error text; when
    it applies the mute, the caller gets the record's id.  When the ledger
    refuses the record, its exception leaves [manual_mute] and nothing has
    changed. *)
Theorem manual_mute_writes_through
    (w : Moderation.World) (user chat duration : Z) (why : string)
    (st : Moderation.State) :
  sqlite_integer user -> sqlite_integer chat -> sqlite_integer duration ->
  let out := Moderation.manual_mute w user chat duration why st in
  let ends :=
    datetime_add (Moderation.utcnow_mute w)
      (Database.timedelta_minutes duration) in
  Moderation.history out.2 = Moderation.history st
  /\ Moderation.outbox out.2 = Moderation.outbox st
  /\ (forall vid t,
       Database.add_violation (Moderation.table st)
         (manual_violation user chat (Moderation.utcnow_violation w) duration)
       = Ok (vid, t) ->
       Moderation.table out.2 = t
       /\ stored (manual_violation user chat
                    (Moderation.utcnow_violation w) duration) vid
          ∈ Database.user_violations (Moderation.table out.2)
       /\ (forall e, ends = Raise e -> out.1 = Raise OverflowError)
       /\ (forall deadline err,
            ends = Ok deadline ->
            Moderation.restrict_chat_member (Moderation.bot w) chat user
              deadline = Some err ->
            out.1 = Ok (Moderation.ManualMuteFailed err))
       /\ (forall deadline,
            ends = Ok deadline ->
            Moderation.restrict_chat_member (Moderation.bot w) chat user
              deadline = None ->
            exists name,
              out.1 = Ok (Moderation.ManualMute user chat vid duration
                            name why)))
  /\ (forall e,
       Database.add_violation (Moderation.table st)
         (manual_violation user chat (Moderation.utcnow_violation w) duration)
       = Raise e ->
       out = (Raise e, st)).
Proof.
  intros _ _ _ out ends. subst out. unfold Moderation.manual_mute.
  fold (manual_violation user chat (Moderation.utcnow_violation w) duration).
  destruct (Database.add_violation _ _) as [[vid t] | e] eqn:Ha.
  - unfold Moderation._apply_mute. fold ends.
    pose proof (datetime_add_raises (Moderation.utcnow_mute w)
                  (Database.timedelta_minutes duration)) as Hraise.
    fold ends in Hraise.
    destruct ends as [deadline | e] eqn:Hends.
    + destruct (Moderation.restrict_chat_member _ _ _ _) as [err |] eqn:Hr;
        cbn [fst snd Moderation.history Moderation.outbox Moderation.table];
        (split; [reflexivity |]); (split; [reflexivity |]);
        (split; [| discriminate]);
        intros vid' t' Heq; injection Heq as <- <-;
        (split; [reflexivity |]);
        (split; [rewrite (add_violation_rows _ _ _ _ Ha); apply elem_of_app;
                 right; apply list_elem_of_here |]);
        (split; [discriminate |]);
        (split; [intros deadline' err' Hd Herr' | intros deadline' Hd Hnone]);
        injection Hd as <-; try congruence.
      eexists. reflexivity.
    + rewrite (Hraise e eq_refl).
      cbn [fst snd Moderation.history Moderation.outbox Moderation.table].
      split; [reflexivity |]. split; [reflexivity |].
      split; [| discriminate].
      intros vid' t' Heq. injection Heq as <- <-.
      split; [reflexivity |].
      split; [rewrite (add_violation_rows _ _ _ _ Ha); apply elem_of_app;
              right; apply list_elem_of_here |].
      split; [reflexivity |]. split; discriminate.
  - cbn [fst snd]. split; [reflexivity |]. split; [reflexivity |].
    split; [discriminate |]. intros e' Heq. congruence.
Qed.

Lemma manual_mute_writes_through_witness :
  (Moderation.manual_mute (world_at refusing_bot 0) 7 9 5000000000 "spam"
     empty_state).1
  = Raise OverflowError
  /\ stored (manual_violation 7 9 1700000000000000 5000000000) 1
     ∈ Database.user_violations
         (Moderation.table
            (Moderation.manual_mute (world_at refusing_bot 0) 7 9 5000000000
               "spam" empty_state).2).
Proof.
  destruct (manual_mute_writes_through (world_at refusing_bot 0) 7 9
              5000000000 "spam" empty_state) as (_ & _ & Hok & _);
    [unfold sqlite_integer; lia | unfold sqlite_integer; lia
     | unfold sqlite_integer; lia |].
  destruct (Hok 1 {| Database.user_violations :=
                       [stored (manual_violation 7 9 1700000000000000
                                  5000000000) 1];
                     Database.sqlite_sequence := 1 |} eq_refl)
    as (_ & Hin & Hover & _).
  split; [apply (Hover OverflowError); reflexivity | exact Hin].
Defined.

Lemma reset_clears_entry
    (cfg : Config) (user_id chat_id : Z) (h : RateLimiter.History) :
  RateLimiter.reset_user_history user_id chat_id h !! (chat_id, user_id)
  = None
  /\ forall now,
       (RateLimiter.get_message_count cfg now user_id chat_id
          (RateLimiter.reset_user_history user_id chat_id h)).1 = 0.
Proof.
  assert (Hnone : RateLimiter.reset_user_history user_id chat_id h
                  !! (chat_id, user_id) = None).
  { unfold RateLimiter.reset_user_history.
    destruct (h !! (chat_id, user_id)) eqn:Hk;
      [apply lookup_delete_eq | exact Hk]. }
  split; [exact Hnone |]. intros now.
  rewrite get_message_count_pruned. cbn [fst].
  unfold kept. now rewrite Hnone.
Qed.

(** X19.  [get_mute_duration] fails in one case only: it raises, and then
    [IndexError], exactly when the ladder is empty and the ordinal is
    positive.  In every other case it answers a rung of the ladder, or the
    built-in 60 when the ladder is empty. *)
Theorem get_mute_duration_raises_iff (cfg : Config) (n : Z) :
  (forall e, get_mute_duration cfg n = Raise e <->
             e = IndexError /\ escalation_durations cfg = [] /\ 0 < n)
  /\ (forall d, get_mute_duration cfg n = Ok d ->
       d ∈ escalation_durations cfg
       \/ (escalation_durations cfg = [] /\ d = 60 /\ n <= 0)).
Proof.
  destruct (escalation_durations cfg) as [| first rest] eqn:Hl.
  - rewrite (get_mute_duration_empty_ladder cfg n Hl).
    destruct (Z.leb_spec n 0) as [Hle | Hgt]; split.
    + intros e. split; [discriminate | intros (_ & _ & Hn); lia].
    + intros d Hd. injection Hd as <-. right. now repeat split.
    + intros e. split; [intros He; injection He as <-; now repeat split |].
      now intros (-> & _ & _).
    + discriminate.
  - assert (Hok : exists d, get_mute_duration cfg n = Ok d
                            /\ d ∈ first :: rest).
    { destruct (Z_le_gt_dec n 0) as [Hle | Hgt].
      - exists first. split; [| apply list_elem_of_here].
        now apply get_mute_duration_nonpositive with rest.
      - destruct (lookup_lt_is_Some_2 (first :: rest)
                    (Z.to_nat (Z.min (n - 1)
                                 (Z.of_nat (length (first :: rest)) - 1))))
          as [d Hd]; [cbn [length]; lia |].
        exists d. split; [| now apply list_elem_of_lookup_2 in Hd].
        eapply get_mute_duration_positive; [lia | reflexivity |].
        rewrite Hl. exact Hd. }
    destruct Hok as (d & -> & Hin). split.
    + intros e. split; [discriminate | intros (_ & Hnil & _); discriminate].
    + intros d' Hd'. injection Hd' as <-. now left.
Qed.

Lemma get_mute_duration_raises_iff_witness :
  get_mute_duration (with_ladder default_config []) 3 = Raise IndexError.
Proof.
  apply (proj1 (get_mute_duration_raises_iff
                  (with_ladder default_config []) 3)).
  split; [reflexivity | split; [reflexivity | lia]].
Defined.

Section CoordinatorOutcomes.
Import RateLimiter Database Moderation.

Lemma add_message_true_not_exempt (cfg : Config) (now user chat : Z)
    (h h' : History) :
  add_message cfg now user chat h = (true, h') ->
  is_exempt_from_rate_limit cfg user = false
  /\ h' = <[(chat, user) := kept cfg user chat now h ++ [now]]> h.
Proof.
  unfold add_message. intros H.
  destruct (is_exempt_from_rate_limit cfg user) eqn:He.
  - rewrite check_rate_limit_exempt in H by assumption. discriminate.
  - rewrite check_rate_limit_counted in H by assumption.
    injection H as _ <-. split; reflexivity.
Qed.



End CoordinatorOutcomes.

(** X20.  Once [handle_message] has muted an actor, the actor's tracker
    entry is gone, so that the count is 0 and the next message is judged
    as a first one; the ledger holds the record under the reported id,
    of type [rate_limit], active, with the reported duration; and the
    status query reports the actor as currently muted at every time less
    than 24 hours after the record's timestamp. *)
Theorem mute_applied_effects
    (cfg : Config) (w : Moderation.World) (user chat : Z)
    (st st' : Moderation.State) (act : Moderation.Action) :
  Moderation.handle_message cfg w user chat st = (Ok (Some act), st') ->
  Moderation.history st' !! (chat, user) = None
  /\ (forall now',
       (RateLimiter.get_message_count cfg now' user chat
          (Moderation.history st')).1 = 0
       /\ (RateLimiter.add_message cfg now' user chat
             (Moderation.history st')).1
          = bool_decide (1 > antiflood_max_messages cfg))
  /\ stored (rate_limit_violation user chat (Moderation.utcnow_violation w)
               (Moderation.action_mute_duration_minutes act))
            (Moderation.violation_id act)
     ∈ Database.user_violations (Moderation.table st')
  /\ (forall utcnow',
       Moderation.utcnow_violation w
       > utcnow' - Database.timedelta_hours 24 ->
       Database.is_currently_muted
         (Database.get_user_stats (Moderation.table st') utcnow' user chat)
       = true).
Proof.
  intros H.
  apply handle_message_success_inv
    in H as (h & d & vid & t & name & deadline & Hx & Hd & Ha & Hm & -> & ->).
  cbn [Moderation.history Moderation.table Moderation.violation_id
       Moderation.action_mute_duration_minutes].
  apply add_message_true_not_exempt in Hx as [He _].
  destruct (reset_clears_entry cfg user chat h) as [Hnone Hcount].
  apply add_violation_rows in Ha.
  assert (Hin : stored (rate_limit_violation user chat
                          (Moderation.utcnow_violation w) d) vid
                ∈ Database.user_violations t).
  { rewrite Ha. apply elem_of_app. right. apply list_elem_of_here. }
  split; [exact Hnone |]. split; [| split; [exact Hin |]].
  - intros now'. split; [apply Hcount |].
    unfold RateLimiter.add_message.
    rewrite check_rate_limit_counted by assumption. cbn [fst].
    unfold kept. rewrite Hnone. reflexivity.
  - intros utcnow' Hrecent. unfold Database.get_user_stats.
    cbn [Database.is_currently_muted]. apply bool_decide_eq_true.
    match goal with
    | |- Z.of_nat (length (filter ?P ?l)) > 0 =>
        assert (Hf : stored (rate_limit_violation user chat
                               (Moderation.utcnow_violation w) d) vid
                     ∈ filter P l)
    end.
    { apply list_elem_of_filter. split; [| exact Hin]. now repeat split. }
    destruct (filter _ (Database.user_violations t));
      [now apply elem_of_nil in Hf | cbn [length]; lia].
Qed.

Lemma mute_applied_effects_witness :
  exists act st',
    Moderation.handle_message default_config (world_at willing_bot 6) 7 9
      at_threshold = (Ok (Some act), st')
    /\ Moderation.history st' !! (9, 7) = None
    /\ Database.is_currently_muted
         (Database.get_user_stats (Moderation.table st')
            1700000009000000 7 9) = true.
Proof.
  eexists. eexists. split; [vm_compute; reflexivity |].
  match goal with
  | |- Moderation.history ?s !! _ = None /\ _ =>
      destruct (mute_applied_effects default_config (world_at willing_bot 6)
                  7 9 at_threshold s _ ltac:(vm_compute; reflexivity))
        as (Hnone & _ & _ & Hmuted)
  end.
  split; [exact Hnone |]. apply Hmuted. vm_compute. reflexivity.
Defined.

(** X21.  Whatever its outcome, [handle_message] touches one actor only:
    the ledger keeps its rows and gains at most one at its end, the sent
    notifications are kept and only added to, every other actor's tracker
    entry is as before, and the ledger keeps its invariant. *)
Theorem handle_message_touches_one_actor
    (cfg : Config) (w : Moderation.World) (user chat : Z)
    (st : Moderation.State) :
  let out := Moderation.handle_message cfg w user chat st in
  (exists added,
     Database.user_violations (Moderation.table out.2)
     = Database.user_violations (Moderation.table st) ++ added
     /\ (length added <= 1)%nat)
  /\ (exists sent, Moderation.outbox out.2 = Moderation.outbox st ++ sent)
  /\ (forall k, k <> (chat, user) ->
       Moderation.history out.2 !! k = Moderation.history st !! k)
  /\ (ledger_wf (Moderation.table st) -> ledger_wf (Moderation.table out.2)).
Proof.
  intros out.
  destruct (handle_message_frame cfg w user chat st) as (Hrows & Hsent & Hother).
  split; [exact Hrows |]. split; [exact Hsent |]. split; [exact Hother |].
  intros Hwf. subst out. unfold Moderation.handle_message.
  destruct (RateLimiter.add_message _ _ _ _ _) as [[|] h];
    cbn [Moderation.table Moderation.history Moderation.outbox snd];
    [| exact Hwf].
  destruct (get_mute_duration _ _) as [d | e]; [| exact Hwf].
  destruct (Database.add_violation _ _) as [[vid t] | e] eqn:Ha; [| exact Hwf].
  assert (Hwf' : ledger_wf t) by (eapply ledger_wf_add; eassumption).
  destruct (Moderation._apply_mute _ _ _ _ _); exact Hwf'.
Qed.

Lemma handle_message_touches_one_actor_witness :
  Moderation.history
    (Moderation.handle_message default_config (world_at willing_bot 6) 7 9
       (after_messages willing_bot [1; 2; 3; 4; 5]
          (Moderation.handle_message default_config (world_at willing_bot 0)
             8 9 empty_state).2)).2 !! (9, 8)
  = Some [0].
Proof.
  rewrite (proj1 (proj2 (proj2 (handle_message_touches_one_actor
             default_config (world_at willing_bot 6) 7 9
             (after_messages willing_bot [1; 2; 3; 4; 5]
                (Moderation.handle_message default_config
                   (world_at willing_bot 0) 8 9 empty_state).2))))
             (9, 8) ltac:(discriminate)).
  vm_compute. reflexivity.
Defined.

(** X22.  Who hears of a mute: each notification [handle_message] sends
    carries the actor, the ordinal and the duration it reports; one goes
    to the notification chat if that is set (and not 0), else one to each
    administrator; and none goes anywhere, not even to a configured
    notification chat, when notifications are off or no administrator is
    configured. *)
Theorem mute_notifications
    (cfg : Config) (w : Moderation.World) (user chat : Z)
    (st st' : Moderation.State) (act : Moderation.Action) :
  Moderation.handle_message cfg w user chat st = (Ok (Some act), st') ->
  exists sent,
    Moderation.outbox st' = Moderation.outbox st ++ sent
    /\ map Moderation.sent_to sent = recipients cfg
    /\ (admin_ids cfg = [] -> sent = [])
    /\ forall n, n ∈ sent ->
         Moderation.about_user n = user
         /\ Moderation.about_chat n = chat
         /\ Moderation.violation_number n = Moderation.violation_count act
         /\ Moderation.duration_minutes n
            = Moderation.action_mute_duration_minutes act
         /\ Moderation.about_username n = Moderation.action_username act.
Proof.
  intros H.
  apply handle_message_success_inv
    in H as (h & d & vid & t & name & deadline & _ & _ & _ & _ & -> & ->).
  eexists. split; [reflexivity |].
  cbn [Moderation.violation_count Moderation.action_mute_duration_minutes
       Moderation.action_username].
  unfold Moderation._notify_admins_of_mute, recipients.
  destruct (notify_admins cfg); cbn [negb orb].
  2: { split; [reflexivity |]. split; [reflexivity |].
       intros n Hn. now apply elem_of_nil in Hn. }
  destruct (admin_ids cfg) as [| a admins] eqn:Hads.
  { rewrite bool_decide_eq_true_2 by reflexivity.
    split; [reflexivity |]. split; [reflexivity |].
    intros n Hn. now apply elem_of_nil in Hn. }
  rewrite bool_decide_eq_false_2 by discriminate.
  unfold Moderation.chat_set.
  destruct (notification_chat cfg) as [c |]; [destruct (c =? 0) |].
  - split; [now rewrite map_map, map_id |]. split; [discriminate |].
    intros n Hn. apply list_elem_of_In, in_map_iff in Hn as (x & <- & _).
    now repeat split.
  - split; [reflexivity |]. split; [discriminate |].
    intros n Hn. apply list_elem_of_singleton in Hn as ->. now repeat split.
  - split; [now rewrite map_map, map_id |]. split; [discriminate |].
    intros n Hn. apply list_elem_of_In, in_map_iff in Hn as (x & <- & _).
    now repeat split.
Qed.

Lemma mute_notifications_witness :
  map Moderation.sent_to
    (Moderation.outbox
       (Moderation.handle_message (with_ladder admin_config [60])
          (world_at willing_bot 6) 8 9
          (Moderation.mkState (<[(9, 8) := [1; 2; 3; 4; 5]]> ∅)
             Database.initialize [])).2)
  = [7].
Proof.
  destruct (Moderation.handle_message (with_ladder admin_config [60])
              (world_at willing_bot 6) 8 9
              (Moderation.mkState (<[(9, 8) := [1; 2; 3; 4; 5]]> ∅)
                 Database.initialize []))
    as [[[act |] | e] st'] eqn:Hrun;
    [| vm_compute in Hrun; discriminate | vm_compute in Hrun; discriminate].
  destruct (mute_notifications _ _ _ _ _ _ _ Hrun) as (sent & Hout & Hto & _).
  cbn [snd]. rewrite Hout. cbn [Moderation.outbox app]. rewrite Hto.
  reflexivity.
Defined.

Lemma violation_count_later (t : Database.Table) (u1 u2 user chat days : Z) :
  u1 <= u2 ->
  Database.get_user_violation_count t u2 user chat days
  <= Database.get_user_violation_count t u1 user chat days.
Proof.
  intros Hle. unfold Database.get_user_violation_count.
  rewrite <- (list_filter_filter_l
               (λ r, Database.user_id r = user ∧ Database.chat_id r = chat
                     ∧ Database.timestamp r
                       > u2 - Database.timedelta_days days)
               (λ r, Database.user_id r = user ∧ Database.chat_id r = chat
                     ∧ Database.timestamp r
                       > u1 - Database.timedelta_days days)).
  - match goal with
    | |- Z.of_nat (length (filter ?P ?l)) <= _ =>
        pose proof (length_filter P l)
    end. lia.
  - intros r (Hu & Hc & Hts). repeat split; try assumption. lia.
Qed.


Lemma filter_all_true {A : Type} (P : A -> Prop) `{!forall x, Decision (P x)}
    (l : list A) :
  (forall x, x ∈ l -> P x) -> filter P l = l.
Proof.
  induction l as [| x l IH]; intros Hall; [reflexivity |].
  rewrite filter_cons_True by (apply Hall, list_elem_of_here).
  f_equal. apply IH. intros y Hy. apply Hall. now apply list_elem_of_further.
Qed.

(** X23.  Escalation from one mute to the next: when an actor is muted,
    and muted again on a ledger that holds what the first mute left, the
    second ordinal is at most one above the first, and at least 2 as long
    as the first record is inside the 30-day lookback. *)
Theorem ordinal_after_mute
    (cfg : Config) (w1 w2 : Moderation.World) (user chat : Z)
    (st st1 st2 st3 : Moderation.State) (a1 a2 : Moderation.Action) :
  Moderation.handle_message cfg w1 user chat st = (Ok (Some a1), st1) ->
  Moderation.handle_message cfg w2 user chat st2 = (Ok (Some a2), st3) ->
  Moderation.table st2 = Moderation.table st1 ->
  Moderation.utcnow_lookback w1 <= Moderation.utcnow_lookback w2 ->
  Moderation.violation_count a2 <= Moderation.violation_count a1 + 1
  /\ (Moderation.utcnow_violation w1
      > Moderation.utcnow_lookback w2 - Database.timedelta_days 30 ->
      2 <= Moderation.violation_count a2).
Proof.
  intros H1 H2 Ht Hle.
  apply handle_message_success_inv
    in H1 as (h1 & d1 & vid1 & t1 & n1 & dl1 & _ & _ & Ha1 & _ & -> & ->).
  apply handle_message_success_inv
    in H2 as (h2 & d2 & vid2 & t2 & n2 & dl2 & _ & _ & _ & _ & -> & _).
  cbn [Moderation.violation_count Moderation.table] in *. rewrite Ht.
  apply add_violation_rows in Ha1.
  rewrite (violation_count_rows _ _ _ (Moderation.utcnow_lookback w2)
             user chat 30 Ha1).
  cbn [stored rate_limit_violation Database.user_id Database.chat_id
       Database.timestamp].
  pose proof (violation_count_later (Moderation.table st)
                (Moderation.utcnow_lookback w1) (Moderation.utcnow_lookback w2)
                user chat 30 Hle) as Hmono.
  assert (Hnn : 0 <= Database.get_user_violation_count (Moderation.table st)
                       (Moderation.utcnow_lookback w2) user chat 30)
    by (unfold Database.get_user_violation_count; lia).
  split.
  - case_bool_decide; lia.
  - intros Hin. rewrite bool_decide_eq_true_2 by now repeat split. lia.
Qed.

Lemma ordinal_after_mute_witness :
  exists a2 st3,
    Moderation.handle_message default_config (world_at willing_bot 20) 7 9
      (after_messages willing_bot [15; 16; 17; 18; 19]
         (Moderation.handle_message default_config (world_at willing_bot 6)
            7 9 at_threshold).2)
    = (Ok (Some a2), st3)
    /\ 2 <= Moderation.violation_count a2.
Proof.
  destruct (Moderation.handle_message default_config (world_at willing_bot 6)
              7 9 at_threshold) as [[[a1 |] | e] st1] eqn:H1;
    [| vm_compute in H1; discriminate | vm_compute in H1; discriminate].
  cbn [snd].
  destruct (Moderation.handle_message default_config (world_at willing_bot 20)
              7 9 (after_messages willing_bot [15; 16; 17; 18; 19] st1))
    as [[[a2 |] | e] st3] eqn:H2.
  - exists a2, st3. split; [reflexivity |].
    apply (ordinal_after_mute default_config (world_at willing_bot 6)
             (world_at willing_bot 20) 7 9 _ _ _ _ _ _ H1 H2).
    + vm_compute in H1. injection H1 as _ <-. vm_compute. reflexivity.
    + vm_compute. discriminate.
    + vm_compute. reflexivity.
  - exfalso. vm_compute in H1. injection H1 as _ <-.
    vm_compute in H2. discriminate.
  - exfalso. vm_compute in H1. injection H1 as _ <-.
    vm_compute in H2. discriminate.
Defined.

(** X24.  A failed mute does not stop the detection: the tracker is not
    reset, so as long as the stored burst is inside the window of a later
    message of the same actor, that message is judged a violation again. *)
Theorem failed_mute_retriggers
    (cfg : Config) (w : Moderation.World) (user chat : Z)
    (st : Moderation.State) (h : RateLimiter.History) (d vid : Z)
    (t : Database.Table) (err name : string) (now2 : Z) :
  RateLimiter.add_message cfg (Moderation.time_time w) user chat
    (Moderation.history st) = (true, h) ->
  get_mute_duration cfg
    (Database.get_user_violation_count (Moderation.table st)
       (Moderation.utcnow_lookback w) user chat 30 + 1) = Ok d ->
  Database.add_violation (Moderation.table st)
    (rate_limit_violation user chat (Moderation.utcnow_violation w) d)
  = Ok (vid, t) ->
  Moderation._apply_mute (Moderation.bot w) (Moderation.utcnow_mute w)
    user chat d = Moderation.MuteFailed err name ->
  (forall x, x ∈ default [] (h !! (chat, user)) ->
             x > now2 - antiflood_window_seconds cfg) ->
  (RateLimiter.add_message cfg now2 user chat
     (Moderation.history
        (Moderation.handle_message cfg w user chat st).2)).1 = true.
Proof.
  intros Hx Hd Ha Hm Hall.
  unfold Moderation.handle_message. rewrite Hx.
  cbn [Moderation.table Moderation.history Moderation.outbox].
  rewrite Hd.
  fold (rate_limit_violation user chat (Moderation.utcnow_violation w) d).
  rewrite Ha, Hm. cbn [snd Moderation.history].
  pose proof (add_message_exceeded _ _ _ _ _ _ Hx) as Hlen.
  apply add_message_true_not_exempt in Hx as [He _].
  unfold RateLimiter.add_message.
  rewrite check_rate_limit_counted by assumption. cbn [fst].
  apply bool_decide_eq_true. rewrite length_app. cbn [length].
  assert (Hk : kept cfg user chat now2 h = default [] (h !! (chat, user)))
    by (unfold kept; now apply filter_all_true).
  rewrite Hk. lia.
Qed.

Lemma failed_mute_retriggers_witness :
  (RateLimiter.add_message default_config 7 7 9
     (Moderation.history
        (Moderation.handle_message default_config (world_at refusing_bot 6)
           7 9 at_threshold).2)).1 = true.
Proof.
  apply (failed_mute_retriggers default_config (world_at refusing_bot 6) 7 9
           at_threshold (<[(9, 7) := [1; 2; 3; 4; 5; 6]]> ∅) 60 1
           {| Database.user_violations :=
                [stored (rate_limit_violation 7 9 1700000006000000 60) 1];
              Database.sqlite_sequence := 1 |}
           "Not enough rights to restrict" "alice" 7);
    try (vm_compute; reflexivity).
  intros x Hx. rewrite lookup_insert_eq in Hx. cbn in Hx.
  repeat (apply elem_of_cons in Hx as [-> | Hx]; [cbn; lia |]).
  now apply elem_of_nil in Hx.
Defined.



(** ** Configuration: token, defaults and list texts *)

(** X26.  Construction demands a token: it fails with the message
    "BOT_TOKEN is required" exactly when [BOT_TOKEN] is unset or empty
    while [PYTEST_CURRENT_TEST] is unset or empty too. *)
Theorem Config_init_requires_token (env : Environ) :
  Config_init env = Raise (ValueError "BOT_TOKEN is required")
  <-> getenv env "BOT_TOKEN" "" = ""%string
      /\ default ""%string (env "PYTEST_CURRENT_TEST"%string) = ""%string.
Proof.
  unfold Config_init. split.
  - intros H.
    destruct (truthy (getenv env "BOT_TOKEN" "")) eqn:Ht;
      destruct (truthy (default ""%string (env "PYTEST_CURRENT_TEST"%string)))
        eqn:Hp; cbn [negb andb] in H.
    4: { split.
         - now destruct (getenv env "BOT_TOKEN" "").
         - now destruct (default ""%string (env "PYTEST_CURRENT_TEST"%string)). }
    all: exfalso; unfold id_list, int_env in H;
      repeat match type of H with
        | rbind (if ?c then _ else _) _ = _ => destruct c
        | rbind (match ?o with Some _ => _ | None => _ end) _ = _ =>
            destruct o
        | rbind (Ok _) _ = _ => cbn [rbind] in H
        | rbind (Raise _) _ = _ => cbn [rbind] in H
        end; discriminate.
  - intros [Ht Hp]. rewrite Ht, Hp. reflexivity.
Qed.

Lemma Config_init_requires_token_witness :
  Config_init (fun _ => None) = Raise (ValueError "BOT_TOKEN is required").
Proof.
  apply Config_init_requires_token. split; reflexivity.
Defined.

Lemma split_comma_snoc (s : string) :
  split_comma (String.append s ",") = split_comma s ++ [EmptyString].
Proof.
  induction s as [| c s IH]; [reflexivity |].
  change (String.append (String c s) ",")
    with (String c (String.append s ",")).
  cbn [split_comma]. rewrite IH.
  destruct (Ascii.eqb c ","); [reflexivity |].
  destruct (split_comma s) as [| x xs] eqn:Hs;
    [now destruct (split_comma_nonempty s) | reflexivity].
Qed.

Lemma ints_snoc_blank (xs : list string) : ints (xs ++ [EmptyString]) = None.
Proof.
  induction xs as [| x xs IH]; [reflexivity |].
  cbn [app ints]. destruct (py_int x); [| reflexivity].
  now rewrite IH.
Qed.

(** X27.  A trailing comma is read differently by the two kinds of list:
    in [ADMIN_IDS] and [WHITELISTED_USERS] the blank item is skipped and
    the list is the one without the comma; in [ESCALATION_DURATIONS] the
    blank item is no integer, and the whole configured ladder is dropped
    for the default one. *)
Theorem trailing_comma_in_lists :
  (forall s msg,
     s <> ""%string -> id_list (String.append s ",") msg = id_list s msg)
  /\ (forall env cfg s,
       Config_init env = Ok cfg ->
       env "ESCALATION_DURATIONS"%string = Some (String.append s ",") ->
       escalation_durations cfg = default_escalation).
Proof.
  split.
  - intros s msg Hs. unfold id_list.
    assert (Ht : truthy (String.append s ",") = true)
      by now destruct s.
    assert (Ht' : truthy s = true) by now destruct s.
    rewrite Ht, Ht', split_comma_snoc, map_app, List.filter_app.
    cbn [map List.filter]. change (truthy (strip "")) with false.
    cbn iota. now rewrite app_nil_r.
  - intros env cfg s H Hs. init_steps H. injection H as <-.
    cbn [escalation_durations]. unfold getenv. rewrite Hs.
    change (default "60,360,1440,10080"%string (Some (String.append s ",")))
      with (String.append s ",").
    rewrite split_comma_snoc, map_app.
    change (map strip [EmptyString]) with [EmptyString].
    now rewrite ints_snoc_blank.
Qed.

Lemma trailing_comma_in_lists_witness :
  id_list "7,8," "ADMIN_IDS must be comma-separated integers" = Ok [7; 8]
  /\ exists cfg,
       Config_init (setenv (token_env "token") "ESCALATION_DURATIONS" "5,10,")
       = Ok cfg
       /\ escalation_durations cfg = default_escalation.
Proof.
  split.
  - rewrite (proj1 trailing_comma_in_lists "7,8" _ ltac:(discriminate)).
    vm_compute. reflexivity.
  - eexists. split; [vm_compute; reflexivity |].
    eapply (proj2 trailing_comma_in_lists
              (setenv (token_env "token") "ESCALATION_DURATIONS" "5,10,")
              _ "5,10").
    + vm_compute. reflexivity.
    + reflexivity.
Defined.

(** ** The callers in bot.py *)

Section Maintenance.
Import RateLimiter Database Moderation.

Lemma add_message_verdict_cleanup (cfg : Config) (now now' user chat : Z)
    (h : History) :
  0 <= antiflood_window_seconds cfg ->
  now <= now' ->
  (add_message cfg now' user chat (cleanup_old_entries cfg now h)).1
  = (add_message cfg now' user chat h).1.
Proof.
  intros HW Hnow. unfold add_message.
  destruct (is_exempt_from_rate_limit cfg user) eqn:He.
  - now rewrite !check_rate_limit_exempt.
  - rewrite !check_rate_limit_counted by assumption. cbn [fst].
    now rewrite kept_cleanup.
Qed.

Lemma unique_conflict_deactivate (t : Table) (utcnow hours_back : Z)
    (v : UserViolation) :
  unique_conflict (deactivate_old_violations t utcnow hours_back) v
  = unique_conflict t v.
Proof.
  destruct (deactivate_rows t utcnow hours_back) as (f & Hrows & Hfacts & _).
  unfold unique_conflict. rewrite Hrows. cbn [user_violations].
  induction (user_violations t) as [| r rows IH]; [reflexivity |].
  cbn [map existsb]. rewrite IH. f_equal.
  specialize (Hfacts r). unfold row_facts in Hfacts.
  injection Hfacts as _ -> -> _ -> _. reflexivity.
Qed.

Lemma unique_conflict_cleanup (t : Table) (utcnow days_to_keep : Z)
    (v : UserViolation) :
  utcnow - timedelta_days days_to_keep <= timestamp v ->
  unique_conflict (cleanup_old_data t utcnow days_to_keep) v
  = unique_conflict t v.
Proof.
  intros Hts. unfold unique_conflict, cleanup_old_data.
  cbn [user_violations].
  induction (user_violations t) as [| r rows IH]; [reflexivity |].
  rewrite filter_cons. cbn [existsb].
  destruct (decide _) as [Hkeep | Hdrop]; cbn [existsb]; rewrite IH;
    [reflexivity |].
  assert (Hold : timestamp r < utcnow - timedelta_days days_to_keep).
  { destruct (Z_lt_dec (timestamp r) (utcnow - timedelta_days days_to_keep));
      [assumption | tauto]. }
  replace (timestamp r =? timestamp v) with false by (symmetry; lia).
  now rewrite andb_false_r.
Qed.

Lemma next_id_wf (t : Table) :
  ledger_wf t ->
  Z.max (sqlite_sequence t) (max_rowid (user_violations t))
  = Z.max (sqlite_sequence t) 0.
Proof.
  intros (Hid & _ & _).
  pose proof (max_rowid_nonneg (user_violations t)) as Hnn.
  assert (Hle : max_rowid (user_violations t) <= Z.max (sqlite_sequence t) 0).
  { induction (user_violations t) as [| r rows IH]; [cbn; lia |].
    change (Z.max (default 0 (id_ r)) (max_rowid rows)
            <= Z.max (sqlite_sequence t) 0).
    destruct (Hid r) as (i & Hi & Hrange); [apply list_elem_of_here |].
    rewrite Hi. cbn.
    assert (max_rowid rows <= Z.max (sqlite_sequence t) 0).
    { apply IH; [| apply max_rowid_nonneg].
      intros r' Hr'. apply Hid. now apply list_elem_of_further. }
    lia. }
  lia.
Qed.

(** Two ledgers on which [handle_message], at the readings of [w], sees
    the same. *)
Lemma handle_message_same_view (cfg : Config) (w : World) (user chat : Z)
    (st1 st2 : State) :
  (add_message cfg (time_time w) user chat (history st1)).1
  = (add_message cfg (time_time w) user chat (history st2)).1 ->
  get_user_violation_count (table st1) (utcnow_lookback w) user chat 30
  = get_user_violation_count (table st2) (utcnow_lookback w) user chat 30 ->
  (forall d,
     unique_conflict (table st1)
       (rate_limit_violation user chat (utcnow_violation w) d)
     = unique_conflict (table st2)
         (rate_limit_violation user chat (utcnow_violation w) d)) ->
  Z.max (sqlite_sequence (table st1)) (max_rowid (user_violations (table st1)))
  = Z.max (sqlite_sequence (table st2))
      (max_rowid (user_violations (table st2))) ->
  (handle_message cfg w user chat st1).1
  = (handle_message cfg w user chat st2).1.
Proof.
  intros Hv Hc Hu Hid. unfold handle_message.
  destruct (add_message cfg (time_time w) user chat (history st1)) as [b1 h1].
  destruct (add_message cfg (time_time w) user chat (history st2)) as [b2 h2].
  cbn [fst] in Hv. subst b2.
  destruct b1; [| reflexivity].
  cbn [table history outbox]. rewrite Hc.
  destruct (get_mute_duration _ _) as [d | e]; [| reflexivity].
  fold (rate_limit_violation user chat (utcnow_violation w) d).
  unfold add_violation. rewrite (Hu d), Hid.
  destruct (unique_conflict _ _); [reflexivity |].
  destruct (_apply_mute _ _ _ _ _); reflexivity.
Qed.

End Maintenance.

(** X28.  The hourly maintenance is invisible to the handling of later
    messages.  Under a window that is not negative and on a ledger that
    keeps its invariant, after a round of [_periodic_cleanup]
    [handle_message] answers every later message exactly as it would have
    without the round: the same verdict, ordinal, duration and record id,
    or the same exception. *)
Theorem periodic_cleanup_transparent
    (cfg : Config) (c : Bot.Readings) (st : Moderation.State)
    (last : option Z) (w : Moderation.World) (user chat : Z) :
  0 <= antiflood_window_seconds cfg ->
  ledger_wf (Moderation.table st) ->
  Bot.time_sweep c <= Moderation.time_time w ->
  Bot.utcnow_purge c <= Moderation.utcnow_lookback w ->
  Bot.utcnow_purge c <= Moderation.utcnow_violation w ->
  (Moderation.handle_message cfg w user chat
     (Bot._periodic_cleanup cfg c st last).1).1
  = (Moderation.handle_message cfg w user chat st).1
  /\ ledger_wf (Moderation.table (Bot._periodic_cleanup cfg c st last).1).
Proof.
  intros HW Hwf Hsweep Hlook Hviol.
  pose proof (ledger_wf_deactivate _ (Bot.utcnow_deactivate c) 24 Hwf) as Hwf1.
  pose proof (ledger_wf_cleanup _ (Bot.utcnow_purge c) 90 Hwf1) as Hwf2.
  assert (Hd : handle_message_view cfg w user chat st
                 {| Moderation.history :=
                      RateLimiter.cleanup_old_entries cfg (Bot.time_sweep c)
                        (Moderation.history st);
                    Moderation.table :=
                      Database.deactivate_old_violations (Moderation.table st)
                        (Bot.utcnow_deactivate c) 24;
                    Moderation.outbox := Moderation.outbox st |}).
  { apply handle_message_same_view;
      cbn [Moderation.history Moderation.table].
    - now apply add_message_verdict_cleanup.
    - apply violation_count_deactivate.
    - intros d. apply unique_conflict_deactivate.
    - now rewrite !next_id_wf. }
  assert (Hp : handle_message_view cfg w user chat st
                 {| Moderation.history :=
                      RateLimiter.cleanup_old_entries cfg (Bot.time_sweep c)
                        (Moderation.history st);
                    Moderation.table :=
                      Database.cleanup_old_data
                        (Database.deactivate_old_violations
                           (Moderation.table st) (Bot.utcnow_deactivate c) 24)
                        (Bot.utcnow_purge c) 90;
                    Moderation.outbox := Moderation.outbox st |}).
  { apply handle_message_same_view;
      cbn [Moderation.history Moderation.table].
    - now apply add_message_verdict_cleanup.
    - rewrite violation_count_cleanup by lia.
      apply violation_count_deactivate.
    - intros d. rewrite unique_conflict_cleanup.
      + apply unique_conflict_deactivate.
      + cbn [rate_limit_violation Database.timestamp].
        unfold Database.timedelta_days. lia.
    - now rewrite !next_id_wf. }
  unfold Bot._periodic_cleanup.
  destruct last as [l |]; [destruct (_ >? _) |]; cbn [fst Moderation.table];
    (split; [assumption | assumption]).
Qed.

Lemma mixed_ledger_wf : ledger_wf mixed_ledger.
Proof.
  split; [| split].
  - intros r Hr. unfold mixed_ledger in Hr. cbn [Database.user_violations] in Hr.
    repeat (apply elem_of_cons in Hr as [-> | Hr];
            [eexists; split; [reflexivity | cbn; lia] |]).
    inversion Hr.
  - cbn. nodup_closed.
  - cbn. nodup_closed.
Qed.

Lemma periodic_cleanup_transparent_witness :
  Database.user_violations
    (Moderation.table
       (Bot._periodic_cleanup default_config round_at_6 busy_state
          (Some 0)).1)
  = [stored violation_a 2;
     stored (rate_limit_violation 8 9 1700000000000500 60) 3]
  /\ (Moderation.handle_message default_config (world_at willing_bot 6) 7 9
        (Bot._periodic_cleanup default_config round_at_6 busy_state
           (Some 0)).1).1
     = (Moderation.handle_message default_config (world_at willing_bot 6) 7 9
          busy_state).1.
Proof.
  split; [vm_compute; reflexivity |].
  apply (periodic_cleanup_transparent default_config round_at_6 busy_state
           (Some 0) (world_at willing_bot 6) 7 9).
  - cbn. lia.
  - exact mixed_ledger_wf.
  - cbn. lia.
  - cbn. lia.
  - cbn. lia.
Defined.

Section Commands.
Import Database Moderation.

Lemma manual_mute_state (w : World) (user chat duration : Z) (why : string)
    (st : State) :
  history (manual_mute w user chat duration why st).2 = history st
  /\ outbox (manual_mute w user chat duration why st).2 = outbox st
  /\ (table (manual_mute w user chat duration why st).2 = table st
      \/ exists vid,
           user_violations (table (manual_mute w user chat duration why st).2)
           = user_violations (table st)
             ++ [stored (manual_violation user chat (utcnow_violation w)
                           duration) vid]).
Proof.
  unfold manual_mute.
  fold (manual_violation user chat (utcnow_violation w) duration).
  destruct (add_violation _ _) as [[vid t] | e] eqn:Ha.
  - apply add_violation_rows in Ha.
    destruct (_apply_mute _ _ _ _ _);
      cbn [snd history outbox table];
      (split; [reflexivity |]); (split; [reflexivity |]);
      right; exists vid; exact Ha.
  - cbn [snd]. split; [reflexivity |]. split; [reflexivity |]. now left.
Qed.

End Commands.

(** X29.  What [/mute] never does: it leaves the tracker and the sent
    notifications alone, and it changes the ledger only when the sender is
    an administrator, the message replied to is from a user who is not an
    administrator, and the duration is positive; the change is then one
    new record of type [manual] for that user in that chat, of 60 minutes
    when no argument was given. *)
Theorem cmd_mute_guards
    (cfg : Config) (w : Moderation.World) (update : Bot.Update)
    (args : list string) (st st' : Moderation.State)
    (r : result (option string)) :
  Bot.cmd_mute cfg w update args st = (r, st') ->
  Moderation.history st' = Moderation.history st
  /\ Moderation.outbox st' = Moderation.outbox st
  /\ (Moderation.table st' <> Moderation.table st ->
      exists m sender target row,
        Bot.message update = Some m
        /\ Bot.from_user m = Some sender
        /\ Bot.reply_to_message m = Some (Some target)
        /\ sender ∈ admin_ids cfg
        /\ (target ∉ admin_ids cfg)
        /\ Database.user_violations (Moderation.table st')
           = Database.user_violations (Moderation.table st) ++ [row]
        /\ Database.violation_type row = Database.manual
        /\ Database.user_id row = target
        /\ Database.chat_id row = Bot.chat_id m
        /\ 0 < Database.mute_duration_minutes row
        /\ (args = [] -> Database.mute_duration_minutes row = 60)).
Proof.
  unfold Bot.cmd_mute. intros H.
  assert (Hsame : forall (x : result (option string)),
            (x, st) = (r, st') ->
            Moderation.history st' = Moderation.history st
            /\ Moderation.outbox st' = Moderation.outbox st
            /\ (Moderation.table st' <> Moderation.table st ->
                exists m sender target row,
                  Bot.message update = Some m
                  /\ Bot.from_user m = Some sender
                  /\ Bot.reply_to_message m = Some (Some target)
                  /\ sender ∈ admin_ids cfg
                  /\ (target ∉ admin_ids cfg)
                  /\ Database.user_violations (Moderation.table st')
                     = Database.user_violations (Moderation.table st) ++ [row]
                  /\ Database.violation_type row = Database.manual
                  /\ Database.user_id row = target
                  /\ Database.chat_id row = Bot.chat_id m
                  /\ 0 < Database.mute_duration_minutes row
                  /\ (args = [] -> Database.mute_duration_minutes row = 60))).
  { intros x Hx. injection Hx as _ <-.
    split; [reflexivity |]. split; [reflexivity |]. intros Hne. now destruct Hne. }
  destruct (Bot.message update) as [m |] eqn:Hm; [| now apply Hsame in H].
  destruct (Bot.from_user m) as [sender |] eqn:Hfrom; [| now apply Hsame in H].
  destruct (is_admin cfg sender) eqn:Hadm; cbn [negb] in H;
    [| now apply Hsame in H].
  destruct (Bot.reply_to_message m) as [[target |] |] eqn:Hreply;
    [| now apply Hsame in H | now apply Hsame in H].
  destruct (is_admin cfg target) eqn:Htadm; [now apply Hsame in H |].
  apply bool_decide_eq_true in Hadm. apply bool_decide_eq_false in Htadm.
  assert (Hmute : forall d,
            0 < d -> (args = [] -> d = 60) ->
            (Moderation.manual_mute w target (Bot.chat_id m) d
               "Manual mute by admin" st).2 = st' ->
            Moderation.history st' = Moderation.history st
            /\ Moderation.outbox st' = Moderation.outbox st
            /\ (Moderation.table st' <> Moderation.table st ->
                exists m0 sender0 target0 row,
                  Some m = Some m0
                  /\ Bot.from_user m0 = Some sender0
                  /\ Bot.reply_to_message m0 = Some (Some target0)
                  /\ sender0 ∈ admin_ids cfg
                  /\ (target0 ∉ admin_ids cfg)
                  /\ Database.user_violations (Moderation.table st')
                     = Database.user_violations (Moderation.table st) ++ [row]
                  /\ Database.violation_type row = Database.manual
                  /\ Database.user_id row = target0
                  /\ Database.chat_id row = Bot.chat_id m0
                  /\ 0 < Database.mute_duration_minutes row
                  /\ (args = [] -> Database.mute_duration_minutes row = 60))).
  { intros d Hd Hargs Hrun.
    destruct (manual_mute_state w target (Bot.chat_id m) d
                "Manual mute by admin" st) as (Hh & Ho & Ht).
    rewrite Hrun in Hh, Ho, Ht.
    split; [exact Hh |]. split; [exact Ho |].
    intros Hne. destruct Ht as [Ht | (vid & Ht)]; [contradiction |].
    exists m, sender, target. eexists.
    repeat (split; [first [reflexivity | eassumption] |]).
    exact Hargs. }
  destruct args as [| arg rest].
  - apply (Hmute 60); [lia | reflexivity |].
    destruct (Moderation.manual_mute w target (Bot.chat_id m) 60
                "Manual mute by admin" st) as [[[? ? ? ? ? ? | ?] | ?] s];
      try destruct (Bot._format_duration _); now injection H.
  - destruct (py_int arg) as [d |]; [| now apply Hsame in H].
    destruct (Z.leb_spec d 0) as [Hle | Hgt]; [now apply Hsame in H |].
    apply (Hmute d); [lia | discriminate |].
    destruct (Moderation.manual_mute w target (Bot.chat_id m) d
                "Manual mute by admin" st) as [[[? ? ? ? ? ? | ?] | ?] s];
      try destruct (Bot._format_duration _); now injection H.
Qed.

Lemma cmd_mute_guards_witness :
  Moderation.table
    (Bot.cmd_mute admin_config (world_at willing_bot 0)
       {| Bot.message :=
            Some {| Bot.from_user := Some 8;
                    Bot.chat_id := 9;
                    Bot.message_id := 100;
                    Bot.reply_to_message := Some (Some 5) |} |}
       ["30"%string] empty_state).2
  = Database.initialize.
Proof.
  destruct (Bot.cmd_mute admin_config (world_at willing_bot 0)
              {| Bot.message :=
                   Some {| Bot.from_user := Some 8;
                           Bot.chat_id := 9;
                           Bot.message_id := 100;
                           Bot.reply_to_message := Some (Some 5) |} |}
              ["30"%string] empty_state) as [r st'] eqn:Hrun.
  destruct (cmd_mute_guards _ _ _ _ _ _ _ Hrun) as (_ & _ & Hchange).
  cbn [snd].
  destruct (decide (Database.user_violations (Moderation.table st') = []))
    as [Hnil | Hne].
  - vm_compute in Hrun. injection Hrun as _ <-. reflexivity.
  - exfalso.
    destruct Hchange as (m & sender & target & row & Hm & Hfrom & _ & Hadm & _).
    + intros Heq. apply Hne. now rewrite Heq.
    + injection Hm as <-. injection Hfrom as <-.
      cbn in Hadm. apply list_elem_of_singleton in Hadm. discriminate.
Defined.

(** X30.  The duration text never overstates: [_format_duration] shows a
    whole number of minutes for a duration below 60, of hours from 60 to
    1439 and of days from 1440 on, and of no other unit, the number being
    the duration rounded down to the unit, at least 1 from an hour on,
    with the plural ending unless the number is 1; a number of more than
    4300 digits is not shown, [ValueError] is raised.  The text in the
    administrators' notification is the same, except for one minute, which
    it calls "1 minutes". *)
Theorem format_duration_rounds_down (minutes : Z) :
  (exists n unit len,
     (unit, len) ∈ [("minute"%string, 1); ("hour"%string, 60);
                    ("day"%string, 1440)]
     /\ len * n <= minutes < len * (n + 1)
     /\ (minutes < 60 <-> len = 1)
     /\ (60 <= minutes < 1440 <-> len = 60)
     /\ (1440 <= minutes <-> len = 1440)
     /\ (60 <= minutes -> 1 <= n)
     /\ (Z.of_nat (String.length (py_str (Z.abs n))) <= max_str_digits ->
         Bot._format_duration minutes
         = Ok (String.append (py_str n)
                 (String.append " "
                    (String.append unit (if n =? 1 then "" else "s")))))
     /\ (max_str_digits < Z.of_nat (String.length (py_str (Z.abs n))) ->
         exists msg, Bot._format_duration minutes = Raise (ValueError msg)))
  /\ (minutes <> 1 ->
      Moderation.duration_str minutes = Bot._format_duration minutes)
  /\ (minutes = 1 ->
      Moderation.duration_str minutes = Ok "1 minutes"%string
      /\ Bot._format_duration minutes = Ok "1 minute"%string).
Proof.
  assert (Hshort : forall n,
            Z.of_nat (String.length (py_str (Z.abs n))) <= max_str_digits ->
            format_int n = Ok (py_str n)).
  { intros n Hn. unfold format_int.
    destruct (Z.ltb_spec max_str_digits
                (Z.of_nat (String.length (py_str (Z.abs n)))));
      [lia | reflexivity]. }
  assert (Hlong : forall n,
            max_str_digits < Z.of_nat (String.length (py_str (Z.abs n))) ->
            exists msg, format_int n = Raise (ValueError msg)).
  { intros n Hn. unfold format_int.
    destruct (Z.ltb_spec max_str_digits
                (Z.of_nat (String.length (py_str (Z.abs n)))));
      [eexists; reflexivity | lia]. }
  split; [| split].
  - unfold Bot._format_duration.
    destruct (Z.ltb_spec minutes 60) as [H60 | H60];
      [| destruct (Z.ltb_spec minutes 1440) as [H1440 | H1440]].
    + exists minutes, "minute"%string, 1.
      split; [apply list_elem_of_here |].
      repeat (split; [lia |]). split.
      * intros Hn. rewrite (Hshort _ Hn). cbn [rbind].
        now destruct (minutes =? 1).
      * intros Hn. destruct (Hlong _ Hn) as (msg & ->). now exists msg.
    + exists (minutes / 60), "hour"%string, 60.
      split; [apply list_elem_of_further, list_elem_of_here |].
      pose proof (Z.div_mod minutes 60 ltac:(lia)).
      pose proof (Z.mod_pos_bound minutes 60 ltac:(lia)).
      repeat (split; [lia |]). cbv zeta. split.
      * intros Hn. rewrite (Hshort _ Hn). cbn [rbind].
        now destruct (minutes / 60 =? 1).
      * intros Hn. destruct (Hlong _ Hn) as (msg & ->). now exists msg.
    + exists (minutes / 1440), "day"%string, 1440.
      split; [do 2 apply list_elem_of_further; apply list_elem_of_here |].
      pose proof (Z.div_mod minutes 1440 ltac:(lia)).
      pose proof (Z.mod_pos_bound minutes 1440 ltac:(lia)).
      repeat (split; [lia |]). cbv zeta. split.
      * intros Hn. rewrite (Hshort _ Hn). cbn [rbind].
        now destruct (minutes / 1440 =? 1).
      * intros Hn. destruct (Hlong _ Hn) as (msg & ->). now exists msg.
  - intros Hne. unfold Moderation.duration_str, Bot._format_duration.
    destruct (minutes <? 60); [| reflexivity].
    destruct (Z.eqb_spec minutes 1) as [-> | _]; [contradiction | reflexivity].
  - intros ->. split; reflexivity.
Qed.

Lemma format_duration_rounds_down_witness :
  Moderation.duration_str 119 = Ok "1 hour"%string
  /\ Bot._format_duration 119 = Ok "1 hour"%string.
Proof.
  rewrite (proj1 (proj2 (format_duration_rounds_down 119)) ltac:(discriminate)).
  split; vm_compute; reflexivity.
Defined.
